(** * Lead scoring and pricing service: a shallow embedding

    The Python service under [ml-service/src] is embedded as pure Rocq
    functions with explicit state passing.

    - Python [float] values are idealised as exact rationals ([Q]); every
      numeric statement below is about that idealisation.
    - A [dict] whose iteration order is irrelevant is a [gmap]; a dict that
      the code iterates over while performing effects (the scorer registry,
      the market conditions) is an association list in insertion order.
    - A function that can raise returns a [Result]; the exception carries
      the Python exception class and its message.
    - Module-level globals and metric counters are the [Globals] record of
      their module; the clock, the file system and [joblib.load] are the
      scorer's [Env]; the service threads a [World] made of these.
    - Methods that the sources call but that no class defines, and the
      booster's [predict], are the fields of the [External] classes: they
      may raise or return anything.  What scikit-learn computes numerically
      stays symbolic in the cells of the feature matrix.
    - Text is ASCII and categories are strings; Python's Unicode rules and
      the encoder's handling of other cell types are not modelled. *)

From Stdlib Require Import QArith Qround Qabs String Ascii List ZArith Lia Lqa.
From stdpp Require Import gmap strings list fin_maps sorting.

Set Warnings "-register-all".
Open Scope string_scope.

(** ** Python values, exceptions and results *)

Inductive PyExc :=
| ValueError (msg : string)
| TypeError (msg : string)
| KeyError (msg : string)
| IOError (msg : string)
| FileNotFoundError (msg : string)
| AttributeError (msg : string)
| RuntimeError (msg : string).

(** [str(e)] *)
Definition exc_str (e : PyExc) : string :=
  match e with
  | ValueError m | TypeError m | KeyError m | IOError m
  | FileNotFoundError m | AttributeError m | RuntimeError m => m
  end.

(** [type(e).__name__] *)
Definition exc_name (e : PyExc) : string :=
  match e with
  | ValueError _ => "ValueError"
  | TypeError _ => "TypeError"
  | KeyError _ => "KeyError"
  | IOError _ => "OSError"
  | FileNotFoundError _ => "FileNotFoundError"
  | AttributeError _ => "AttributeError"
  | RuntimeError _ => "RuntimeError"
  end.

Inductive Result (A : Type) :=
| Ok (a : A)
| Raise (e : PyExc).
Arguments Ok {A} a.
Arguments Raise {A} e.

#[global] Instance Result_bind : MBind Result := fun A B k r =>
  match r with
  | Ok a => k a
  | Raise e => Raise e
  end.

Definition is_ok {A} (r : Result A) : bool :=
  match r with Ok _ => true | Raise _ => false end.

Definition is_value_error {A} (r : Result A) : bool :=
  match r with Raise (ValueError _) => true | _ => false end.

#[global] Instance Q_eq_dec : EqDecision Q.
Proof. solve_decision. Defined.

(** Values found in configuration dictionaries. *)
Inductive CfgVal :=
| CNum (q : Q)
| CStr (s : string)
| CList (l : list string)
| CDict (d : list (string * CfgVal)).

(** [isinstance(v, (list, dict))] *)
Definition is_list_or_dict (v : CfgVal) : bool :=
  match v with
  | CList _ | CDict _ => true
  | _ => false
  end.

(** *** [float(str)] on plain decimal text

    Only the grammar [sign? digits ('.' digits?)?] and ['.' digits] is
    covered; exponents, [inf]/[nan], underscores and surrounding blanks,
    which Python also accepts, do not occur in the sources. *)

Definition digit_of (c : ascii) : option Z :=
  let n := nat_of_ascii c in
  if ((48 <=? n)%nat && (n <=? 57)%nat)%bool then Some (Z.of_nat (n - 48)) else None.

(** Longest digit prefix: its value, its length and the rest. *)
Fixpoint read_digits (s : string) (acc : Z) (len : nat) : Z * nat * string :=
  match s with
  | String c s' =>
      match digit_of c with
      | Some d => read_digits s' (acc * 10 + d)%Z (S len)
      | None => (acc, len, s)
      end
  | EmptyString => (acc, len, s)
  end.

Definition py_float_unsigned (s : string) : option Q :=
  let '(ip, n1, rest) := read_digits s 0%Z 0%nat in
  match rest with
  | EmptyString => if (n1 =? 0)%nat then None else Some (inject_Z ip)
  | String "."%char rest' =>
      let '(fp, n2, rest'') := read_digits rest' 0%Z 0%nat in
      match rest'' with
      | EmptyString =>
          if ((n1 =? 0)%nat && (n2 =? 0)%nat)%bool then None
          else Some (inject_Z ip + (fp # Pos.of_nat (10 ^ n2)))%Q
      | _ => None
      end
  | _ => None
  end.

Definition py_float (s : string) : Result Q :=
  let body :=
    match s with
    | String "-"%char s' => option_map Qopp (py_float_unsigned s')
    | String "+"%char s' => py_float_unsigned s'
    | _ => py_float_unsigned s
    end in
  match body with
  | Some q => Ok q
  | None => Raise (ValueError ("could not convert string to float: '" ++ s ++ "'"))
  end.

(** [", ".join(keys)], used where the source formats a set into a message. *)
Definition join_keys (ks : list string) : string :=
  String.concat ", " ks.

(** *** [max], [min], [round] and [abs] on numbers

    [max(a, b)] is [b] when [b > a] and [a] otherwise; [min(a, b)] is [b]
    when [b < a].  [round(x, n)] rounds half to even at [n] decimals. *)

Definition py_max (a b : Q) : Q := if negb (Qle_bool b a) then b else a.
Definition py_min (a b : Q) : Q := if negb (Qle_bool a b) then b else a.

Definition round_half_even (x : Q) : Z :=
  let f := Qfloor x in
  match (x - inject_Z f ?= 1 # 2)%Q with
  | Lt => f
  | Gt => (f + 1)%Z
  | Eq => if Z.even f then f else (f + 1)%Z
  end.

Definition py_round (x : Q) (ndigits : nat) : Q :=
  let scale := Pos.of_nat (10 ^ ndigits) in
  round_half_even (x * inject_Z (Z.pos scale)) # scale.

(** ** config/model_config.py *)

Module ModelConfig.

Definition MODEL_BASE_PATH : string := "/opt/ml/models".
Definition DEFAULT_SCORING_THRESHOLD : Q := 0.65.
Definition CONFIG_VERSION : string := "1.0.0".

Definition auto_config : gmap string CfgVal :=
  list_to_map
    [ ("numerical_features", CList ["age"; "driving_years"; "vehicle_age"; "annual_mileage"]);
      ("categorical_features", CList ["vehicle_make"; "vehicle_model"; "usage_type"; "coverage_type"]);
      ("text_features", CList ["occupation"; "location"]);
      ("feature_weights",
        CDict [("age", CNum 0.15); ("driving_years", CNum 0.2); ("vehicle_age", CNum 0.1)]);
      ("preprocessing", CDict [("scaling", CStr "standard"); ("encoding", CStr "label")]) ].

Definition home_config : gmap string CfgVal :=
  list_to_map
    [ ("numerical_features", CList ["property_age"; "square_footage"; "property_value"]);
      ("categorical_features", CList ["construction_type"; "roof_type"; "property_type"]);
      ("text_features", CList ["address"; "security_features"]);
      ("feature_weights", CDict [("property_value", CNum 0.25); ("property_age", CNum 0.15)]);
      ("preprocessing", CDict [("scaling", CStr "minmax"); ("encoding", CStr "onehot")]) ].

Definition FEATURE_CONFIG : gmap string (gmap string CfgVal) :=
  list_to_map [ ("auto", auto_config); ("home", home_config) ].

(** The instance attributes. [_cache] is [None] when caching is off. *)
Record t := mk {
  _vertical : string;
  _config : gmap string CfgVal;
  _cache : option (gmap string CfgVal);
  _version : Q
}.

(** What [_persist_configuration] hands to [yaml.dump]. *)
Record Blob := mkBlob {
  blob_version : Q;
  blob_config : gmap string CfgVal
}.

(** The backing store as this module sees it: which paths exist, which can
    be opened for writing, and what has been written. *)
Record Store := mkStore {
  st_exists : string -> bool;
  st_writable : string -> bool;
  st_written : list (string * Blob)
}.

(** [os.path.join] of two relative-free segments. *)
Definition path_join (a b : string) : string := a ++ "/" ++ b.

Definition _validate_config_override (self : t) (config : gmap string CfgVal)
  : Result unit :=
  match FEATURE_CONFIG !! _vertical self with
  | None => Raise (KeyError (_vertical self))
  | Some dflt =>
      let invalid_keys := List.filter (fun k => bool_decide (dflt !! k = None))
                                 (map fst (map_to_list config)) in
      match invalid_keys with
      | [] => Ok tt
      | _ => Raise (ValueError ("Invalid configuration keys: " ++ join_keys invalid_keys))
      end
  end.

Definition required_keys : list string :=
  [ "numerical_features"; "categorical_features"; "text_features";
    "feature_weights"; "preprocessing" ].

Definition _validate_configuration (config : gmap string CfgVal) : Result unit :=
  if negb (forallb (fun k => bool_decide (is_Some (config !! k))) required_keys)
  then Raise (ValueError "Missing required configuration keys")
  else if negb (forallb (fun k => match config !! k with
                                  | Some v => is_list_or_dict v
                                  | None => false
                                  end) required_keys)
  then Raise (ValueError "Invalid configuration value types")
  else Ok tt.

(** [ModelConfig(vertical, config_override, enable_caching)].  A falsy
    override ([None] or the empty dict) is skipped. *)
Definition __init__ (vertical : string) (config_override : option (gmap string CfgVal))
    (enable_caching : bool) : Result t :=
  match FEATURE_CONFIG !! vertical with
  | None => Raise (ValueError ("Unsupported insurance vertical: " ++ vertical))
  | Some dflt =>
      version ← py_float CONFIG_VERSION;
      let self := {| _vertical := vertical;
                     _config := dflt;
                     _cache := if enable_caching then Some ∅ else None;
                     _version := version |} in
      self ← (match config_override with
              | Some ov =>
                  if bool_decide (ov = ∅) then Ok self
                  else (_ ← _validate_config_override self ov;
                        Ok {| _vertical := vertical;
                              _config := ov ∪ dflt;
                              _cache := _cache self;
                              _version := version |})
              | None => Ok self
              end);
      _ ← _validate_configuration (_config self);
      Ok self
  end.

Definition cache_put (k : string) (v : CfgVal) (self : t) : t :=
  {| _vertical := _vertical self;
     _config := _config self;
     _cache := (fun c => <[k := v]> c) <$> _cache self;
     _version := _version self |}.

Definition cache_get (k : string) (self : t) : option CfgVal :=
  match _cache self with
  | Some c => c !! k
  | None => None
  end.

(** [get_model_path(model_version)]; a falsy version (None or the empty
    string) adds no segment.  A cached entry is returned as it is; one
    that is not a string is reported where the caller would use it as a
    path. *)
Definition get_model_path (st : Store) (model_version : option string) (self : t)
  : Result string * t :=
  let cache_key := "model_path_" ++ default "None" model_version in
  match cache_get cache_key self with
  | Some (CStr p) => (Ok p, self)
  | Some _ => (Raise (TypeError "expected str, bytes or os.PathLike object"), self)
  | None =>
      let base_path := path_join MODEL_BASE_PATH (_vertical self) in
      let base_path :=
        match model_version with
        | Some v => if bool_decide (v = "") then base_path
                    else path_join base_path ("v" ++ v)
        | None => base_path
        end in
      if negb (st_exists st base_path)
      then (Raise (FileNotFoundError ("Model path does not exist: " ++ base_path)), self)
      else (Ok base_path, cache_put cache_key (CStr base_path) self)
  end.

(** [0 <= threshold <= 1] on a configuration value. *)
Definition check_unit_interval (v : CfgVal) : Result bool :=
  match v with
  | CNum q => Ok (Qle_bool 0 q && Qle_bool q 1)
  | _ => Raise (TypeError "'<=' not supported between instances of 'int' and a non-number")
  end.

Definition get_scoring_threshold (self : t) : Result CfgVal * t :=
  let cache_key := "scoring_threshold" in
  match cache_get cache_key self with
  | Some v => (Ok v, self)
  | None =>
      let threshold := default (CNum DEFAULT_SCORING_THRESHOLD)
                               (_config self !! "scoring_threshold") in
      match check_unit_interval threshold with
      | Raise e => (Raise e, self)
      | Ok false => (Raise (ValueError "Invalid scoring threshold"), self)
      | Ok true => (Ok threshold, cache_put cache_key threshold self)
      end
  end.

Definition _persist_configuration (st : Store) (self : t) : Result unit * Store :=
  let config_path := path_join (path_join MODEL_BASE_PATH (_vertical self)) "config.yaml" in
  if st_writable st config_path
  then (Ok tt,
        {| st_exists := fun p => bool_decide (p = config_path) || st_exists st p;
           st_writable := st_writable st;
           st_written := st_written st ++
               [(config_path, {| blob_version := _version self;
                                 blob_config := _config self |})] |})
  else (Raise (IOError "Failed to persist configuration: cannot open file"), st).

(** [update_config(new_config, persist)].  The override validation runs
    before the [try]; inside it the configuration, the version and the
    cache are changed in this order, and the [except] branch restores
    [_config] only. *)
Definition update_config (st : Store) (new_config : gmap string CfgVal)
    (persist : bool) (self : t) : Result bool * t * Store :=
  match _validate_config_override self new_config with
  | Raise e => (Raise e, self, st)
  | Ok _ =>
      let old_config := _config self in
      let self1 := {| _vertical := _vertical self;
                      _config := new_config ∪ _config self;
                      _cache := (fun _ => ∅) <$> _cache self;
                      _version := (_version self + 0.1)%Q |} in
      if persist then
        match _persist_configuration st self1 with
        | (Ok _, st') => (Ok true, self1, st')
        | (Raise e, st') =>
            (Raise (ValueError ("Failed to update configuration: " ++ exc_str e)),
             {| _vertical := _vertical self1;
                _config := old_config;
                _cache := _cache self1;
                _version := _version self1 |},
             st')
        end
      else (Ok true, self1, st)
  end.

End ModelConfig.

(** ** State and exceptions

    A computation over a mutable state [S] that may raise.  The state
    reached when the exception is raised is kept, as in Python. *)

Definition SM (S A : Type) : Type := S -> Result A * S.

Definition sm_ret {S A} (a : A) : SM S A := fun s => (Ok a, s).
Definition sm_raise {S A} (e : PyExc) : SM S A := fun s => (Raise e, s).
Definition sm_lift {S A} (r : Result A) : SM S A := fun s => (r, s).
Definition sm_get {S} : SM S S := fun s => (Ok s, s).
Definition sm_modify {S} (f : S -> S) : SM S unit := fun s => (Ok tt, f s).

Definition sm_bind {S A B} (m : SM S A) (k : A -> SM S B) : SM S B :=
  fun s =>
    match m s with
    | (Ok a, s') => k a s'
    | (Raise e, s') => (Raise e, s')
    end.

#[global] Instance SM_bind {S} : MBind (SM S) := fun A B k m => sm_bind m k.

(** [for x in l: body(x)], collecting what the bodies return. *)
Fixpoint sm_for {S X A} (l : list X) (body : X -> SM S A) : SM S (list A) :=
  match l with
  | [] => sm_ret []
  | x :: l' =>
      sm_bind (body x) (fun a =>
      sm_bind (sm_for l' body) (fun r => sm_ret (a :: r)))
  end.

(** Operations on a [ModelConfig] that the other modules call but that the
    class does not define.  Each may raise (an absent attribute raises
    [AttributeError]); nothing else is assumed about them. *)
Class ConfigExternal := {
  get_feature_config : ModelConfig.t -> Result (gmap string CfgVal);
  get_cache_config : ModelConfig.t -> Result (gmap string CfgVal);
  get_market_adjustments : ModelConfig.t -> Result (list (string * Q))
}.

(** ** Lead records and data frames *)

Inductive PyVal :=
| VNum (q : Q)
| VStr (s : string)
| VBool (b : bool)
| VNone.

#[global] Instance PyVal_eq_dec : EqDecision PyVal.
Proof. solve_decision. Defined.

(** A lead record: a dict in insertion order. *)
Definition LeadData := list (string * PyVal).

(** A data frame, column by column; all columns have one cell per row. *)
Definition DataFrame := list (string * list PyVal).

(** [pd.DataFrame([lead_data])]: one row. *)
Definition frame_of_lead (lead_data : LeadData) : DataFrame :=
  map (fun kv => (fst kv, [snd kv])) lead_data.

Fixpoint assoc_get {K A} `{EqDecision K} (k : K) (l : list (K * A)) : option A :=
  match l with
  | [] => None
  | (k', v) :: l' => if bool_decide (k = k') then Some v else assoc_get k l'
  end.

(** [d[k] = v] on an insertion-ordered dict. *)
Fixpoint assoc_set {K A} `{EqDecision K} (k : K) (v : A) (l : list (K * A)) : list (K * A) :=
  match l with
  | [] => [(k, v)]
  | (k', v') :: l' =>
      if bool_decide (k = k') then (k, v) :: l' else (k', v') :: assoc_set k v l'
  end.

(** [[f(x) for x in l]] where [f] may raise. *)
Fixpoint result_for {X A} (l : list X) (f : X -> Result A) : Result (list A) :=
  match l with
  | [] => Ok []
  | x :: l' =>
      match f x with
      | Raise e => Raise e
      | Ok a =>
          match result_for l' f with
          | Raise e => Raise e
          | Ok r => Ok (a :: r)
          end
      end
  end.

(** ** Text helpers

    Text is modelled as ASCII: on strings whose characters are all below
    128 the helpers agree with Python.  Python applies Unicode rules to
    other characters (case folding, [\w], whitespace); those are not
    modelled, and statements about tokens are meant for ASCII text. *)

Definition is_upper (c : ascii) : bool :=
  let n := nat_of_ascii c in ((65 <=? n)%nat && (n <=? 90)%nat)%bool.

Definition lower_char (c : ascii) : ascii :=
  if is_upper c then ascii_of_nat (nat_of_ascii c + 32) else c.

(** [str.lower] on ASCII text. *)
Fixpoint py_lower (s : string) : string :=
  match s with
  | EmptyString => EmptyString
  | String c s' => String (lower_char c) (py_lower s')
  end.

(** [\w] restricted to ASCII. *)
Definition is_word_char (c : ascii) : bool :=
  let n := nat_of_ascii c in
  (((48 <=? n)%nat && (n <=? 57)%nat) || ((65 <=? n)%nat && (n <=? 90)%nat)
   || ((97 <=? n)%nat && (n <=? 122)%nat) || (n =? 95)%nat)%bool.

(** Python's whitespace for [str.split()], restricted to ASCII: the
    space, the controls 9 to 13 and the separators 28 to 31. *)
Definition is_space (c : ascii) : bool :=
  let n := nat_of_ascii c in
  ((n =? 32)%nat || ((9 <=? n)%nat && (n <=? 13)%nat)
   || ((28 <=? n)%nat && (n <=? 31)%nat))%bool.

(** Maximal runs of characters satisfying [keep]; [cur] is the run being
    read, reversed. *)
Fixpoint runs_aux (keep : ascii -> bool) (s : string) (cur : list ascii) : list string :=
  let flush := match cur with
               | [] => []
               | _ => [string_of_list_ascii (rev cur)]
               end in
  match s with
  | EmptyString => flush
  | String c s' =>
      if keep c then runs_aux keep s' (c :: cur)
      else flush ++ runs_aux keep s' []
  end.

(** [s.split()] *)
Definition py_split (s : string) : list string :=
  runs_aux (fun c => negb (is_space c)) s [].

(** scikit-learn's default analyzer: lower-case, then the tokens of
    [(?u)\b\w\w+\b], i.e. runs of at least two word characters. *)
Definition sk_tokenize (s : string) : list string :=
  List.filter (fun t => bool_decide (2 <= String.length t)%nat)
         (runs_aux is_word_char (py_lower s) []).

(** [str.replace(pat, "")] with a literal pattern: [skip] characters of a
    match are still to be dropped. *)
Fixpoint remove_all_aux (pat : string) (s : string) (skip : nat) : string :=
  match s with
  | EmptyString => EmptyString
  | String c s' =>
      match skip with
      | S k => remove_all_aux pat s' k
      | O =>
          if (negb (String.eqb pat "") && String.prefix pat s)%bool
          then remove_all_aux pat s' (String.length pat - 1)
          else String c (remove_all_aux pat s' 0)
      end
  end.

Definition remove_all (pat s : string) : string := remove_all_aux pat s 0.

(** The order of Python's [str] comparison, by code point. *)
Definition str_le (a b : string) : Prop := String.leb a b = true.

#[global] Instance str_le_dec (a b : string) : Decision (str_le a b) :=
  decide (String.leb a b = true).

(** [sorted(set(l))] *)
Definition sorted_unique (l : list string) : list string :=
  merge_sort str_le (remove_dups l).

Definition count_occ_str (x : string) (l : list string) : nat :=
  length (List.filter (fun y => bool_decide (x = y)) l).

Fixpoint index_of (x : string) (l : list string) : option nat :=
  match l with
  | [] => None
  | y :: l' => if bool_decide (x = y) then Some 0%nat else S <$> index_of x l'
  end.

(** ** utils/feature_engineering.py *)

Module FeatureEngineer.

Inductive Scaling := StandardScaler | MinMaxScaler.

(** A fitted or unfitted [LabelEncoder]: its [classes_]. *)
Record LabelEncoder := mkEncoder { classes_ : option (list string) }.

Inductive Vectorizer :=
| HashingVectorizer (n_features : nat)
| TfidfVectorizer (max_features : nat) (vocabulary_ : option (list string)).

(** One entry of the feature matrix.  What scikit-learn computes
    numerically (scaling, tf-idf weights, hashed counts) is kept symbolic:
    the cell records which fitted transformer produced it from which
    input.  Label codes are concrete. *)
Inductive Cell :=
| Scaled (method : Scaling) (fit_on : list (option Q)) (x : option Q)
| Encoded (code : nat)
| TfidfWeight (vocabulary : list string) (term : string) (doc : string)
| Hashed (n_features bucket : nat) (doc : string).

(** A feature matrix as the list of its columns, left to right; the
    feature vector of row [i] is the [i]-th cell of every column. *)
Definition Matrix := list (list Cell).

(** [np.hstack] *)
Definition hstack (blocks : list Matrix) : Matrix := concat blocks.

Definition width (m : Matrix) : nat := length m.

Record NumStats := mkStats {
  stat_mean : option Q;
  stat_std_of : list Q;
  stat_min : option Q;
  stat_max : option Q
}.

(** The module-level dictionaries, and the calls made to
    [_trigger_importance_alert] (feature, change), oldest first. *)
Record Globals := mkGlobals {
  PREPROCESSOR_CACHE : list (DataFrame * (Matrix * list (string * Q)));
  FEATURE_IMPORTANCE : gmap string Q;
  alerts : list (string * Q)
}.

Record t := mk {
  _config : ModelConfig.t;
  _feature_config : gmap string CfgVal;
  _cache_config : gmap string CfgVal;
  _encoders : gmap string LabelEncoder;
  _vectorizers : gmap string Vectorizer;
  _scalers : gmap string Scaling;
  _feature_stats : gmap string (gmap string NumStats);
  _use_cache : bool
}.

Definition set_encoders (f : gmap string LabelEncoder -> gmap string LabelEncoder)
    (self : t) : t :=
  mk (_config self) (_feature_config self) (_cache_config self)
     (f (_encoders self)) (_vectorizers self) (_scalers self)
     (_feature_stats self) (_use_cache self).

Definition set_vectorizers (f : gmap string Vectorizer -> gmap string Vectorizer)
    (self : t) : t :=
  mk (_config self) (_feature_config self) (_cache_config self)
     (_encoders self) (f (_vectorizers self)) (_scalers self)
     (_feature_stats self) (_use_cache self).

Definition set_feature_stats
    (f : gmap string (gmap string NumStats) -> gmap string (gmap string NumStats))
    (self : t) : t :=
  mk (_config self) (_feature_config self) (_cache_config self)
     (_encoders self) (_vectorizers self) (_scalers self)
     (f (_feature_stats self)) (_use_cache self).

(** [FeatureEngineer._update_feature_stats], called by
    [transform_features] and defined nowhere: it may raise, and is taken
    to touch [_feature_stats] only. *)
Class External := {
  _update_feature_stats :
    gmap string (gmap string NumStats) -> DataFrame ->
    Result (gmap string (gmap string NumStats))
}.

(** *** Reading the feature configuration *)

(** [self._feature_config[key]] where a list of column names is expected. *)
Definition fc_list (fc : gmap string CfgVal) (key : string) : Result (list string) :=
  match fc !! key with
  | None => Raise (KeyError key)
  | Some (CList l) => Ok l
  | Some _ => Raise (TypeError ("not a list of column names: " ++ key))
  end.

(** [self._feature_config.get(key, dflt)] where a number is expected. *)
Definition fc_num (fc : gmap string CfgVal) (key : string) (dflt : Q) : Result Q :=
  match fc !! key with
  | None => Ok dflt
  | Some (CNum q) => Ok q
  | Some _ => Raise (TypeError ("not a number: " ++ key))
  end.

(** [self._feature_config.get(key, {}).get(column, +-inf)]: [None] is the
    infinite default. *)
Definition fc_bound (fc : gmap string CfgVal) (key column : string) : Result (option Q) :=
  match fc !! key with
  | None => Ok None
  | Some (CDict d) =>
      match assoc_get column d with
      | None => Ok None
      | Some (CNum q) => Ok (Some q)
      | Some _ => Raise (TypeError ("not a number: " ++ key))
      end
  | Some _ => Raise (AttributeError ("object has no attribute 'get': " ++ key))
  end.

(** [self._feature_config['preprocessing']['scaling']] and the choice made
    on it: ['standard'] selects the standard scaler, anything else min-max. *)
Definition fc_scaling (fc : gmap string CfgVal) : Result Scaling :=
  match fc !! "preprocessing" with
  | None => Raise (KeyError "preprocessing")
  | Some (CDict d) =>
      match assoc_get "scaling" d with
      | None => Raise (KeyError "scaling")
      | Some (CStr "standard") => Ok StandardScaler
      | Some _ => Ok MinMaxScaler
      end
  | Some _ => Raise (TypeError "preprocessing is not a mapping")
  end.

(** [bool(v)] of an optional configuration value. *)
Definition truthy (v : option CfgVal) : bool :=
  match v with
  | None => false
  | Some (CNum q) => negb (Qeq_bool q 0)
  | Some (CStr s) => negb (String.eqb s "")
  | Some (CList l) => match l with [] => false | _ => true end
  | Some (CDict d) => match d with [] => false | _ => true end
  end.

(** *** Construction *)

Definition _initialize_preprocessors (self : t) : Result t :=
  let required_configs := ["numerical_features"; "categorical_features"; "text_features"] in
  if negb (forallb (fun k => bool_decide (is_Some (_feature_config self !! k)))
                   required_configs)
  then Raise (ValueError "Incomplete feature configuration")
  else Ok (mk (_config self) (_feature_config self) (_cache_config self)
              ∅ ∅ ∅ (_feature_stats self) (_use_cache self)).

Definition __init__ {CE : ConfigExternal} (vertical : string) (use_cache : bool) : Result t :=
  config ← ModelConfig.__init__ vertical None true;
  feature_config ← get_feature_config config;
  cache_config ← get_cache_config config;
  self ← _initialize_preprocessors
    (mk config feature_config cache_config ∅ ∅ ∅
        (list_to_map [("numerical", ∅); ("categorical", ∅); ("text", ∅)]) false);
  Ok (mk (_config self) (_feature_config self) (_cache_config self)
         (_encoders self) (_vectorizers self) (_scalers self) (_feature_stats self)
         (use_cache && truthy (cache_config !! "enable_cache"))).

(** *** Input validation and column selection *)

Definition required_columns (fc : gmap string CfgVal) : Result (list string) :=
  n ← fc_list fc "numerical_features";
  c ← fc_list fc "categorical_features";
  x ← fc_list fc "text_features";
  Ok (n ++ c ++ x)%list.

Definition _validate_input_data (self : t) (data : DataFrame) : Result unit :=
  required ← required_columns (_feature_config self);
  let missing_columns :=
    List.filter (fun c => bool_decide (assoc_get c data = None)) required in
  match missing_columns with
  | [] => Ok tt
  | _ => Raise (ValueError ("Missing required columns: " ++ join_keys missing_columns))
  end.

(** [data[names]] *)
Fixpoint select_columns (names : list string) (data : DataFrame) : Result DataFrame :=
  match names with
  | [] => Ok []
  | n :: names' =>
      match assoc_get n data with
      | None => Raise (KeyError n)
      | Some cells =>
          rest ← select_columns names' data;
          Ok ((n, cells) :: rest)
      end
  end.

(** *** Numerical features *)

(** A cell of a numerical column: a number, or missing (NaN). *)
Definition num_cell (v : PyVal) : Result (option Q) :=
  match v with
  | VNum q => Ok (Some q)
  | VBool b => Ok (Some (if b then 1 else 0)%Q)
  | VNone => Ok None
  | VStr _ => Raise (TypeError "'<' not supported between instances of 'str' and 'float'")
  end.

Definition present (col : list (option Q)) : list Q := omap id col.

Definition q_min (a b : Q) : Q := if Qle_bool a b then a else b.
Definition q_max (a b : Q) : Q := if Qle_bool a b then b else a.

Definition col_min (col : list (option Q)) : option Q :=
  match present col with
  | [] => None
  | x :: xs => Some (fold_left q_min xs x)
  end.

Definition col_max (col : list (option Q)) : option Q :=
  match present col with
  | [] => None
  | x :: xs => Some (fold_left q_max xs x)
  end.

Definition col_mean (col : list (option Q)) : option Q :=
  match present col with
  | [] => None
  | xs => Some (fold_left Qplus xs 0 / inject_Z (Z.of_nat (length xs)))%Q
  end.

(** [column.fillna(column.mean())] *)
Definition fillna_mean (col : list (option Q)) : list (option Q) :=
  map (fun x => match x with Some _ => x | None => col_mean col end) col.

Definition below (x : option Q) (bound : option Q) : bool :=
  match x, bound with
  | Some a, Some b => negb (Qle_bool b a)
  | _, _ => false
  end.

Definition above (x : option Q) (bound : option Q) : bool :=
  match x, bound with
  | Some a, Some b => negb (Qle_bool a b)
  | _, _ => false
  end.

Fixpoint _validate_numerical_ranges (fc : gmap string CfgVal)
    (cols : list (string * list (option Q))) : Result unit :=
  match cols with
  | [] => Ok tt
  | (column, col) :: cols' =>
      lo ← fc_bound fc "min_values" column;
      if below (col_min col) lo
      then Raise (ValueError ("Values below minimum threshold in column: " ++ column))
      else
        (hi ← fc_bound fc "max_values" column;
         if above (col_max col) hi
         then Raise (ValueError ("Values above maximum threshold in column: " ++ column))
         else _validate_numerical_ranges fc cols')
  end.

Definition _track_numerical_stats (cols : list (string * list (option Q))) (self : t) : t :=
  fold_left
    (fun self c =>
       set_feature_stats
         (fun fs => <["numerical" :=
                       <[fst c := {| stat_mean := col_mean (snd c);
                                     stat_std_of := present (snd c);
                                     stat_min := col_min (snd c);
                                     stat_max := col_max (snd c) |}]>
                         (default ∅ (fs !! "numerical"))]> fs)
         self)
    cols self.

(** [preprocess_numerical]: a new scaler is built and fit on every call;
    [_scalers] is not consulted. *)
Definition preprocess_numerical (numerical_data : DataFrame) : SM t Matrix :=
  fun self =>
    let fc := _feature_config self in
    match result_for numerical_data
                     (fun c => cells ← result_for (snd c) num_cell; Ok (fst c, cells)) with
    | Raise e => (Raise e, self)
    | Ok cols =>
        match _validate_numerical_ranges fc cols with
        | Raise e => (Raise e, self)
        | Ok _ =>
            let filled := map (fun c => (fst c, fillna_mean (snd c))) cols in
            match fc_scaling fc with
            | Raise e => (Raise e, self)
            | Ok method =>
                match filled with
                | [] => (Raise (ValueError
                           "Found array with 0 feature(s) while a minimum of 1 is required"),
                         self)
                | _ =>
                    (Ok (map (fun c => map (Scaled method (snd c)) (snd c)) filled),
                     _track_numerical_stats filled self)
                end
            end
        end
    end.

(** *** Categorical features *)

(** Categories are taken to be strings.  Other cells are outside this
    model: the code counts and buckets any value, and what the encoder then
    does depends on the mix of types; the model reports them as the
    encoder's type error. *)
Definition category_cell (v : PyVal) : Result string :=
  match v with
  | VStr s => Ok s
  | _ => Raise (TypeError "Encoders require their input argument must be uniformly strings")
  end.

(** [LabelEncoder.fit_transform]: the classes become the sorted distinct
    values of this very column, whatever was fitted before. *)
Definition label_fit_transform (column_data : list string) : LabelEncoder * list Cell :=
  let classes := sorted_unique column_data in
  (mkEncoder (Some classes),
   map (fun v => Encoded (default 0%nat (index_of v classes))) column_data).

(** The body of the loop of [preprocess_categorical] for one column. *)
Definition encode_column (column : string) (cells : list PyVal) : SM t (list Cell) :=
  fun self =>
    match result_for cells category_cell with
    | Raise e => (Raise e, self)
    | Ok values =>
        match fc_num (_feature_config self) "min_category_frequency" 10 with
        | Raise e => (Raise e, self)
        | Ok min_freq =>
            let rare v :=
              negb (Qle_bool min_freq (inject_Z (Z.of_nat (count_occ_str v values)))) in
            let column_data := map (fun v => if rare v then "Other" else v) values in
            let self :=
              if bool_decide (is_Some (_encoders self !! column)) then self
              else set_encoders (insert column (mkEncoder None)) self in
            let '(enc, codes) := label_fit_transform column_data in
            (Ok codes, set_encoders (insert column enc) self)
        end
    end.

Definition preprocess_categorical (categorical_data : DataFrame) : SM t Matrix :=
  sm_bind (sm_for categorical_data (fun c => encode_column (fst c) (snd c)))
    (fun encoded_features =>
       match encoded_features with
       | [] => sm_raise (ValueError "need at least one array to concatenate")
       | _ => sm_ret encoded_features
       end).

(** *** Text features *)

Definition text_cell (v : PyVal) : Result string :=
  match v with
  | VStr s => Ok s
  | VNone => Ok ""
  | _ => Raise (AttributeError "Can only use .str accessor with string values")
  end.

(** [fillna('').str.lower().str.replace(r'[^\w\s]', '')]; with pandas 2
    the pattern is a literal, not a regular expression. *)
Definition _clean_text (cells : list PyVal) : Result (list string) :=
  result_for cells (fun v => s ← text_cell v; Ok (remove_all "[^\w\s]" (py_lower s))).

(** [len(set(' '.join(cleaned_text).split()))] *)
Definition vocabulary_size (cleaned_text : list string) : nat :=
  length (sorted_unique (py_split (String.concat " " cleaned_text))).

(** Ordering of terms by decreasing total count in [tokens]. *)
Definition more_frequent (tokens : list string) (a b : string) : Prop :=
  (count_occ_str b tokens <= count_occ_str a tokens)%nat.

#[global] Instance more_frequent_dec tokens a b : Decision (more_frequent tokens a b) :=
  decide (count_occ_str b tokens <= count_occ_str a tokens)%nat.

(** The vocabulary kept by [TfidfVectorizer(max_features=k)]: every term
    when there are at most [k], else [k] terms of highest total count,
    in alphabetical order. *)
Definition limit_features (k : nat) (tokens : list string) : list string :=
  let terms := sorted_unique tokens in
  if (length terms <=? k)%nat then terms
  else
    let by_count :=
      merge_sort (more_frequent tokens) terms in
    merge_sort str_le (take k by_count).

(** [vectorizer.fit_transform(docs).toarray()], with the fitted vectorizer. *)
Definition vectorizer_fit_transform (v : Vectorizer) (docs : list string)
  : Result (Vectorizer * Matrix) :=
  match v with
  | HashingVectorizer n =>
      Ok (v, map (fun bucket => map (Hashed n bucket) docs) (seq 0 n))
  | TfidfVectorizer k _ =>
      let tokens := concat (map sk_tokenize docs) in
      match limit_features k tokens with
      | [] => Raise (ValueError
                "empty vocabulary; perhaps the documents only contain stop words")
      | vocabulary =>
          Ok (TfidfVectorizer k (Some vocabulary),
              map (fun term => map (TfidfWeight vocabulary term) docs) vocabulary)
      end
  end.

(** The body of the loop of [preprocess_text] for one column: a new
    vectorizer is chosen, stored, and fit on this column. *)
Definition vectorize_column (column : string) (cells : list PyVal) : SM t Matrix :=
  fun self =>
    match _clean_text cells with
    | Raise e => (Raise e, self)
    | Ok cleaned_text =>
        let vectorizer :=
          if (10000 <? Z.of_nat (vocabulary_size cleaned_text))%Z
          then HashingVectorizer 100
          else TfidfVectorizer 100 None in
        let self := set_vectorizers (insert column vectorizer) self in
        match vectorizer_fit_transform vectorizer cleaned_text with
        | Raise e => (Raise e, self)
        | Ok (fitted, block) => (Ok block, set_vectorizers (insert column fitted) self)
        end
    end.

Definition preprocess_text (text_data : DataFrame) : SM t Matrix :=
  sm_bind (sm_for text_data (fun c => vectorize_column (fst c) (snd c)))
    (fun vectorized_features =>
       match vectorized_features with
       | [] => sm_raise (ValueError "need at least one array to concatenate")
       | _ => sm_ret (hstack vectorized_features)
       end).

(** *** The pipeline *)

(** [_process_feature_group] on the three groups.  [joblib.Parallel] is
    modelled as running them in the order given, on the instance itself. *)
Definition process_groups (numerical_data categorical_data text_data : DataFrame)
  : SM t (list Matrix) :=
  sm_bind (preprocess_numerical numerical_data) (fun n =>
  sm_bind (preprocess_categorical categorical_data) (fun c =>
  sm_bind (preprocess_text text_data) (fun x =>
  sm_ret [n; c; x]))).

(** [_calculate_feature_importance] *)
Definition _calculate_feature_importance (features : Matrix) : list (string * Q) := [].

(** [transform_features(lead_data, return_importance)].  The cache key
    [joblib.hash(data)] is modelled by the frame itself. *)
Definition transform_features {FE : External} (lead_data : DataFrame)
    (return_importance : bool) : SM (t * Globals) (Matrix * list (string * Q)) :=
  fun '(self, g) =>
    match _validate_input_data self lead_data with
    | Raise e => (Raise e, (self, g))
    | Ok _ =>
        let cache_key := lead_data in
        match (if _use_cache self then assoc_get cache_key (PREPROCESSOR_CACHE g)
               else None) with
        | Some hit => (Ok hit, (self, g))
        | None =>
            let fc := _feature_config self in
            match (n ← fc_list fc "numerical_features"; nd ← select_columns n lead_data;
                   c ← fc_list fc "categorical_features"; cd ← select_columns c lead_data;
                   x ← fc_list fc "text_features"; xd ← select_columns x lead_data;
                   Ok (nd, cd, xd)) with
            | Raise e => (Raise e, (self, g))
            | Ok (numerical_data, categorical_data, text_data) =>
                match process_groups numerical_data categorical_data text_data self with
                | (Raise e, self) => (Raise e, (self, g))
                | (Ok transformed_features, self) =>
                    let combined_features := hstack transformed_features in
                    match _update_feature_stats (_feature_stats self) lead_data with
                    | Raise e => (Raise e, (self, g))
                    | Ok stats =>
                        let self := set_feature_stats (fun _ => stats) self in
                        let importance_scores :=
                          if return_importance
                          then _calculate_feature_importance combined_features
                          else [] in
                        let g :=
                          if _use_cache self
                          then mkGlobals
                                 (assoc_set cache_key (combined_features, importance_scores)
                                            (PREPROCESSOR_CACHE g))
                                 (FEATURE_IMPORTANCE g) (alerts g)
                          else g in
                        (Ok (combined_features, importance_scores), (self, g))
                    end
                end
            end
        end
    end.

(** *** Importance tracking *)

Definition _trigger_importance_alert (feature : string) (change : Q) (g : Globals)
  : Globals :=
  mkGlobals (PREPROCESSOR_CACHE g) (FEATURE_IMPORTANCE g) (alerts g ++ [(feature, change)]).

(** The body of the loop of [_analyze_importance_trends] for one item. *)
Definition analyze_feature (self : t) (fs : string * Q) : SM Globals unit :=
  fun g =>
    match FEATURE_IMPORTANCE g !! fst fs with
    | None => (Ok tt, g)
    | Some tracked =>
        let change := Qabs (snd fs - tracked) in
        match fc_num (_feature_config self) "importance_change_threshold" 0.2 with
        | Raise e => (Raise e, g)
        | Ok threshold =>
            if negb (Qle_bool change threshold)
            then (Ok tt, _trigger_importance_alert (fst fs) change g)
            else (Ok tt, g)
        end
    end.

(** [_analyze_importance_trends(new_scores)]: the tracker it reads is the
    one the caller has just updated. *)
Definition _analyze_importance_trends (self : t) (new_scores : list (string * Q))
  : SM Globals unit :=
  sm_bind (sm_for new_scores (analyze_feature self)) (fun _ => sm_ret tt).

(** [0 <= score <= 1] *)
Definition in_unit_interval (score : Q) : bool := Qle_bool 0 score && Qle_bool score 1.

(** [update_feature_importance(importance_scores)] on a dict of numbers
    (given in insertion order, with distinct keys). *)
Definition update_feature_importance (self : t) (importance_scores : list (string * Q))
  : SM Globals bool :=
  fun g =>
    if negb (forallb (fun fs => in_unit_interval (snd fs)) importance_scores)
    then (Raise (ValueError "Importance scores must be between 0 and 1"), g)
    else
      let g := mkGlobals (PREPROCESSOR_CACHE g)
                         (fold_left (fun m fs => <[fst fs := snd fs]> m)
                                    importance_scores (FEATURE_IMPORTANCE g))
                         (alerts g) in
      match _analyze_importance_trends self importance_scores g with
      | (Raise e, g) => (Raise e, g)
      | (Ok _, g) => (Ok true, g)
      end.

End FeatureEngineer.

(** ** models/lead_scorer.py *)

Module LeadScorer.

(** A trained model artifact, identified by what was loaded. *)
Inductive Booster := mkBooster (artifact : nat).

(** What [joblib.load] may give back. *)
Inductive PyObject :=
| ObjBooster (b : Booster)
| ObjOther.

Definition PRICE_MULTIPLIERS : gmap string Q :=
  list_to_map [ ("auto", 1.0%Q); ("home", 1.2%Q); ("health", 1.5%Q);
                ("life", 1.8%Q); ("renters", 0.8%Q); ("commercial", 2.0%Q) ].

Definition MARKET_ADJUSTMENTS : gmap string Q :=
  list_to_map [ ("peak_hours", 1.2%Q); ("off_peak", 0.9%Q);
                ("weekend", 1.1%Q); ("holiday", 1.3%Q) ].

(** [time.time()] and the fields of [datetime.now()] that are read.  The
    clock does not advance within one call. *)
Record Clock := mkClock {
  clock_time : Q;
  clock_month : nat;
  clock_hour : nat;
  clock_weekday : nat
}.

(** What the scorer reads from outside the process. *)
Record Env := mkEnv {
  store : ModelConfig.Store;
  joblib_load : string -> Result PyObject;
  clock : Clock
}.

(** [MODEL_CACHE] and the Prometheus metrics of this module: the counter
    value, the number of gauge increments and of histogram observations. *)
Record Globals := mkGlobals {
  MODEL_CACHE : gmap string (Booster * Q);
  SCORING_ERRORS : nat;
  ACCEPTANCE_RATE : nat;
  SCORING_LATENCY : nat
}.

Record t := mk {
  _config : ModelConfig.t;
  _feature_engineer : FeatureEngineer.t;
  _model : option Booster;
  _threshold : option CfgVal;
  _enable_monitoring : bool
}.

Record ScoringResult := mkResult {
  score : Q;
  price : Q;
  confidence : Q;
  feature_importance : list (string * Q);
  threshold : option CfgVal;
  latency_ms : Q
}.

(** [model.predict(features)]: the booster's output, one number per row. *)
Class External := {
  predict : Booster -> FeatureEngineer.Matrix -> Result (list Q)
}.

Definition inc_errors (g : Globals) : Globals :=
  mkGlobals (MODEL_CACHE g) (S (SCORING_ERRORS g)) (ACCEPTANCE_RATE g) (SCORING_LATENCY g).

(** *** Pure parts *)

Definition _calculate_confidence (score : Q) : Q :=
  if negb (Qle_bool score 0.8) || negb (Qle_bool 0.2 score) then 0.9
  else if Qle_bool 0.4 score && Qle_bool score 0.6 then 0.7
  else 0.8.

(** [month in [1, 4, 7, 10]] *)
Definition key_month (month : nat) : bool :=
  bool_decide (month ∈ [1; 4; 7; 10]%nat).

(** The price before the final clamp and rounding. *)
Definition unclamped_price (vertical : string) (month : nat) (score : Q)
    (market_conditions : list (string * PyVal)) : Q :=
  let base_price := (50 + score * 100)%Q in
  let base_price := (base_price * default 1.0%Q (PRICE_MULTIPLIERS !! vertical))%Q in
  let base_price :=
    fold_left (fun p cond => match MARKET_ADJUSTMENTS !! fst cond with
                             | Some adjustment => (p * adjustment)%Q
                             | None => p
                             end)
              market_conditions base_price in
  let seasonal_factor := (1 + 0.1 * (if key_month month then 1 else 0))%Q in
  (base_price * seasonal_factor)%Q.

Definition calculate_price (env : Env) (self : t) (score : Q)
    (market_conditions : list (string * PyVal)) : Q :=
  let base_price :=
    unclamped_price (ModelConfig._vertical (_config self))
                    (clock_month (clock env)) score market_conditions in
  py_round (py_min (py_max base_price 25.0) 500.0) 2.

Definition _get_market_conditions (env : Env) : list (string * PyVal) :=
  let hour := clock_hour (clock env) in
  let day := clock_weekday (clock env) in
  let conditions :=
    if ((9 <=? hour)%nat && (hour <=? 17)%nat && (day <? 5)%nat)%bool
    then [("peak_hours", VBool true)]
    else [("off_peak", VBool true)] in
  if (5 <=? day)%nat then assoc_set "weekend" (VBool true) conditions else conditions.

Definition update_threshold (new_threshold : Q) (force_update : bool) (self : t)
  : Result bool * t :=
  if negb (Qle_bool 0 new_threshold && Qle_bool new_threshold 1)
  then (Raise (ValueError "Threshold must be between 0 and 1"), self)
  else if negb force_update
          && (negb (Qle_bool new_threshold 0.9) || negb (Qle_bool 0.3 new_threshold))
  then (Raise (ValueError "Threshold outside acceptable range"), self)
  else (Ok true,
        mk (_config self) (_feature_engineer self) (_model self)
           (Some (CNum new_threshold)) (_enable_monitoring self)).

(** *** Loading *)

(** [reload_model()].  The new model and the cache entry are installed
    before the threshold is read; whatever fails, the error counter is
    incremented and a [ValueError] is raised. *)
Definition reload_model (env : Env) : SM (t * Globals) bool :=
  fun '(self, g) =>
    let failed (e : PyExc) (self : t) (g : Globals) :=
      (Raise (ValueError ("Model reload failed: " ++ exc_str e)), (self, inc_errors g)) in
    let with_config (c : ModelConfig.t) (self : t) :=
      mk c (_feature_engineer self) (_model self) (_threshold self)
         (_enable_monitoring self) in
    match ModelConfig.get_model_path (store env) None (_config self) with
    | (Raise e, c) => failed e (with_config c self) g
    | (Ok model_path, c) =>
        let self := with_config c self in
        match joblib_load env model_path with
        | Raise e => failed e self g
        | Ok ObjOther => failed (ValueError "Invalid model type") self g
        | Ok (ObjBooster new_model) =>
            let self := mk (_config self) (_feature_engineer self) (Some new_model)
                           (_threshold self) (_enable_monitoring self) in
            let g := mkGlobals
                       (<[ModelConfig._vertical (_config self) :=
                            (new_model, clock_time (clock env))]> (MODEL_CACHE g))
                       (SCORING_ERRORS g) (ACCEPTANCE_RATE g) (SCORING_LATENCY g) in
            match ModelConfig.get_scoring_threshold (_config self) with
            | (Raise e, c) => failed e (with_config c self) g
            | (Ok th, c) =>
                (Ok true,
                 (mk c (_feature_engineer self) (_model self) (Some th)
                     (_enable_monitoring self), g))
            end
        end
    end.

Definition _initialize_model (env : Env) : SM (t * Globals) unit :=
  fun '(self, g) =>
    let vertical := ModelConfig._vertical (_config self) in
    let reload :=
      match reload_model env (self, g) with
      | (Ok _, s) => (Ok tt, s)
      | (Raise e, s) => (Raise e, s)
      end in
    match MODEL_CACHE g !! vertical with
    | Some (model, cache_time) =>
        if negb (Qle_bool 3600 (clock_time (clock env) - cache_time))
        then
          match ModelConfig.get_scoring_threshold (_config self) with
          | (Raise e, c) =>
              (Raise e,
               (mk c (_feature_engineer self) (Some model) (_threshold self)
                   (_enable_monitoring self), g))
          | (Ok th, c) =>
              (Ok tt,
               (mk c (_feature_engineer self) (Some model) (Some th)
                   (_enable_monitoring self), g))
          end
        else reload
    | None => reload
    end.

(** [LeadScorer(vertical, enable_monitoring)]: the instance exists only
    if nothing raised. *)
Definition __init__ {CE : ConfigExternal} (env : Env) (vertical : string)
    (enable_monitoring : bool) (g : Globals) : Result t * Globals :=
  match ModelConfig.__init__ vertical None true with
  | Raise e => (Raise e, g)
  | Ok config =>
      match FeatureEngineer.__init__ vertical true with
      | Raise e => (Raise e, g)
      | Ok feature_engineer =>
          match _initialize_model env
                  (mk config feature_engineer None None enable_monitoring, g) with
          | (Raise e, (_, g)) => (Raise e, g)
          | (Ok _, (self, g)) => (Ok self, g)
          end
      end
  end.

(** *** Scoring *)

(** [score >= self._threshold] *)
Definition at_least (score : Q) (th : option CfgVal) : Result bool :=
  match th with
  | Some (CNum q) => Ok (Qle_bool q score)
  | _ => Raise (TypeError "'>=' not supported between instances of 'float' and a non-number")
  end.

(** The body of the [try] of [score_lead]. *)
Definition score_lead_body {FE : FeatureEngineer.External} {LE : External} (env : Env)
    (lead_data : LeadData)
  : SM (t * Globals * FeatureEngineer.Globals) ScoringResult :=
  fun '(self, g, fg) =>
    let df := frame_of_lead lead_data in
    let with_fe (fe : FeatureEngineer.t) :=
      mk (_config self) fe (_model self) (_threshold self) (_enable_monitoring self) in
    match FeatureEngineer.transform_features df true (_feature_engineer self, fg) with
    | (Raise e, (fe, fg)) => (Raise e, (with_fe fe, g, fg))
    | (Ok (features, importance), (fe, fg)) =>
        let self := with_fe fe in
        match (match _model self with
               | None => Raise (AttributeError "'NoneType' object has no attribute 'predict'")
               | Some model =>
                   out ← predict model features;
                   match out with
                   | [] => Raise (KeyError "index 0 is out of bounds")
                   | y :: _ => Ok y
                   end
               end) with
        | Raise e => (Raise e, (self, g, fg))
        | Ok score =>
            let price := calculate_price env self score (_get_market_conditions env) in
            let result := {| score := score;
                             price := price;
                             confidence := _calculate_confidence score;
                             feature_importance := importance;
                             threshold := _threshold self;
                             latency_ms := 0 |} in
            if _enable_monitoring self then
              match at_least score (_threshold self) with
              | Raise e =>
                  (Raise e,
                   (self,
                    mkGlobals (MODEL_CACHE g) (SCORING_ERRORS g) (ACCEPTANCE_RATE g)
                              (S (SCORING_LATENCY g)), fg))
              | Ok accepted =>
                  (Ok result,
                   (self,
                    mkGlobals (MODEL_CACHE g) (SCORING_ERRORS g)
                              (if accepted then S (ACCEPTANCE_RATE g) else ACCEPTANCE_RATE g)
                              (S (SCORING_LATENCY g)), fg))
              end
            else (Ok result, (self, g, fg))
        end
    end.

(** [score_lead(lead_data)] *)
Definition score_lead {FE : FeatureEngineer.External} {LE : External} (env : Env)
    (lead_data : LeadData)
  : SM (t * Globals * FeatureEngineer.Globals) ScoringResult :=
  fun s =>
    match score_lead_body env lead_data s with
    | (Ok r, s) => (Ok r, s)
    | (Raise e, (self, g, fg)) =>
        (Raise (ValueError ("Lead scoring failed: " ++ exc_str e)),
         (self, inc_errors g, fg))
    end.

End LeadScorer.

(** ** services/scoring_service.py *)

Module ScoringService.

(** [LeadScorer.get_model_version], called by the service and defined
    nowhere: it may raise or return any value. *)
Class External := {
  get_model_version : LeadScorer.t -> Result PyVal
}.

Record t := mk {
  _scorers : list (string * LeadScorer.t);
  _configs : gmap string ModelConfig.t;
  _thresholds : gmap string CfgVal;
  _market_adjustments : gmap string (list (string * Q));
  _error_counts : gmap string nat;
  _circuit_open : gmap string bool
}.

(** Everything outside the service instance: the environment, the
    globals of the two lower modules, and this module's metrics (the
    label pairs whose error counter was incremented, and the version
    gauge). *)
Record World := mkWorld {
  env : LeadScorer.Env;
  scorer_globals : LeadScorer.Globals;
  feature_globals : FeatureEngineer.Globals;
  SCORING_ERRORS : list (string * string);
  MODEL_VERSIONS : gmap string Q
}.

Record Response := mkResponse {
  score : Q;
  original_score : option Q;
  confidence : Q;
  price : Q;
  market_factors : list (string * Q);
  feature_importance : list (string * Q);
  model_version : PyVal;
  threshold : CfgVal;
  fallback : bool
}.

Inductive ReloadStatus :=
| Reloaded (success : bool) (version : PyVal) (threshold : CfgVal)
| NotReloaded (error : string).

(** [ScoringService()] *)
Definition __init__ : t := mk [] ∅ ∅ ∅ ∅ ∅.

Definition set_scorer (vertical : string) (scorer : LeadScorer.t) (self : t) : t :=
  mk (assoc_set vertical scorer (_scorers self)) (_configs self) (_thresholds self)
     (_market_adjustments self) (_error_counts self) (_circuit_open self).

(** *** Circuit breaker *)

Definition _record_error (vertical : string) (self : t) : t :=
  let count := S (default 0%nat (_error_counts self !! vertical)) in
  mk (_scorers self) (_configs self) (_thresholds self) (_market_adjustments self)
     (<[vertical := count]> (_error_counts self))
     (if (5 <=? count)%nat then <[vertical := true]> (_circuit_open self)
      else _circuit_open self).

Definition _record_success (vertical : string) (self : t) : t :=
  mk (_scorers self) (_configs self) (_thresholds self) (_market_adjustments self)
     (<[vertical := 0%nat]> (_error_counts self))
     (<[vertical := false]> (_circuit_open self)).

Definition _get_fallback_score (vertical : string) (self : t) : Response :=
  {| score := 0.5;
     original_score := None;
     confidence := 0.3;
     price := 75.0;
     market_factors := [];
     feature_importance := [];
     model_version := VStr "fallback";
     threshold := default (CNum 0.65) (_thresholds self !! vertical);
     fallback := true |}.

Definition error_count (vertical : string) (self : t) : nat :=
  default 0%nat (_error_counts self !! vertical).

Definition circuit_open (vertical : string) (self : t) : bool :=
  default false (_circuit_open self !! vertical).

(** *** Scorer registry *)

(** [_get_scorer(vertical)]: on first use the scorer is built and
    registered, then the configuration, the threshold and the market
    adjustments, in this order. *)
Definition _get_scorer {CE : ConfigExternal} (vertical : string)
  : SM (t * World) LeadScorer.t :=
  fun '(self, w) =>
    match assoc_get vertical (_scorers self) with
    | Some scorer => (Ok scorer, (self, w))
    | None =>
        match LeadScorer.__init__ (env w) vertical true (scorer_globals w) with
        | (Raise e, g) =>
            (Raise e, (self, mkWorld (env w) g (feature_globals w)
                                     (SCORING_ERRORS w) (MODEL_VERSIONS w)))
        | (Ok scorer, g) =>
            let w := mkWorld (env w) g (feature_globals w)
                             (SCORING_ERRORS w) (MODEL_VERSIONS w) in
            let self := set_scorer vertical scorer self in
            match ModelConfig.__init__ vertical None true with
            | Raise e => (Raise e, (self, w))
            | Ok config =>
                let self := mk (_scorers self) (<[vertical := config]> (_configs self))
                               (_thresholds self) (_market_adjustments self)
                               (_error_counts self) (_circuit_open self) in
                match ModelConfig.get_scoring_threshold config with
                | (Raise e, config) =>
                    (Raise e,
                     (mk (_scorers self) (<[vertical := config]> (_configs self))
                         (_thresholds self) (_market_adjustments self)
                         (_error_counts self) (_circuit_open self), w))
                | (Ok th, config) =>
                    let self := mk (_scorers self) (<[vertical := config]> (_configs self))
                                   (<[vertical := th]> (_thresholds self))
                                   (_market_adjustments self)
                                   (_error_counts self) (_circuit_open self) in
                    match get_market_adjustments config with
                    | Raise e => (Raise e, (self, w))
                    | Ok adj =>
                        (Ok scorer,
                         (mk (_scorers self) (_configs self) (_thresholds self)
                             (<[vertical := adj]> (_market_adjustments self))
                             (_error_counts self) (_circuit_open self), w))
                    end
                end
            end
        end
    end.

(** *** Adjustments and price *)

(** [np.clip(x, 0.0, 1.0)] *)
Definition clip01 (x : Q) : Q :=
  if negb (Qle_bool 0 x) then 0 else if negb (Qle_bool x 1) then 1 else x.

Definition _apply_market_adjustments (vertical : string) (score confidence : Q)
    (self : t) : Q :=
  let adjustments := default [] (_market_adjustments self !! vertical) in
  clip01 (fold_left (fun adjusted fv =>
                       if Qle_bool 0.8 confidence then (adjusted * snd fv)%Q else adjusted)
                    adjustments score).

Definition multipliers : gmap string Q :=
  list_to_map [ ("auto", 1.0%Q); ("home", 1.2%Q); ("health", 1.5%Q);
                ("life", 1.8%Q); ("renters", 0.8%Q); ("commercial", 2.0%Q) ].

Definition _calculate_price (vertical : string) (score : Q)
    (feature_importance : list (string * Q)) : Q :=
  let base_price := (50 + score * 100)%Q in
  let base_price := (base_price * default 1.0%Q (multipliers !! vertical))%Q in
  let base_price :=
    match feature_importance with
    | [] => base_price
    | _ =>
        let importance_factor :=
          (fold_left Qplus (map snd feature_importance) 0
           / inject_Z (Z.of_nat (length feature_importance)))%Q in
        (base_price * (0.9 + importance_factor * 0.2))%Q
    end in
  py_round (py_min (py_max base_price 25.0) 500.0) 2.

(** *** Scoring *)

(** The body of the [try] of [score_lead]. *)
Definition score_lead_body {CE : ConfigExternal} {FE : FeatureEngineer.External}
    {LE : LeadScorer.External} {SE : External} (vertical : string) (lead_data : LeadData)
  : SM (t * World) Response :=
  fun '(self, w) =>
    if bool_decide (vertical = "") || bool_decide (lead_data = [])
    then (Raise (ValueError "Missing required parameters"), (self, w))
    else if circuit_open vertical self
    then (Ok (_get_fallback_score vertical self), (self, w))
    else
      match _get_scorer vertical (self, w) with
      | (Raise e, s) => (Raise e, s)
      | (Ok scorer, (self, w)) =>
          match LeadScorer.score_lead (env w) lead_data
                  (scorer, scorer_globals w, feature_globals w) with
          | (Raise e, (scorer, g, fg)) =>
              (Raise e,
               (set_scorer vertical scorer self,
                mkWorld (env w) g fg (SCORING_ERRORS w) (MODEL_VERSIONS w)))
          | (Ok scoring_result, (scorer, g, fg)) =>
              let self := set_scorer vertical scorer self in
              let w := mkWorld (env w) g fg (SCORING_ERRORS w) (MODEL_VERSIONS w) in
              let adjusted_score :=
                _apply_market_adjustments vertical
                  (LeadScorer.score scoring_result)
                  (LeadScorer.confidence scoring_result) self in
              let price :=
                _calculate_price vertical adjusted_score
                  (LeadScorer.feature_importance scoring_result) in
              let self := _record_success vertical self in
              match get_model_version scorer with
              | Raise e => (Raise e, (self, w))
              | Ok version =>
                  (Ok {| score := adjusted_score;
                         original_score := Some (LeadScorer.score scoring_result);
                         confidence := LeadScorer.confidence scoring_result;
                         price := price;
                         market_factors := default [] (_market_adjustments self !! vertical);
                         feature_importance := LeadScorer.feature_importance scoring_result;
                         model_version := version;
                         threshold := default (CNum 0.65) (_thresholds self !! vertical);
                         fallback := false |},
                   (self, w))
              end
          end
      end.

(** [score_lead(vertical, lead_data)]: whatever the body raises is
    recorded against the vertical and re-raised as a [ValueError]. *)
Definition score_lead {CE : ConfigExternal} {FE : FeatureEngineer.External}
    {LE : LeadScorer.External} {SE : External} (vertical : string) (lead_data : LeadData)
  : SM (t * World) Response :=
  fun s =>
    match score_lead_body vertical lead_data s with
    | (Ok r, s) => (Ok r, s)
    | (Raise e, (self, w)) =>
        (Raise (ValueError ("Lead scoring failed: " ++ exc_str e)),
         (_record_error vertical self,
          mkWorld (env w) (scorer_globals w) (feature_globals w)
                  (SCORING_ERRORS w ++ [(vertical, exc_name e)]) (MODEL_VERSIONS w)))
    end.

(** *** Reload *)

(** [float(v)] *)
Definition py_float_of (v : PyVal) : Result Q :=
  match v with
  | VNum q => Ok q
  | VBool b => Ok (if b then 1 else 0)%Q
  | VStr s => py_float s
  | VNone => Raise (TypeError "float() argument must be a string or a real number")
  end.

(** The body of the inner [try] of [reload_models] for one vertical. *)
Definition reload_one {CE : ConfigExternal} {SE : External} (vertical : string)
  : SM (t * World) ReloadStatus :=
  fun '(self, w) =>
    match assoc_get vertical (_scorers self) with
    | None => (Raise (KeyError vertical), (self, w))
    | Some scorer =>
        match LeadScorer.reload_model (env w) (scorer, scorer_globals w) with
        | (Raise e, (scorer, g)) =>
            (Raise e,
             (set_scorer vertical scorer self,
              mkWorld (env w) g (feature_globals w) (SCORING_ERRORS w) (MODEL_VERSIONS w)))
        | (Ok success, (scorer, g)) =>
            let self := set_scorer vertical scorer self in
            let w := mkWorld (env w) g (feature_globals w)
                             (SCORING_ERRORS w) (MODEL_VERSIONS w) in
            match (v ← get_model_version scorer; py_float_of v) with
            | Raise e => (Raise e, (self, w))
            | Ok version_number =>
                let w := mkWorld (env w) (scorer_globals w) (feature_globals w)
                                 (SCORING_ERRORS w)
                                 (<[vertical := version_number]> (MODEL_VERSIONS w)) in
                match ModelConfig.__init__ vertical None true with
                | Raise e => (Raise e, (self, w))
                | Ok config =>
                    let self := mk (_scorers self) (<[vertical := config]> (_configs self))
                                   (_thresholds self) (_market_adjustments self)
                                   (_error_counts self) (_circuit_open self) in
                    match ModelConfig.get_scoring_threshold config with
                    | (Raise e, config) =>
                        (Raise e,
                         (mk (_scorers self) (<[vertical := config]> (_configs self))
                             (_thresholds self) (_market_adjustments self)
                             (_error_counts self) (_circuit_open self), w))
                    | (Ok th, config) =>
                        let self :=
                          mk (_scorers self) (<[vertical := config]> (_configs self))
                             (<[vertical := th]> (_thresholds self))
                             (_market_adjustments self)
                             (_error_counts self) (_circuit_open self) in
                        match get_market_adjustments config with
                        | Raise e => (Raise e, (self, w))
                        | Ok adj =>
                            let self :=
                              mk (_scorers self) (_configs self) (_thresholds self)
                                 (<[vertical := adj]> (_market_adjustments self))
                                 (_error_counts self) (_circuit_open self) in
                            match get_model_version scorer with
                            | Raise e => (Raise e, (self, w))
                            | Ok version => (Ok (Reloaded success version th), (self, w))
                            end
                        end
                    end
                end
            end
        end
    end.

(** The loop of [reload_models] over the verticals still to visit. *)
Fixpoint reload_loop {CE : ConfigExternal} {SE : External} (verticals : list string)
    (reload_status : list (string * ReloadStatus)) (s : t * World)
  : list (string * ReloadStatus) * (t * World) :=
  match verticals with
  | [] => (reload_status, s)
  | vertical :: rest =>
      match reload_one vertical s with
      | (Ok status, s) =>
          reload_loop rest (assoc_set vertical status reload_status) s
      | (Raise e, s) =>
          reload_loop rest (assoc_set vertical (NotReloaded (exc_str e)) reload_status) s
      end
  end.

(** [reload_models()] *)
Definition reload_models {CE : ConfigExternal} {SE : External}
  : SM (t * World) (list (string * ReloadStatus)) :=
  fun s =>
    let '(reload_status, s) := reload_loop (map fst (_scorers (fst s))) [] s in
    (Ok reload_status, s).

End ScoringService.

(** ** routes/scoring_routes.py *)

Module ScoringRoutes.

Record LeadRequest := mkRequest {
  vertical : string;
  lead_data : LeadData;
  session_id : string;
  traffic_source : option string
}.

Definition valid_verticals : list string :=
  ["auto"; "home"; "health"; "life"; "renters"; "commercial"].

(** [LeadRequest.validate_vertical] *)
Definition validate_vertical (v : string) : Result string :=
  if bool_decide (v ∈ valid_verticals) then Ok v
  else Raise (ValueError
    "Invalid vertical. Must be one of: ['auto', 'home', 'health', 'life', 'renters', 'commercial']").

(** The Prometheus metrics of this module, as the label values each was
    incremented or observed with, oldest first. *)
Record Metrics := mkMetrics {
  REQUEST_COUNTER : list string;
  ERROR_COUNTER : list (string * string);
  LATENCY_HISTOGRAM : list string
}.

(** What a handler answers: the returned dict, with the fields the
    handler adds and the background tasks it scheduled, or an
    [HTTPException]. *)
Inductive Reply :=
| Returned (result : ScoringService.Response) (request_id : string)
           (processing_time : Q) (tasks : list (string * Q * Q))
| HTTPException (status_code : nat) (detail : string).

(** The handler of [POST /score], on the module's [scoring_service]. *)
Definition score_lead {CE : ConfigExternal} {FE : FeatureEngineer.External}
    {LE : LeadScorer.External} {SE : ScoringService.External} (request : LeadRequest)
    (s : ScoringService.t * ScoringService.World * Metrics)
  : Reply * (ScoringService.t * ScoringService.World * Metrics) :=
  let '(service, w, m) := s in
  let start_time := LeadScorer.clock_time (LeadScorer.clock (ScoringService.env w)) in
  let m := mkMetrics (REQUEST_COUNTER m ++ [vertical request]) (ERROR_COUNTER m)
                     (LATENCY_HISTOGRAM m) in
  let '(out, (service, w)) :=
    ScoringService.score_lead (vertical request) (lead_data request) (service, w) in
  let m := mkMetrics (REQUEST_COUNTER m) (ERROR_COUNTER m)
                     (LATENCY_HISTOGRAM m ++ [vertical request]) in
  match out with
  | Ok result =>
      let now := LeadScorer.clock_time (LeadScorer.clock (ScoringService.env w)) in
      (Returned result (session_id request) (py_round ((now - start_time) * 1000) 2)
                [(vertical request, ScoringService.score result,
                  ScoringService.confidence result)],
       (service, w, m))
  | Raise (ValueError msg) =>
      (HTTPException 400 msg,
       (service, w,
        mkMetrics (REQUEST_COUNTER m)
                  (ERROR_COUNTER m ++ [(vertical request, "validation_error")])
                  (LATENCY_HISTOGRAM m)))
  | Raise _ =>
      (HTTPException 500 "Internal scoring error",
       (service, w,
        mkMetrics (REQUEST_COUNTER m)
                  (ERROR_COUNTER m ++ [(vertical request, "system_error")])
                  (LATENCY_HISTOGRAM m)))
  end.

(** The handler of [POST /reload]. *)
Definition reload_models {CE : ConfigExternal} {SE : ScoringService.External}
    (s : ScoringService.t * ScoringService.World)
  : Result (string * list (string * ScoringService.ReloadStatus)) * nat
    * (ScoringService.t * ScoringService.World) :=
  match ScoringService.reload_models s with
  | (Ok result, s) => (Ok ("success", result), 200%nat, s)
  | (Raise e, s) => (Raise e, 500%nat, s)
  end.

End ScoringRoutes.

(** ** Sample instances

    Concrete environments and instances on which the statements below are
    exercised.  Instances are written out field by field, as a test double
    would set them up. *)

Module Fixtures.

(** A store on which every path exists and can be written. *)
Definition store_ok : ModelConfig.Store :=
  ModelConfig.mkStore (fun _ => true) (fun _ => true) [].

(** A store on which every path exists and none can be written. *)
Definition store_readonly : ModelConfig.Store :=
  ModelConfig.mkStore (fun _ => true) (fun _ => false) [].

(** The auto configuration at version 1.0 with an empty cache. *)
Definition auto_model_config : ModelConfig.t :=
  ModelConfig.mk "auto" ModelConfig.auto_config (Some ∅) 1.0.

(** The same with the threshold already cached. *)
Definition auto_model_config_cached : ModelConfig.t :=
  ModelConfig.mk "auto" ModelConfig.auto_config
                 (Some {[ "scoring_threshold" := CNum 0.65 ]}) 1.0.

Definition auto_engineer : FeatureEngineer.t :=
  FeatureEngineer.mk auto_model_config ModelConfig.auto_config ∅ ∅ ∅ ∅
    (list_to_map [("numerical", ∅); ("categorical", ∅); ("text", ∅)]) false.

Definition no_globals : FeatureEngineer.Globals := FeatureEngineer.mkGlobals [] ∅ [].

(** A tracker in which [age] has importance 0.1. *)
Definition tracker_age_01 : FeatureEngineer.Globals :=
  FeatureEngineer.mkGlobals [] {[ "age" := 0.1%Q ]} [].

(** Two batches of the categorical column [vehicle_make], of the text
    column [occupation] and of the numerical column [age]. *)
Definition makes_batch_1 : DataFrame :=
  [("vehicle_make", (repeat (VStr "toyota") 10 ++ repeat (VStr "audi") 10)%list)].
Definition makes_batch_2 : DataFrame :=
  [("vehicle_make", repeat (VStr "toyota") 10)].
Definition jobs_batch_1 : DataFrame :=
  [("occupation", [VStr "Engineer"; VStr "Teacher"])].
Definition jobs_batch_2 : DataFrame :=
  [("occupation", [VStr "Engineer"])].
Definition ages_batch_1 : DataFrame := [("age", [VNum 30; VNum 50])].
Definition ages_batch_2 : DataFrame := [("age", [VNum 30])].

(** Every model path holds a valid booster; a Wednesday morning in April. *)
Definition env_april : LeadScorer.Env :=
  LeadScorer.mkEnv store_ok
    (fun _ => Ok (LeadScorer.ObjBooster (LeadScorer.mkBooster 1)))
    (LeadScorer.mkClock 0 4 10 2).

(** The same in May. *)
Definition env_may : LeadScorer.Env :=
  LeadScorer.mkEnv store_ok
    (fun _ => Ok (LeadScorer.ObjBooster (LeadScorer.mkBooster 1)))
    (LeadScorer.mkClock 0 5 10 2).

Definition auto_scorer : LeadScorer.t :=
  LeadScorer.mk auto_model_config auto_engineer
                (Some (LeadScorer.mkBooster 1)) (Some (CNum 0.65)) true.

(** The lead of the test suite's [TEST_DATA['auto']]. *)
Definition auto_lead : LeadData :=
  [ ("age", VNum 30); ("driving_years", VNum 10); ("vehicle_age", VNum 5);
    ("annual_mileage", VNum 12000); ("vehicle_make", VStr "Toyota");
    ("vehicle_model", VStr "Camry"); ("usage_type", VStr "personal");
    ("coverage_type", VStr "full"); ("occupation", VStr "engineer");
    ("location", VStr "California") ].

(** The feature matrix of [auto_lead], column by column. *)
Definition auto_lead_features : FeatureEngineer.Matrix :=
  [ [FeatureEngineer.Scaled FeatureEngineer.StandardScaler [Some 30%Q] (Some 30%Q)];
    [FeatureEngineer.Scaled FeatureEngineer.StandardScaler [Some 10%Q] (Some 10%Q)];
    [FeatureEngineer.Scaled FeatureEngineer.StandardScaler [Some 5%Q] (Some 5%Q)];
    [FeatureEngineer.Scaled FeatureEngineer.StandardScaler [Some 12000%Q] (Some 12000%Q)];
    [FeatureEngineer.Encoded 0]; [FeatureEngineer.Encoded 0];
    [FeatureEngineer.Encoded 0]; [FeatureEngineer.Encoded 0];
    [FeatureEngineer.TfidfWeight ["engineer"] "engineer" "engineer"];
    [FeatureEngineer.TfidfWeight ["california"] "california" "california"] ].

(** The absent methods behaving as Python does for a missing attribute. *)
Definition config_absent : ConfigExternal :=
  {| get_feature_config := fun _ =>
       Raise (AttributeError "'ModelConfig' object has no attribute 'get_feature_config'");
     get_cache_config := fun _ =>
       Raise (AttributeError "'ModelConfig' object has no attribute 'get_cache_config'");
     get_market_adjustments := fun _ =>
       Raise (AttributeError "'ModelConfig' object has no attribute 'get_market_adjustments'") |}.

Definition stats_absent : FeatureEngineer.External :=
  {| FeatureEngineer._update_feature_stats := fun _ _ =>
       Raise (AttributeError
                "'FeatureEngineer' object has no attribute '_update_feature_stats'") |}.

Definition version_absent : ScoringService.External :=
  {| ScoringService.get_model_version := fun _ =>
       Raise (AttributeError "'LeadScorer' object has no attribute 'get_model_version'") |}.

(** The absent methods supplied with the obvious behaviour. *)
Definition config_present : ConfigExternal :=
  {| get_feature_config := fun c => Ok (ModelConfig._config c);
     get_cache_config := fun _ => Ok ∅;
     get_market_adjustments := fun _ => Ok [] |}.

Definition stats_present : FeatureEngineer.External :=
  {| FeatureEngineer._update_feature_stats := fun stats _ => Ok stats |}.

Definition version_present : ScoringService.External :=
  {| ScoringService.get_model_version := fun _ => Ok (VStr "1.0") |}.

(** A booster that scores every row 0.85. *)
Definition booster_085 : LeadScorer.External :=
  {| LeadScorer.predict := fun _ features => Ok [0.85%Q] |}.

Definition world_april : ScoringService.World :=
  ScoringService.mkWorld env_april (LeadScorer.mkGlobals ∅ 0 0 0) no_globals [] ∅.

(** A service with the auto scorer registered. *)
Definition service_auto : ScoringService.t :=
  ScoringService.mk [("auto", auto_scorer)] ∅ ∅ ∅ ∅ ∅.

(** A fresh service, and one with the auto scorer registered. *)
Definition fresh_service : ScoringService.t * ScoringService.World :=
  (ScoringService.__init__, world_april).
Definition registered_service : ScoringService.t * ScoringService.World :=
  (service_auto, world_april).

(** What five [_record_error] calls for [auto] leave of a fresh service. *)
Definition service_after_five_rejections : ScoringService.t * ScoringService.World :=
  (ScoringService.mk [] ∅ ∅ ∅ {[ "auto" := 5%nat ]} {[ "auto" := true ]},
   ScoringService.mkWorld env_april (LeadScorer.mkGlobals ∅ 0 0 0) no_globals
     [("auto", "ValueError"); ("auto", "ValueError"); ("auto", "ValueError");
      ("auto", "ValueError"); ("auto", "ValueError")] ∅).

(** The artifact under the [home] directory is corrupted; every other
    path holds booster 2. *)
Definition env_home_corrupted : LeadScorer.Env :=
  LeadScorer.mkEnv store_ok
    (fun path => if bool_decide (path = "/opt/ml/models/home")
                 then Raise (RuntimeError "invalid load key")
                 else Ok (LeadScorer.ObjBooster (LeadScorer.mkBooster 2)))
    (LeadScorer.mkClock 0 4 10 2).

(** A scorer for [vertical] holding booster 1. *)
Definition scorer_of (vertical : string) (config : gmap string CfgVal) : LeadScorer.t :=
  let c := ModelConfig.mk vertical config (Some ∅) 1.0 in
  LeadScorer.mk c
    (FeatureEngineer.mk c config ∅ ∅ ∅ ∅
       (list_to_map [("numerical", ∅); ("categorical", ∅); ("text", ∅)]) false)
    (Some (LeadScorer.mkBooster 1)) (Some (CNum 0.65)) true.

(** A service with three verticals registered. *)
Definition three_verticals : ScoringService.t * ScoringService.World :=
  (ScoringService.mk
     [ ("auto", scorer_of "auto" ModelConfig.auto_config);
       ("home", scorer_of "home" ModelConfig.home_config);
       ("health", scorer_of "health" ModelConfig.auto_config) ]
     ∅ ∅ ∅ ∅ ∅,
   ScoringService.mkWorld env_home_corrupted (LeadScorer.mkGlobals ∅ 0 0 0)
     no_globals [] ∅).

End Fixtures.

(** ** Further sample instances *)

Module Samples.

(** The cached auto configuration after its text features were replaced
    and persisted, and the store after that write. *)
Definition auto_config_updated : ModelConfig.t :=
  Eval vm_compute in
    snd (fst (ModelConfig.update_config Fixtures.store_ok
                {[ "text_features" := CList ["occupation"] ]} true
                Fixtures.auto_model_config_cached)).

Definition store_after_update : ModelConfig.Store :=
  snd (ModelConfig.update_config Fixtures.store_ok
         {[ "text_features" := CList ["occupation"] ]} true
         Fixtures.auto_model_config_cached).

(** [Fixtures.auto_engineer] with the transform cache in use, and what a
    transform of [Fixtures.auto_lead] leaves of it and of the globals. *)
Definition caching_engineer : FeatureEngineer.t :=
  FeatureEngineer.mk Fixtures.auto_model_config ModelConfig.auto_config
    {[ "enable_cache" := CNum 1 ]} ∅ ∅ ∅
    (list_to_map [("numerical", ∅); ("categorical", ∅); ("text", ∅)]) true.

Definition caching_engineer_after : FeatureEngineer.t * FeatureEngineer.Globals :=
  Eval vm_compute in
    snd (FeatureEngineer.transform_features (FE:=Fixtures.stats_present)
           (frame_of_lead Fixtures.auto_lead) true (caching_engineer, Fixtures.no_globals)).

(** [Fixtures.auto_engineer] configured to keep every category. *)
Definition lenient_engineer : FeatureEngineer.t :=
  FeatureEngineer.mk Fixtures.auto_model_config
    (<["min_category_frequency" := CNum 1]> ModelConfig.auto_config)
    ∅ ∅ ∅ ∅
    (list_to_map [("numerical", ∅); ("categorical", ∅); ("text", ∅)]) false.

(** An environment whose model store is empty and whose loader always
    fails, at time 1800. *)
Definition env_no_store : LeadScorer.Env :=
  LeadScorer.mkEnv (ModelConfig.mkStore (fun _ => false) (fun _ => false) [])
    (fun _ => Raise (RuntimeError "no such file"))
    (LeadScorer.mkClock 1800 5 10 2).

(** A scorer as [__init__] builds it before a model is installed. *)
Definition scorer_without_model : LeadScorer.t :=
  LeadScorer.mk Fixtures.auto_model_config Fixtures.auto_engineer None None true.

(** Booster 7 cached for [auto] at time 0. *)
Definition cached_booster_7 : LeadScorer.Globals :=
  LeadScorer.mkGlobals {[ "auto" := (LeadScorer.mkBooster 7, 0%Q) ]} 0 0 0.

(** What the registered auto service answers for [Fixtures.auto_lead]
    when the booster scores 0.85, and the state it is left in. *)
Definition auto_response : ScoringService.Response :=
  Eval vm_compute in
    match fst (ScoringService.score_lead (CE:=Fixtures.config_present)
                 (FE:=Fixtures.stats_present) (LE:=Fixtures.booster_085)
                 (SE:=Fixtures.version_present)
                 "auto" Fixtures.auto_lead Fixtures.registered_service) with
    | Ok r => r
    | Raise _ => ScoringService._get_fallback_score "auto" Fixtures.service_auto
    end.

Definition registered_service_after : ScoringService.t * ScoringService.World :=
  Eval vm_compute in
    snd (ScoringService.score_lead (CE:=Fixtures.config_present)
           (FE:=Fixtures.stats_present) (LE:=Fixtures.booster_085)
           (SE:=Fixtures.version_present)
           "auto" Fixtures.auto_lead Fixtures.registered_service).

End Samples.

(** ** Notions used in the statements

    The price formula and the block widths as the specification words
    them, and sequences of calls. *)





(** Where [_persist_configuration] writes. *)
Definition config_path (self : ModelConfig.t) : string :=
  ModelConfig.path_join
    (ModelConfig.path_join ModelConfig.MODEL_BASE_PATH (ModelConfig._vertical self))
    "config.yaml".

(** Which group of features a cell of the matrix belongs to. *)
Inductive Kind := Numerical | Categorical | Text.

Definition kind_of (c : FeatureEngineer.Cell) : Kind :=
  match c with
  | FeatureEngineer.Scaled _ _ _ => Numerical
  | FeatureEngineer.Encoded _ => Categorical
  | FeatureEngineer.TfidfWeight _ _ _ | FeatureEngineer.Hashed _ _ _ => Text
  end.

(** [column] holds one cell of kind [k] per row of the column [name] of
    [data]. *)
Definition column_of (k : Kind) (data : DataFrame) (name : string)
    (column : list FeatureEngineer.Cell) : Prop :=
  exists cells,
    assoc_get name data = Some cells /\
    length column = length cells /\
    Forall (fun c => kind_of c = k) column.

(** Width of the block that one text column contributes, from its cleaned
    cells: 100 on the hashing path, and on the TF-IDF path the number of
    distinct tokens, capped at 100. *)
Definition text_column_width (cleaned_text : list string) : nat :=
  if (10000 <? Z.of_nat (FeatureEngineer.vocabulary_size cleaned_text))%Z then 100%nat
  else Nat.min 100 (length (remove_dups (concat (map sk_tokenize cleaned_text)))).

(** [block] is the block of the text column [name] of [data]: as wide as
    the column's text calls for, at least one column, every column holding
    one text cell per row. *)
Definition text_block_of (data : DataFrame) (name : string)
    (block : FeatureEngineer.Matrix) : Prop :=
  exists cells cleaned_text,
    assoc_get name data = Some cells /\
    FeatureEngineer._clean_text cells = Ok cleaned_text /\
    length block = text_column_width cleaned_text /\
    (1 <= length block)%nat /\
    Forall (fun column => length column = length cells /\
                          Forall (fun c => kind_of c = Text) column) block.

(** The layout of a feature matrix computed for [data] by an engineer with
    feature configuration [fc]: one numerical column per numerical
    feature, in the configured order; then one categorical column per
    categorical feature, in the configured order; then one block per text
    feature, in the configured order. *)
Definition laid_out (fc : gmap string CfgVal) (data : DataFrame)
    (features : FeatureEngineer.Matrix) : Prop :=
  exists (num cat txt : list string) (nb cb : FeatureEngineer.Matrix)
         (tbs : list FeatureEngineer.Matrix),
    FeatureEngineer.fc_list fc "numerical_features" = Ok num /\
    FeatureEngineer.fc_list fc "categorical_features" = Ok cat /\
    FeatureEngineer.fc_list fc "text_features" = Ok txt /\
    features = (nb ++ cb ++ concat tbs)%list /\
    Forall2 (column_of Numerical data) num nb /\
    Forall2 (column_of Categorical data) cat cb /\
    Forall2 (text_block_of data) txt tbs /\
    FeatureEngineer.width features
      = (length num + length cat + sum_list (map length tbs))%nat /\
    (length num + length cat + length txt <= FeatureEngineer.width features
     <= length num + length cat + 100 * length txt)%nat.

(** The calls [score_lead(vertical, r)] for the records [r] of a list, one
    after the other: what each returned, and the final state. *)
Fixpoint score_leads {CE : ConfigExternal} {FE : FeatureEngineer.External}
    {LE : LeadScorer.External} {SE : ScoringService.External}
    (vertical : string) (records : list LeadData)
    (s : ScoringService.t * ScoringService.World)
  : list (Result ScoringService.Response) * (ScoringService.t * ScoringService.World) :=
  match records with
  | [] => ([], s)
  | r :: records' =>
      let '(out, s1) := ScoringService.score_lead vertical r s in
      let '(outs, s2) := score_leads vertical records' s1 in
      (out :: outs, s2)
  end.

(** [n] calls for [vertical] in a row that each failed and left the error
    counter one higher than they found it. *)
Inductive counted_failures {CE : ConfigExternal} {FE : FeatureEngineer.External}
    {LE : LeadScorer.External} {SE : ScoringService.External} (vertical : string)
  : nat -> ScoringService.t * ScoringService.World
    -> ScoringService.t * ScoringService.World -> Prop :=
| counted_none s : counted_failures vertical 0 s s
| counted_next n s s1 s2 record e :
    ScoringService.score_lead vertical record s = (Raise e, s1) ->
    ScoringService.error_count vertical (fst s1)
      = S (ScoringService.error_count vertical (fst s)) ->
    counted_failures vertical n s1 s2 ->
    counted_failures vertical (S n) s s2.

(** A status entry that reports a failure. *)
Definition not_reloaded (entry : string * ScoringService.ReloadStatus) : Prop :=
  exists error, snd entry = ScoringService.NotReloaded error.

(** ** Notions used in the further statements *)

(** The directory [get_model_path(model_version)] resolves to: the base
    directory, the vertical and, for a non-empty version, [v{version}]. *)
Definition resolved_model_path (self : ModelConfig.t) (model_version : option string)
  : string :=
  let base := ModelConfig.path_join ModelConfig.MODEL_BASE_PATH (ModelConfig._vertical self) in
  match model_version with
  | Some v => if bool_decide (v = "") then base else ModelConfig.path_join base ("v" ++ v)
  | None => base
  end.

(** The category a value is encoded as: ['Other'] when it occurs fewer
    than [min_freq] times among [values], itself otherwise. *)
Definition bucketed (min_freq : Q) (values : list string) (v : string) : string :=
  if negb (Qle_bool min_freq (inject_Z (Z.of_nat (count_occ_str v values))))
  then "Other" else v.

(** A cell of a text column that holds no text. *)
Definition blank_cell (v : PyVal) : Prop := v = VNone \/ v = VStr "".

(** Every entry of the transform cache carries empty importance scores. *)
Definition cache_without_importance (g : FeatureEngineer.Globals) : Prop :=
  Forall (fun entry => snd (snd entry) = []) (FeatureEngineer.PREPROCESSOR_CACHE g).

(** What the service holds for [vertical] is the same in [a] and [b]. *)
Definition same_for (vertical : string) (a b : ScoringService.t) : Prop :=
  assoc_get vertical (ScoringService._scorers b)
    = assoc_get vertical (ScoringService._scorers a) /\
  ScoringService._configs b !! vertical = ScoringService._configs a !! vertical /\
  ScoringService._thresholds b !! vertical = ScoringService._thresholds a !! vertical /\
  ScoringService._market_adjustments b !! vertical
    = ScoringService._market_adjustments a !! vertical /\
  ScoringService.error_count vertical b = ScoringService.error_count vertical a /\
  ScoringService.circuit_open vertical b = ScoringService.circuit_open vertical a.

(** The calls [score_lead(vertical, record)] for a list of requests, one
    after the other: what each returned, and the final state. *)
Fixpoint score_requests {CE : ConfigExternal} {FE : FeatureEngineer.External}
    {LE : LeadScorer.External} {SE : ScoringService.External}
    (requests : list (string * LeadData))
    (s : ScoringService.t * ScoringService.World)
  : list (Result ScoringService.Response) * (ScoringService.t * ScoringService.World) :=
  match requests with
  | [] => ([], s)
  | (vertical, record) :: requests' =>
      let '(out, s1) := ScoringService.score_lead vertical record s in
      let '(outs, s2) := score_requests requests' s1 in
      (out :: outs, s2)
  end.

(** A call that did not score: it failed, or answered with the fallback. *)
Definition not_scored (out : Result ScoringService.Response) : Prop :=
  match out with
  | Ok r => r.(ScoringService.fallback) = true /\ r.(ScoringService.original_score) = None
  | Raise e => exists msg, e = ValueError ("Lead scoring failed: " ++ msg)
  end.

(** What the preprocessors leave alone on the instance. *)
Definition same_setup (a b : FeatureEngineer.t) : Prop :=
  FeatureEngineer._feature_config a = FeatureEngineer._feature_config b /\
  FeatureEngineer._use_cache a = FeatureEngineer._use_cache b.

(** [s] consists of whitespace only. *)
Fixpoint only_spaces (s : string) : bool :=
  match s with
  | EmptyString => true
  | String c s' => is_space c && only_spaces s'
  end.

(** [g'] has the transform cache and the importance tracker of [g]. *)
Definition keeps_tracker (g g' : FeatureEngineer.Globals) : Prop :=
  FeatureEngineer.PREPROCESSOR_CACHE g' = FeatureEngineer.PREPROCESSOR_CACHE g /\
  FeatureEngineer.FEATURE_IMPORTANCE g' = FeatureEngineer.FEATURE_IMPORTANCE g.

(** [b] has the error counters, the breakers and the registered
    verticals of [a]. *)
Definition same_breaker (a b : ScoringService.t) : Prop :=
  ScoringService._error_counts b = ScoringService._error_counts a /\
  ScoringService._circuit_open b = ScoringService._circuit_open a /\
  map fst (ScoringService._scorers b) = map fst (ScoringService._scorers a).

(** [s] contains an opening square bracket. *)
Fixpoint has_bracket (s : string) : bool :=
  match s with
  | EmptyString => false
  | String c s' => Ascii.eqb c "["%char || has_bracket s'
  end.

(** The fallback result as the specification words it (score 0.5,
    confidence 0.3, price 75.00, model version 'fallback', fallback flag
    set), with no original score, no factors and the threshold reported. *)
Definition spec_fallback_result (threshold : CfgVal) : ScoringService.Response :=
  {| ScoringService.score := 0.5;
     ScoringService.original_score := None;
     ScoringService.confidence := 0.3;
     ScoringService.price := 75.0;
     ScoringService.market_factors := [];
     ScoringService.feature_importance := [];
     ScoringService.model_version := VStr "fallback";
     ScoringService.threshold := threshold;
     ScoringService.fallback := true |}.

(** What a rejected request raises. *)
Definition missing_parameters : PyExc :=
  ValueError "Lead scoring failed: Missing required parameters".


(** ** Sample traces *)

Module Traces.

(** The lead of the test suite with a two-word occupation. *)
Definition auto_lead_two_words : LeadData :=
  [ ("age", VNum 30); ("driving_years", VNum 10); ("vehicle_age", VNum 5);
    ("annual_mileage", VNum 12000); ("vehicle_make", VStr "Toyota");
    ("vehicle_model", VStr "Camry"); ("usage_type", VStr "personal");
    ("coverage_type", VStr "full"); ("occupation", VStr "software engineer");
    ("location", VStr "California") ].

(** A service whose auto scorer is registered and whose breaker for
    [auto] is open with five errors counted. *)
Definition service_auto_open : ScoringService.t * ScoringService.World :=
  (ScoringService.mk [("auto", Fixtures.auto_scorer)] ∅ ∅ ∅
     {[ "auto" := 5%nat ]} {[ "auto" := true ]},
   Fixtures.world_april).

(** The same service with the breaker closed and no error counted. *)
Definition service_auto_closed : ScoringService.t * ScoringService.World :=
  (ScoringService.mk [("auto", Fixtures.auto_scorer)] ∅ ∅ ∅
     {[ "auto" := 0%nat ]} {[ "auto" := false ]},
   Fixtures.world_april).





(** What five requests for [auto] with the test suite's lead leave of a
    fresh service when the undefined methods are absent. *)
Definition service_after_five_failures : ScoringService.t * ScoringService.World :=
  Eval vm_compute in
    snd (score_leads (CE:=Fixtures.config_absent) (FE:=Fixtures.stats_absent)
           (LE:=Fixtures.booster_085) (SE:=Fixtures.version_absent)
           "auto" (repeat Fixtures.auto_lead 5) Fixtures.fresh_service).

End Traces.

(** * Properties *)

(** Closed statements about concrete inputs are settled by evaluation,
    conjunct by conjunct. *)
Ltac split_and_compute :=
  repeat match goal with |- _ /\ _ => split end; vm_compute; reflexivity.

(** ** Sanity checks of the helpers *)

Example py_float_plain : py_float "1.5" = Ok (inject_Z 1 + (5 # 10))%Q.
Proof. reflexivity. Qed.

Example py_float_version : py_float "1.0.0"
  = Raise (ValueError "could not convert string to float: '1.0.0'").
Proof. reflexivity. Qed.

Example sk_tokenize_ex : sk_tokenize "Senior Engineer, R&D (a)" = ["senior"; "engineer"].
Proof. reflexivity. Qed.

Example py_split_ex : py_split "  new york  ny " = ["new"; "york"; "ny"].
Proof. reflexivity. Qed.

Example py_split_separator :
  py_split (String "a" (String (ascii_of_nat 28) "b")) = ["a"; "b"].
Proof. reflexivity. Qed.

Example remove_all_ex : remove_all "ab" "xabyabab" = "xy".
Proof. reflexivity. Qed.

Example sorted_unique_ex : sorted_unique ["b"; "a"; "Other"; "b"] = ["Other"; "a"; "b"].
Proof. reflexivity. Qed.

(** ** Arithmetic helpers *)

Lemma Qle_bool_false (a b : Q) : Qle_bool a b = false <-> (b < a)%Q.
Proof.
  split.
  - intros H. apply Qnot_le_lt. intros Hle.
    apply Qle_bool_iff in Hle. congruence.
  - intros H. destruct (Qle_bool a b) eqn:E; [|reflexivity].
    apply Qle_bool_iff in E. exfalso. exact (Qlt_not_le _ _ H E).
Qed.

Lemma negb_Qle_bool_true (a b : Q) : negb (Qle_bool a b) = true <-> (b < a)%Q.
Proof. rewrite negb_true_iff. apply Qle_bool_false. Qed.

Lemma py_max_lower (a b : Q) : (b <= py_max a b)%Q.
Proof.
  unfold py_max. destruct (Qle_bool b a) eqn:E; simpl.
  - now apply Qle_bool_iff.
  - apply Qle_refl.
Qed.

Lemma py_min_upper (a b : Q) : (py_min a b <= b)%Q.
Proof.
  unfold py_min. destruct (Qle_bool a b) eqn:E; simpl.
  - now apply Qle_bool_iff.
  - apply Qle_refl.
Qed.

Lemma py_min_lower (a b lo : Q) : (lo <= a)%Q -> (lo <= b)%Q -> (lo <= py_min a b)%Q.
Proof. intros Ha Hb. unfold py_min. now destruct (negb (Qle_bool a b)). Qed.

(** The clamp [min(max(x, lo), hi)] lands in [[lo, hi]]. *)
Lemma clamp_range (x lo hi : Q) :
  (lo <= hi)%Q -> (lo <= py_min (py_max x lo) hi <= hi)%Q.
Proof.
  intros Hlh. split.
  - apply py_min_lower; [apply py_max_lower | exact Hlh].
  - apply py_min_upper.
Qed.

Lemma round_half_even_floor (x : Q) :
  (Qfloor x <= round_half_even x <= Qfloor x + 1)%Z.
Proof.
  unfold round_half_even.
  destruct (x - inject_Z (Qfloor x) ?= 1 # 2)%Q; [destruct (Z.even _)| |]; lia.
Qed.

Lemma round_half_even_lower (x : Q) (n : Z) :
  (inject_Z n <= x)%Q -> (n <= round_half_even x)%Z.
Proof.
  intros H. pose proof (round_half_even_floor x) as [Hf _].
  apply Qfloor_resp_le in H. rewrite Qfloor_Z in H. lia.
Qed.

Lemma round_half_even_upper (x : Q) (n : Z) :
  (x <= inject_Z n)%Q -> (round_half_even x <= n)%Z.
Proof.
  intros H. pose proof (round_half_even_floor x) as [_ Hc].
  pose proof (Qfloor_resp_le _ _ H) as Hfl. rewrite Qfloor_Z in Hfl.
  destruct (Z.eq_dec (Qfloor x) n) as [Heq|Hne]; [|lia].
  (* the floor is already [n]: then [x] is the integer [n] and stays put *)
  assert (Hx : (x == inject_Z n)%Q).
  { apply Qle_antisym; [exact H|]. rewrite <- Heq. apply Qfloor_le. }
  unfold round_half_even. rewrite Heq.
  assert (Hlt : (x - inject_Z n ?= 1 # 2)%Q = Lt).
  { apply Qlt_alt. rewrite Hx. unfold Qminus. rewrite Qplus_opp_r. reflexivity. }
  rewrite Hlt. lia.
Qed.


Lemma py_round2_range (x : Q) (lo hi : Z) :
  (inject_Z lo <= x <= inject_Z hi)%Q ->
  (inject_Z lo <= py_round x 2 <= inject_Z hi)%Q.
Proof.
  intros [Hlo Hhi].
  assert (H1 : (inject_Z (lo * 100) <= x * inject_Z 100)%Q).
  { rewrite inject_Z_mult. apply Qmult_le_compat_r; [exact Hlo | discriminate]. }
  assert (H2 : (x * inject_Z 100 <= inject_Z (hi * 100))%Q).
  { rewrite inject_Z_mult. apply Qmult_le_compat_r; [exact Hhi | discriminate]. }
  apply round_half_even_lower in H1. apply round_half_even_upper in H2.
  change (py_round x 2) with (round_half_even (x * inject_Z 100) # 100).
  unfold Qle; simpl. lia.
Qed.

(** ** Confidence tiers *)

Lemma confidence_high_iff (score : Q) :
  LeadScorer._calculate_confidence score = 0.9%Q <-> (0.8 < score \/ score < 0.2)%Q.
Proof.
  unfold LeadScorer._calculate_confidence. split.
  - destruct (Qle_bool score 0.8) eqn:E1; simpl.
    + destruct (Qle_bool 0.2 score) eqn:E2; simpl.
      * destruct (Qle_bool 0.4 score && Qle_bool score 0.6); intros H; discriminate H.
      * intros _. right. now apply Qle_bool_false.
    + intros _. left. now apply Qle_bool_false.
  - intros [H|H]; apply Qle_bool_false in H; rewrite H; simpl;
      [reflexivity | now rewrite orb_true_r].
Qed.

Lemma confidence_mid_iff (score : Q) :
  LeadScorer._calculate_confidence score = 0.7%Q <-> (0.4 <= score /\ score <= 0.6)%Q.
Proof.
  unfold LeadScorer._calculate_confidence. split.
  - destruct (Qle_bool score 0.8) eqn:E1; simpl; [|intros H; discriminate H].
    destruct (Qle_bool 0.2 score) eqn:E2; simpl; [|intros H; discriminate H].
    destruct (Qle_bool 0.4 score) eqn:E3; simpl; [|intros H; discriminate H].
    destruct (Qle_bool score 0.6) eqn:E4; simpl; [|intros H; discriminate H].
    intros _. split; now apply Qle_bool_iff.
  - intros [H1 H2].
    assert (Ha : Qle_bool score 0.8 = true).
    { apply Qle_bool_iff. eapply Qle_trans; [exact H2 | discriminate]. }
    assert (Hb : Qle_bool 0.2 score = true).
    { apply Qle_bool_iff. eapply Qle_trans; [|exact H1]. discriminate. }
    apply Qle_bool_iff in H1, H2. now rewrite Ha, Hb, H1, H2.
Qed.

Lemma confidence_default_iff (score : Q) :
  LeadScorer._calculate_confidence score = 0.8%Q <->
  ~ (0.8 < score \/ score < 0.2)%Q /\ ~ (0.4 <= score /\ score <= 0.6)%Q.
Proof.
  split.
  - intros H. split; intros Hc.
    + apply confidence_high_iff in Hc. rewrite Hc in H. discriminate H.
    + apply confidence_mid_iff in Hc. rewrite Hc in H. discriminate H.
  - intros [Hout Hmid]. unfold LeadScorer._calculate_confidence.
    destruct (Qle_bool score 0.8) eqn:E1; simpl;
      [|exfalso; apply Hout; left; now apply Qle_bool_false].
    destruct (Qle_bool 0.2 score) eqn:E2; simpl;
      [|exfalso; apply Hout; right; now apply Qle_bool_false].
    destruct (Qle_bool 0.4 score) eqn:E3; simpl; [|reflexivity].
    destruct (Qle_bool score 0.6) eqn:E4; simpl; [|reflexivity].
    exfalso. apply Hmid. split; now apply Qle_bool_iff.
Qed.

(** C9.  For every score the derived confidence is the fixed tier lookup:
    0.9 exactly when the score is above 0.8 or below 0.2, 0.7 exactly when
    it lies in [0.4, 0.6], and 0.8 in every other case; the boundaries 0.8
    and 0.2 fall in the 0.8 tier and the boundaries 0.4 and 0.6 in the 0.7
    tier. *)
Theorem confidence_tier_lookup (score : Q) :
  (LeadScorer._calculate_confidence score = 0.9%Q <-> (0.8 < score \/ score < 0.2)%Q) /\
  (LeadScorer._calculate_confidence score = 0.7%Q <-> (0.4 <= score /\ score <= 0.6)%Q) /\
  (LeadScorer._calculate_confidence score = 0.8%Q <->
     ~ (0.8 < score \/ score < 0.2)%Q /\ ~ (0.4 <= score /\ score <= 0.6)%Q) /\
  LeadScorer._calculate_confidence 0.85 = 0.9%Q /\
  LeadScorer._calculate_confidence 0.5 = 0.7%Q /\
  LeadScorer._calculate_confidence 0.7 = 0.8%Q /\
  LeadScorer._calculate_confidence 0.8 = 0.8%Q /\
  LeadScorer._calculate_confidence 0.2 = 0.8%Q /\
  LeadScorer._calculate_confidence 0.4 = 0.7%Q /\
  LeadScorer._calculate_confidence 0.6 = 0.7%Q.
Proof.
  split; [apply confidence_high_iff|].
  split; [apply confidence_mid_iff|].
  split; [apply confidence_default_iff|].
  repeat split; reflexivity.
Qed.

(** ** Price *)








(** ** Configuration *)

Lemma FEATURE_CONFIG_lookup (vertical : string) :
  ModelConfig.FEATURE_CONFIG !! vertical =
    if bool_decide (vertical = "auto") then Some ModelConfig.auto_config
    else if bool_decide (vertical = "home") then Some ModelConfig.home_config
    else None.
Proof.
  unfold ModelConfig.FEATURE_CONFIG. simpl.
  repeat (case_bool_decide; [subst; reflexivity|]).
  now rewrite !lookup_insert_ne, lookup_empty by congruence.
Qed.

(** A vertical without an entry in [FEATURE_CONFIG] is refused. *)
Lemma construct_unknown_vertical (vertical : string)
    (config_override : option (gmap string CfgVal)) (enable_caching : bool) :
  vertical <> "auto" -> vertical <> "home" ->
  ModelConfig.__init__ vertical config_override enable_caching
  = Raise (ValueError ("Unsupported insurance vertical: " ++ vertical)).
Proof.
  intros Ha Hh. unfold ModelConfig.__init__. rewrite FEATURE_CONFIG_lookup.
  now rewrite !bool_decide_eq_false_2 by assumption.
Qed.

(** No call of the constructor returns an instance: the vertical is either
    unknown, or the conversion of [CONFIG_VERSION] raises. *)
Lemma construct_never_succeeds (vertical : string)
    (config_override : option (gmap string CfgVal)) (enable_caching : bool) :
  exists msg, ModelConfig.__init__ vertical config_override enable_caching
              = Raise (ValueError msg).
Proof.
  unfold ModelConfig.__init__. rewrite FEATURE_CONFIG_lookup.
  repeat case_bool_decide; eexists; reflexivity.
Qed.

(** Without a cached or configured threshold the default 0.65 is returned. *)
Lemma default_scoring_threshold (self : ModelConfig.t) :
  ModelConfig.cache_get "scoring_threshold" self = None ->
  ModelConfig._config self !! "scoring_threshold" = None ->
  fst (ModelConfig.get_scoring_threshold self) = Ok (CNum 0.65).
Proof.
  intros Hc Hk. unfold ModelConfig.get_scoring_threshold. now rewrite Hc, Hk.
Qed.

(** A threshold that is computed (not served from the cache) lies in [0, 1]. *)
Lemma computed_threshold_in_unit_interval (self : ModelConfig.t) (v : CfgVal) :
  ModelConfig.cache_get "scoring_threshold" self = None ->
  fst (ModelConfig.get_scoring_threshold self) = Ok v ->
  exists q, v = CNum q /\ (0 <= q <= 1)%Q.
Proof.
  intros Hc. unfold ModelConfig.get_scoring_threshold. rewrite Hc.
  destruct (default _ _) as [q| | |] eqn:Hd; simpl; try (intros H; discriminate H).
  destruct (Qle_bool 0 q) eqn:E0; simpl; [|intros H; discriminate H].
  destruct (Qle_bool q 1) eqn:E1; simpl; [|intros H; discriminate H].
  intros [= <-]. exists q. split; [reflexivity|]. split; now apply Qle_bool_iff.
Qed.

(** C2.  What the constructor does on the six verticals of the product:
    [health], [life], [renters] and [commercial] have no entry in
    [FEATURE_CONFIG] and are refused as unsupported, and for [auto] and
    [home] the conversion [float('1.0.0')] of the version constant raises,
    so that none of the six yields an instance. *)
Theorem supported_verticals_not_constructible :
  ModelConfig.__init__ "health" None true
    = Raise (ValueError "Unsupported insurance vertical: health") /\
  ModelConfig.__init__ "life" None true
    = Raise (ValueError "Unsupported insurance vertical: life") /\
  ModelConfig.__init__ "renters" None true
    = Raise (ValueError "Unsupported insurance vertical: renters") /\
  ModelConfig.__init__ "commercial" None true
    = Raise (ValueError "Unsupported insurance vertical: commercial") /\
  ModelConfig.__init__ "auto" None true
    = Raise (ValueError "could not convert string to float: '1.0.0'") /\
  ModelConfig.__init__ "home" None true
    = Raise (ValueError "could not convert string to float: '1.0.0'").
Proof. cbv zeta. split_and_compute. Qed.

(** *** Updates *)

(** Rejected keys: nothing is touched. *)
Lemma update_config_invalid_keys (st : ModelConfig.Store) (new_config : gmap string CfgVal)
    (persist : bool) (self : ModelConfig.t) (e : PyExc) :
  ModelConfig._validate_config_override self new_config = Raise e ->
  ModelConfig.update_config st new_config persist self = (Raise e, self, st).
Proof. intros H. unfold ModelConfig.update_config. now rewrite H. Qed.

(** Accepted keys and a successful (or no) write: the configuration is
    merged, the version raised by 0.1 and the cache emptied. *)
Lemma update_config_success (st : ModelConfig.Store) (new_config : gmap string CfgVal)
    (persist : bool) (self : ModelConfig.t) :
  ModelConfig._validate_config_override self new_config = Ok tt ->
  (persist = true -> ModelConfig.st_writable st (config_path self) = true) ->
  exists st',
    ModelConfig.update_config st new_config persist self
    = (Ok true,
       ModelConfig.mk (ModelConfig._vertical self)
                      (new_config ∪ ModelConfig._config self)
                      ((fun _ => ∅) <$> ModelConfig._cache self)
                      (ModelConfig._version self + 0.1)%Q,
       st').
Proof.
  intros Hv Hw. unfold ModelConfig.update_config. rewrite Hv.
  destruct persist; [|eexists; reflexivity].
  unfold ModelConfig._persist_configuration. simpl.
  unfold config_path in Hw. rewrite Hw by reflexivity. eexists; reflexivity.
Qed.

(** Accepted keys and a failing write: the configuration is restored, the
    version stays raised and the cache stays emptied. *)
Lemma update_config_persist_failure (st : ModelConfig.Store)
    (new_config : gmap string CfgVal) (self : ModelConfig.t) :
  ModelConfig._validate_config_override self new_config = Ok tt ->
  ModelConfig.st_writable st (config_path self) = false ->
  ModelConfig.update_config st new_config true self
  = (Raise (ValueError
       "Failed to update configuration: Failed to persist configuration: cannot open file"),
     ModelConfig.mk (ModelConfig._vertical self)
                    (ModelConfig._config self)
                    ((fun _ => ∅) <$> ModelConfig._cache self)
                    (ModelConfig._version self + 0.1)%Q,
     st).
Proof.
  intros Hv Hw. unfold ModelConfig.update_config. rewrite Hv.
  unfold ModelConfig._persist_configuration. simpl.
  unfold config_path in Hw. now rewrite Hw.
Qed.

(** C6.  An update of the cached auto configuration at version 1.0 whose
    write fails: the call raises and the configuration mapping is the old
    one again, but the version is 1.1 and the cached threshold is gone. *)
Theorem update_config_failed_write_keeps_bump :
  let before := Fixtures.auto_model_config_cached in
  let out := ModelConfig.update_config Fixtures.store_readonly
               {[ "text_features" := CList ["occupation"] ]} true before in
  fst (fst out)
    = Raise (ValueError
        "Failed to update configuration: Failed to persist configuration: cannot open file") /\
  ModelConfig._config (snd (fst out)) = ModelConfig._config before /\
  ModelConfig._version before = 1.0%Q /\
  (ModelConfig._version (snd (fst out)) == 1.1)%Q /\
  ModelConfig.cache_get "scoring_threshold" before = Some (CNum 0.65) /\
  ModelConfig.cache_get "scoring_threshold" (snd (fst out)) = None.
Proof. cbv zeta. split_and_compute. Qed.

(** ** Importance tracking *)

Lemma merge_scores_other (scores : list (string * Q)) (m : gmap string Q) (k : string) :
  k ∉ map fst scores ->
  fold_left (fun m fs => <[fst fs := snd fs]> m) scores m !! k = m !! k.
Proof.
  revert m. induction scores as [|[k' v'] scores IH]; intros m Hk; simpl; [reflexivity|].
  simpl in Hk. rewrite not_elem_of_cons in Hk. destruct Hk as [Hne Hk].
  rewrite IH by exact Hk. now rewrite lookup_insert_ne.
Qed.

(** After the merge every supplied feature is tracked at its new score. *)
Lemma merge_scores_lookup (scores : list (string * Q)) (m : gmap string Q)
    (k : string) (v : Q) :
  NoDup (map fst scores) -> (k, v) ∈ scores ->
  fold_left (fun m fs => <[fst fs := snd fs]> m) scores m !! k = Some v.
Proof.
  revert m. induction scores as [|[k' v'] scores IH]; intros m Hnd Hin.
  - now apply elem_of_nil in Hin.
  - simpl in *. apply NoDup_cons in Hnd as [Hk' Hnd].
    apply elem_of_cons in Hin as [[= -> ->]|Hin].
    + rewrite merge_scores_other by exact Hk'. apply lookup_insert_eq.
    + now apply IH.
Qed.

(** An item whose score equals the tracked value changes nothing. *)
Lemma analyze_feature_same (self : FeatureEngineer.t) (k : string) (v : Q)
    (g : FeatureEngineer.Globals) (threshold : Q) :
  FeatureEngineer.fc_num (FeatureEngineer._feature_config self)
                         "importance_change_threshold" 0.2 = Ok threshold ->
  (0 <= threshold)%Q ->
  FeatureEngineer.FEATURE_IMPORTANCE g !! k = Some v ->
  FeatureEngineer.analyze_feature self (k, v) g = (Ok tt, g).
Proof.
  intros Hth Hpos Hk. unfold FeatureEngineer.analyze_feature. cbn [fst snd].
  rewrite Hk, Hth.
  assert (Hz : Qle_bool (Qabs (v - v)) threshold = true).
  { apply Qle_bool_iff.
    assert (Hvv : (v - v == 0)%Q) by (unfold Qminus; apply Qplus_opp_r).
    rewrite Hvv. exact Hpos. }
  now rewrite Hz.
Qed.

(** The trend analysis compares every new score with itself. *)
Lemma analyze_after_merge_is_silent (self : FeatureEngineer.t)
    (scores : list (string * Q)) (g : FeatureEngineer.Globals) (threshold : Q) :
  FeatureEngineer.fc_num (FeatureEngineer._feature_config self)
                         "importance_change_threshold" 0.2 = Ok threshold ->
  (0 <= threshold)%Q ->
  (forall k v, (k, v) ∈ scores -> FeatureEngineer.FEATURE_IMPORTANCE g !! k = Some v) ->
  FeatureEngineer._analyze_importance_trends self scores g = (Ok tt, g).
Proof.
  intros Hth Hpos Hl. unfold FeatureEngineer._analyze_importance_trends.
  assert (Hloop : exists r,
            sm_for scores (FeatureEngineer.analyze_feature self) g = (Ok r, g)).
  { induction scores as [|[k v] l IH]; cbn [sm_for].
    - eexists; reflexivity.
    - unfold sm_bind at 1.
      rewrite (analyze_feature_same self k v g threshold Hth Hpos)
        by (apply Hl, elem_of_cons; now left).
      destruct IH as [r Hr]; [intros k0 v0 Hin; apply Hl, elem_of_cons; now right|].
      unfold sm_bind. rewrite Hr. eexists; reflexivity. }
  destruct Hloop as [r Hr]. unfold sm_bind. now rewrite Hr.
Qed.

(** With distinct features, valid scores and a non-negative threshold the
    update succeeds, merges the scores and triggers no alert, whatever was
    tracked before. *)
Lemma update_feature_importance_is_silent (self : FeatureEngineer.t)
    (scores : list (string * Q)) (g : FeatureEngineer.Globals) (threshold : Q) :
  FeatureEngineer.fc_num (FeatureEngineer._feature_config self)
                         "importance_change_threshold" 0.2 = Ok threshold ->
  (0 <= threshold)%Q ->
  NoDup (map fst scores) ->
  forallb (fun fs => FeatureEngineer.in_unit_interval (snd fs)) scores = true ->
  FeatureEngineer.update_feature_importance self scores g
  = (Ok true,
     FeatureEngineer.mkGlobals
       (FeatureEngineer.PREPROCESSOR_CACHE g)
       (fold_left (fun m fs => <[fst fs := snd fs]> m) scores
                  (FeatureEngineer.FEATURE_IMPORTANCE g))
       (FeatureEngineer.alerts g)).
Proof.
  intros Hth Hpos Hnd Hall. unfold FeatureEngineer.update_feature_importance.
  rewrite Hall. simpl.
  rewrite (analyze_after_merge_is_silent self scores _ threshold Hth Hpos); [reflexivity|].
  intros k v Hin. simpl. now apply merge_scores_lookup.
Qed.

(** A score outside [0, 1] is refused and nothing is merged. *)
Lemma update_feature_importance_invalid (self : FeatureEngineer.t)
    (scores : list (string * Q)) (g : FeatureEngineer.Globals) :
  forallb (fun fs => FeatureEngineer.in_unit_interval (snd fs)) scores = false ->
  FeatureEngineer.update_feature_importance self scores g
  = (Raise (ValueError "Importance scores must be between 0 and 1"), g).
Proof.
  intros H. unfold FeatureEngineer.update_feature_importance. now rewrite H.
Qed.

(** C8.  A feature tracked at 0.1 is updated to 0.9 under the default
    threshold 0.2: the update succeeds and the tracker holds 0.9, the
    change from the previously tracked value is 0.8, and no alert has
    been triggered. *)
Theorem importance_jump_triggers_no_alert :
  let out := FeatureEngineer.update_feature_importance
               Fixtures.auto_engineer [("age", 0.9%Q)] Fixtures.tracker_age_01 in
  FeatureEngineer.FEATURE_IMPORTANCE Fixtures.tracker_age_01 !! "age" = Some 0.1%Q /\
  FeatureEngineer.fc_num (FeatureEngineer._feature_config Fixtures.auto_engineer)
                         "importance_change_threshold" 0.2 = Ok 0.2%Q /\
  (0.2 < Qabs (0.9 - 0.1))%Q /\
  fst out = Ok true /\
  FeatureEngineer.FEATURE_IMPORTANCE (snd out) !! "age" = Some 0.9%Q /\
  FeatureEngineer.alerts (snd out) = [].
Proof. cbv zeta. split_and_compute. Qed.

(** ** Transformer state across calls *)

(** Whatever encoder was stored for the column, after the call it is one
    fitted on this call's column alone. *)
Lemma encode_column_refits (column : string) (cells : list PyVal)
    (self self' : FeatureEngineer.t) (codes : list FeatureEngineer.Cell) :
  FeatureEngineer.encode_column column cells self = (Ok codes, self') ->
  exists column_data,
    FeatureEngineer._encoders self' !! column
      = Some (FeatureEngineer.mkEncoder (Some (sorted_unique column_data))) /\
    codes = map (fun v => FeatureEngineer.Encoded
                            (default 0%nat (index_of v (sorted_unique column_data))))
                column_data /\
    length column_data = length cells.
Proof.
  unfold FeatureEngineer.encode_column.
  destruct (result_for cells FeatureEngineer.category_cell) as [values|e] eqn:Hv;
    [|intros H; discriminate H].
  destruct (FeatureEngineer.fc_num _ _ _) as [min_freq|e]; [|intros H; discriminate H].
  simpl. intros [= <- <-]. eexists. split; [|split; [reflexivity|]].
  - simpl. apply lookup_insert_eq.
  - rewrite length_map. clear -Hv. revert values Hv.
    induction cells as [|c cells IH]; intros values; simpl.
    + now intros [= <-].
    + destruct (FeatureEngineer.category_cell c); [|intros H; discriminate H].
      destruct (result_for cells _); [|intros H; discriminate H].
      intros [= <-]. simpl. f_equal. now apply IH.
Qed.

(** C5.  Two calls on one instance.  The category [toyota] is coded 1 in
    the first batch (next to [audi]) and 0 in the second, and the stored
    encoder's classes are replaced; the vectorizer stored for [occupation]
    after the second call knows the second batch's vocabulary only; the
    numerical cell for the value 30 is scaled by a scaler fit on the
    first batch, then by one fit on the second, and [_scalers] stays empty. *)
Theorem transformers_are_refit_on_every_call :
  let fe0 := Fixtures.auto_engineer in
  let c1 := FeatureEngineer.preprocess_categorical Fixtures.makes_batch_1 fe0 in
  let c2 := FeatureEngineer.preprocess_categorical Fixtures.makes_batch_2 (snd c1) in
  let t1 := FeatureEngineer.preprocess_text Fixtures.jobs_batch_1 fe0 in
  let t2 := FeatureEngineer.preprocess_text Fixtures.jobs_batch_2 (snd t1) in
  let n1 := FeatureEngineer.preprocess_numerical Fixtures.ages_batch_1 fe0 in
  let n2 := FeatureEngineer.preprocess_numerical Fixtures.ages_batch_2 (snd n1) in
  fst c1 = Ok [(repeat (FeatureEngineer.Encoded 1) 10
                ++ repeat (FeatureEngineer.Encoded 0) 10)%list] /\
  fst c2 = Ok [repeat (FeatureEngineer.Encoded 0) 10] /\
  FeatureEngineer._encoders (snd c1) !! "vehicle_make"
    = Some (FeatureEngineer.mkEncoder (Some ["audi"; "toyota"])) /\
  FeatureEngineer._encoders (snd c2) !! "vehicle_make"
    = Some (FeatureEngineer.mkEncoder (Some ["toyota"])) /\
  FeatureEngineer._vectorizers (snd t1) !! "occupation"
    = Some (FeatureEngineer.TfidfVectorizer 100 (Some ["engineer"; "teacher"])) /\
  FeatureEngineer._vectorizers (snd t2) !! "occupation"
    = Some (FeatureEngineer.TfidfVectorizer 100 (Some ["engineer"])) /\
  fst n1 = Ok [[FeatureEngineer.Scaled FeatureEngineer.StandardScaler
                  [Some 30%Q; Some 50%Q] (Some 30%Q);
                FeatureEngineer.Scaled FeatureEngineer.StandardScaler
                  [Some 30%Q; Some 50%Q] (Some 50%Q)]] /\
  fst n2 = Ok [[FeatureEngineer.Scaled FeatureEngineer.StandardScaler
                  [Some 30%Q] (Some 30%Q)]] /\
  FeatureEngineer._scalers (snd n2) = ∅.
Proof. cbv zeta. split_and_compute. Qed.

(** ** Width of the feature matrix *)

Lemma sm_for_ok {S X A} (l : list X) (body : X -> SM S A) (s s' : S) (rs : list A) :
  sm_for l body s = (Ok rs, s') ->
  Forall2 (fun x r => exists s1 s2, body x s1 = (Ok r, s2)) l rs.
Proof.
  revert s s' rs. induction l as [|x l IH]; intros s s' rs; cbn [sm_for]; unfold sm_ret.
  - intros [= <- _]. constructor.
  - unfold sm_bind at 1. destruct (body x s) as [[r|e] s1] eqn:Hb; [|intros H; discriminate H].
    unfold sm_bind. destruct (sm_for l body s1) as [[rs'|e] s2] eqn:Hl;
      [|intros H; discriminate H].
    intros [= <- _]. constructor; [eauto | eapply IH; eauto].
Qed.

Lemma result_for_ok {X A} (l : list X) (f : X -> Result A) (rs : list A) :
  result_for l f = Ok rs -> Forall2 (fun x r => f x = Ok r) l rs.
Proof.
  revert rs. induction l as [|x l IH]; intros rs; simpl.
  - intros [= <-]. constructor.
  - destruct (f x) as [a|e] eqn:Hx; [|intros H; discriminate H].
    destruct (result_for l f); [|intros H; discriminate H].
    intros [= <-]. constructor; [exact Hx | now apply IH].
Qed.

Lemma result_for_length {X A} (l : list X) (f : X -> Result A) (rs : list A) :
  result_for l f = Ok rs -> length rs = length l.
Proof. intros H. symmetry. eapply Forall2_length, result_for_ok, H. Qed.

Lemma Forall2_chain {A B C} (P : A -> B -> Prop) (Q : B -> C -> Prop)
    (R : A -> C -> Prop) (l1 : list A) (l2 : list B) (l3 : list C) :
  (forall a b c, P a b -> Q b c -> R a c) ->
  Forall2 P l1 l2 -> Forall2 Q l2 l3 -> Forall2 R l1 l3.
Proof.
  intros HR H12. revert l3. induction H12 as [|a b l1 l2 Hab _ IH]; intros l3 H23.
  - inversion H23. constructor.
  - inversion H23 as [|? c ? l3' Hbc Hrest]; subst. constructor; [eauto | now apply IH].
Qed.

Lemma sorted_unique_length (l : list string) :
  length (sorted_unique l) = length (remove_dups l).
Proof. unfold sorted_unique. apply Permutation_length, merge_sort_Permutation. Qed.

Lemma limit_features_length (k : nat) (tokens : list string) :
  length (FeatureEngineer.limit_features k tokens)
  = Nat.min k (length (remove_dups tokens)).
Proof.
  unfold FeatureEngineer.limit_features.
  destruct (length (sorted_unique tokens) <=? k)%nat eqn:E.
  - apply Nat.leb_le in E. rewrite sorted_unique_length in *. lia.
  - apply Nat.leb_gt in E.
    rewrite (Permutation_length (merge_sort_Permutation _ _)), length_take.
    rewrite (Permutation_length (merge_sort_Permutation _ _)).
    now rewrite sorted_unique_length.
Qed.

(** A column obtained by mapping text cells over the documents. *)
Lemma text_column_shape (f : string -> FeatureEngineer.Cell) (docs : list string) :
  (forall d, kind_of (f d) = Text) ->
  length (map f docs) = length docs /\ Forall (fun c => kind_of c = Text) (map f docs).
Proof.
  intros Hf. split; [apply List.length_map|].
  induction docs; simpl; constructor; auto.
Qed.

(** The hashing vectorizer yields [n_features] columns; the TF-IDF one a
    column per kept term, of which there is at least one.  Every column
    has one text cell per document. *)
Lemma vectorizer_block_shape (v v' : FeatureEngineer.Vectorizer) (docs : list string)
    (block : FeatureEngineer.Matrix) :
  FeatureEngineer.vectorizer_fit_transform v docs = Ok (v', block) ->
  match v with
  | FeatureEngineer.HashingVectorizer n => length block = n
  | FeatureEngineer.TfidfVectorizer k _ =>
      length block = Nat.min k (length (remove_dups (concat (map sk_tokenize docs))))
      /\ (1 <= length block)%nat
  end /\
  Forall (fun column => length column = length docs /\
                        Forall (fun c => kind_of c = Text) column) block.
Proof.
  assert (Hcols : forall (f : string -> string -> FeatureEngineer.Cell) (keys : list string),
            (forall key d, kind_of (f key d) = Text) ->
            Forall (fun column => length column = length docs /\
                                  Forall (fun c => kind_of c = Text) column)
                   (map (fun key => map (f key) docs) keys)).
  { intros f keys Hf. induction keys as [|key keys IH]; simpl; constructor; [|exact IH].
    now apply text_column_shape. }
  destruct v as [n|k voc]; cbn [FeatureEngineer.vectorizer_fit_transform].
  - intros [= _ <-]. split; [now rewrite List.length_map, length_seq|].
    clear Hcols. induction (seq 0 n) as [|b bs IH]; simpl; constructor; [|exact IH].
    now apply text_column_shape.
  - pose proof (limit_features_length k (concat (map sk_tokenize docs))) as Hlen.
    destruct (FeatureEngineer.limit_features k _) as [|t ts] eqn:Hl;
      [intros H; discriminate H|].
    intros [= _ <-]. split.
    + cbn [map length]. rewrite List.length_map.
      cbn [length] in Hlen. split; [exact Hlen | lia].
    + exact (Hcols (FeatureEngineer.TfidfWeight (t :: ts)) (t :: ts) (fun _ _ => eq_refl)).
Qed.

Lemma text_column_width_bounds (cleaned_text : list string) :
  (text_column_width cleaned_text <= 100)%nat.
Proof. unfold text_column_width. destruct (_ <? _)%Z; lia. Qed.

Lemma vectorize_column_shape (column : string) (cells : list PyVal)
    (self self' : FeatureEngineer.t) (block : FeatureEngineer.Matrix) :
  FeatureEngineer.vectorize_column column cells self = (Ok block, self') ->
  exists cleaned_text,
    FeatureEngineer._clean_text cells = Ok cleaned_text /\
    length block = text_column_width cleaned_text /\
    (1 <= length block)%nat /\
    Forall (fun col => length col = length cells /\
                       Forall (fun c => kind_of c = Text) col) block.
Proof.
  unfold FeatureEngineer.vectorize_column.
  destruct (FeatureEngineer._clean_text cells) as [cleaned|e] eqn:Hc;
    [|intros H; discriminate H].
  destruct (FeatureEngineer.vectorizer_fit_transform _ cleaned) as [[fitted b]|e] eqn:Hv;
    [|intros H; discriminate H].
  intros [= <- _]. exists cleaned. split; [reflexivity|].
  apply result_for_length in Hc.
  apply vectorizer_block_shape in Hv as [Hw Hshape]. rewrite Hc in Hshape.
  unfold text_column_width. destruct (10000 <? _)%Z.
  - split; [exact Hw|]. split; [lia | exact Hshape].
  - destruct Hw as [Hw Hpos]. split; [exact Hw|]. split; [exact Hpos | exact Hshape].
Qed.

Lemma select_columns_spec (names : list string) (data selected : DataFrame) :
  FeatureEngineer.select_columns names data = Ok selected ->
  Forall2 (fun n c => fst c = n /\ assoc_get n data = Some (snd c)) names selected.
Proof.
  revert selected. induction names as [|n names IH]; intros selected; simpl.
  - intros [= <-]. constructor.
  - destruct (assoc_get n data) as [cells|] eqn:Hn; [|intros H; discriminate H].
    destruct (FeatureEngineer.select_columns names data) as [rest|e];
      [|intros H; discriminate H].
    simpl. intros [= <-]. constructor; [now split | now apply IH].
Qed.

Lemma fillna_mean_length (col : list (option Q)) :
  length (FeatureEngineer.fillna_mean col) = length col.
Proof. apply List.length_map. Qed.

(** One scaled column per numerical column, one cell per row. *)
Lemma preprocess_numerical_columns (data : DataFrame) (self self' : FeatureEngineer.t)
    (block : FeatureEngineer.Matrix) :
  FeatureEngineer.preprocess_numerical data self = (Ok block, self') ->
  Forall2 (fun c column => length column = length (snd c) /\
                           Forall (fun x => kind_of x = Numerical) column) data block.
Proof.
  unfold FeatureEngineer.preprocess_numerical.
  destruct (result_for data _) as [cols|e] eqn:Hc; [|intros H; discriminate H].
  destruct (FeatureEngineer._validate_numerical_ranges _ cols); [|intros H; discriminate H].
  destruct (FeatureEngineer.fc_scaling _) as [method|e]; [|intros H; discriminate H].
  assert (Hall : Forall2 (fun c column => length column = length (snd c) /\
                             Forall (fun x => kind_of x = Numerical) column) data
            (map (fun c => map (FeatureEngineer.Scaled method (snd c)) (snd c))
                 (map (fun c => (fst c, FeatureEngineer.fillna_mean (snd c))) cols))).
  { apply result_for_ok in Hc. clear -Hc.
    induction Hc as [|c col data cols Hcol _ IH]; simpl; constructor; [|exact IH].
    unfold mbind, Result_bind in Hcol.
    destruct (result_for (snd c) FeatureEngineer.num_cell) as [cells|e] eqn:Hcells;
      [|discriminate Hcol].
    injection Hcol as <-. simpl. apply result_for_length in Hcells.
    split; [now rewrite List.length_map, fillna_mean_length|].
    apply Forall_forall. intros x Hin. apply list_elem_of_In, in_map_iff in Hin.
    now destruct Hin as (y & <- & _). }
  destruct cols as [|c cols]; [intros H; discriminate H|].
  intros [= <- _]. exact Hall.
Qed.

Lemma encode_column_shape (column : string) (cells : list PyVal)
    (self self' : FeatureEngineer.t) (codes : list FeatureEngineer.Cell) :
  FeatureEngineer.encode_column column cells self = (Ok codes, self') ->
  length codes = length cells /\ Forall (fun x => kind_of x = Categorical) codes.
Proof.
  intros Henc. apply encode_column_refits in Henc as (column_data & _ & -> & Hlen).
  split; [now rewrite List.length_map|].
  apply Forall_forall. intros x Hin. apply list_elem_of_In, in_map_iff in Hin.
  now destruct Hin as (y & <- & _).
Qed.

(** One column of codes per categorical column, one cell per row. *)
Lemma preprocess_categorical_columns (data : DataFrame) (self self' : FeatureEngineer.t)
    (block : FeatureEngineer.Matrix) :
  FeatureEngineer.preprocess_categorical data self = (Ok block, self') ->
  Forall2 (fun c column => length column = length (snd c) /\
                           Forall (fun x => kind_of x = Categorical) column) data block.
Proof.
  unfold FeatureEngineer.preprocess_categorical, sm_bind.
  destruct (sm_for data _ self) as [[rs|e] s1] eqn:Hf; [|intros H; discriminate H].
  apply sm_for_ok in Hf.
  assert (Hall : Forall2 (fun c column => length column = length (snd c) /\
                             Forall (fun x => kind_of x = Categorical) column) data rs).
  { eapply Forall2_impl; [exact Hf|]. intros c codes (s2 & s3 & Henc).
    eapply encode_column_shape, Henc. }
  destruct rs; cbn; [intros H; discriminate H|].
  intros [= <- _]. exact Hall.
Qed.

(** One block per text column, concatenated in order. *)
Lemma preprocess_text_blocks (data : DataFrame) (self self' : FeatureEngineer.t)
    (block : FeatureEngineer.Matrix) :
  FeatureEngineer.preprocess_text data self = (Ok block, self') ->
  exists blocks,
    block = concat blocks /\
    Forall2 (fun c b => exists cleaned_text,
               FeatureEngineer._clean_text (snd c) = Ok cleaned_text /\
               length b = text_column_width cleaned_text /\
               (1 <= length b)%nat /\
               Forall (fun col => length col = length (snd c) /\
                                  Forall (fun x => kind_of x = Text) col) b) data blocks.
Proof.
  unfold FeatureEngineer.preprocess_text, sm_bind.
  destruct (sm_for data _ self) as [[rs|e] s1] eqn:Hf; [|intros H; discriminate H].
  apply sm_for_ok in Hf.
  destruct rs as [|m rs]; cbn; [intros H; discriminate H|].
  intros [= <- _]. exists (m :: rs). split; [reflexivity|].
  eapply Forall2_impl; [exact Hf|]. intros c b (s2 & s3 & Hv).
  eapply vectorize_column_shape, Hv.
Qed.

Lemma text_blocks_sum_bounds (data : DataFrame) (names : list string)
    (blocks : list FeatureEngineer.Matrix) :
  Forall2 (text_block_of data) names blocks ->
  (length names <= sum_list (map length blocks) <= 100 * length names)%nat.
Proof.
  induction 1 as [|name b names blocks (cells & cleaned & _ & _ & Hw & Hpos & _) _ IH];
    simpl.
  - lia.
  - pose proof (text_column_width_bounds cleaned). lia.
Qed.

Lemma length_concat_sum {A} (ls : list (list A)) :
  length (concat ls) = sum_list (map length ls).
Proof. induction ls as [|l ls IH]; simpl; [reflexivity|]. rewrite length_app. lia. Qed.

Lemma process_groups_layout (fc : gmap string CfgVal) (data nd cd xd : DataFrame)
    (num cat txt : list string) (self self' : FeatureEngineer.t)
    (blocks : list FeatureEngineer.Matrix) :
  FeatureEngineer.fc_list fc "numerical_features" = Ok num ->
  FeatureEngineer.fc_list fc "categorical_features" = Ok cat ->
  FeatureEngineer.fc_list fc "text_features" = Ok txt ->
  FeatureEngineer.select_columns num data = Ok nd ->
  FeatureEngineer.select_columns cat data = Ok cd ->
  FeatureEngineer.select_columns txt data = Ok xd ->
  FeatureEngineer.process_groups nd cd xd self = (Ok blocks, self') ->
  laid_out fc data (FeatureEngineer.hstack blocks).
Proof.
  intros Hn Hc Hx Hnd Hcd Hxd. unfold FeatureEngineer.process_groups, sm_bind, sm_ret.
  destruct (FeatureEngineer.preprocess_numerical nd self) as [[nb|e] s1] eqn:H1;
    [|intros H; discriminate H].
  destruct (FeatureEngineer.preprocess_categorical cd s1) as [[cb|e] s2] eqn:H2;
    [|intros H; discriminate H].
  destruct (FeatureEngineer.preprocess_text xd s2) as [[xb|e] s3] eqn:H3;
    [|intros H; discriminate H].
  intros [= <- _].
  apply preprocess_numerical_columns in H1. apply preprocess_categorical_columns in H2.
  apply preprocess_text_blocks in H3 as (tbs & -> & H3).
  apply select_columns_spec in Hnd, Hcd, Hxd.
  assert (Hnum : Forall2 (column_of Numerical data) num nb).
  { eapply Forall2_chain; [|exact Hnd|exact H1].
    intros name c column [_ Hget] [Hlen Hkind]. now exists (snd c). }
  assert (Hcat : Forall2 (column_of Categorical data) cat cb).
  { eapply Forall2_chain; [|exact Hcd|exact H2].
    intros name c column [_ Hget] [Hlen Hkind]. now exists (snd c). }
  assert (Htxt : Forall2 (text_block_of data) txt tbs).
  { eapply Forall2_chain; [|exact Hxd|exact H3].
    intros name c b [_ Hget] (cleaned & Hcl & Hw & Hpos & Hshape).
    now exists (snd c), cleaned. }
  pose proof (text_blocks_sum_bounds data txt tbs Htxt) as Hb.
  pose proof (Forall2_length _ _ _ Hnum) as Ln.
  pose proof (Forall2_length _ _ _ Hcat) as Lc.
  assert (Hwidth : FeatureEngineer.width (FeatureEngineer.hstack [nb; cb; concat tbs])
                   = (length num + length cat + sum_list (map length tbs))%nat).
  { unfold FeatureEngineer.width, FeatureEngineer.hstack. simpl.
    rewrite !length_app, length_concat_sum. simpl. lia. }
  exists num, cat, txt, nb, cb, tbs.
  split; [exact Hn|]. split; [exact Hc|]. split; [exact Hx|].
  split; [unfold FeatureEngineer.hstack; simpl; now rewrite app_nil_r|].
  split; [exact Hnum|]. split; [exact Hcat|]. split; [exact Htxt|].
  split; [exact Hwidth|].
  match goal with
  | |- (_ <= ?w <= _)%nat =>
      replace w with (length num + length cat + sum_list (map length tbs))%nat
        by (symmetry; exact Hwidth)
  end.
  lia.
Qed.

(** The layout of a computed matrix.  A feature matrix that
    [transform_features] computes (rather than serves from the cache)
    consists of one numerical column per numerical feature, then one
    categorical column per categorical feature, then one block per text
    feature, each group in the order of the configuration's feature list
    and every column holding one cell per row.  A text block is 100 wide
    on the hashing path and, for ASCII text, as wide as the number of
    distinct tokens of the column, capped at 100 and at least 1, on the
    TF-IDF path. *)
Lemma transform_features_layout {FE : FeatureEngineer.External} (data : DataFrame)
    (return_importance : bool) (self self' : FeatureEngineer.t)
    (g g' : FeatureEngineer.Globals) (features : FeatureEngineer.Matrix)
    (importance : list (string * Q)) :
  FeatureEngineer.transform_features data return_importance (self, g)
    = (Ok (features, importance), (self', g')) ->
  FeatureEngineer._use_cache self = false
    \/ assoc_get data (FeatureEngineer.PREPROCESSOR_CACHE g) = None ->
  laid_out (FeatureEngineer._feature_config self) data features.
Proof.
  intros Hrun Hmiss. unfold FeatureEngineer.transform_features in Hrun.
  destruct (FeatureEngineer._validate_input_data self data); [|discriminate Hrun].
  assert (Hc : (if FeatureEngineer._use_cache self
                then assoc_get data (FeatureEngineer.PREPROCESSOR_CACHE g)
                else None) = None).
  { destruct Hmiss as [-> | ->]; [reflexivity | now destruct (FeatureEngineer._use_cache self)]. }
  rewrite Hc in Hrun. clear Hc.
  unfold mbind, Result_bind in Hrun.
  destruct (FeatureEngineer.fc_list _ "numerical_features") as [num|e] eqn:Hn;
    [|discriminate Hrun].
  destruct (FeatureEngineer.select_columns num data) as [nd|e] eqn:Hnd; [|discriminate Hrun].
  destruct (FeatureEngineer.fc_list _ "categorical_features") as [cat|e] eqn:Hcat;
    [|discriminate Hrun].
  destruct (FeatureEngineer.select_columns cat data) as [cd|e] eqn:Hcd; [|discriminate Hrun].
  destruct (FeatureEngineer.fc_list _ "text_features") as [txt|e] eqn:Hx;
    [|discriminate Hrun].
  destruct (FeatureEngineer.select_columns txt data) as [xd|e] eqn:Hxd; [|discriminate Hrun].
  destruct (FeatureEngineer.process_groups nd cd xd self) as [[blocks|e] s1] eqn:Hp;
    [|discriminate Hrun].
  destruct (FeatureEngineer._update_feature_stats _ data); [|discriminate Hrun].
  injection Hrun as <- _ _ _.
  eapply process_groups_layout; eauto.
Qed.

(** C4.  The width of the feature matrix follows the text of the lead.
    The auto configuration lists four numerical, four categorical and two
    text features, so the claimed width is 4 + 4 + 100 * 2 = 208.  Both
    leads below hold every required column and are on the TF-IDF path.
    The text columns of the test suite's lead hold one token each and
    give one column each; a two-word occupation gives two.  Whatever
    [_update_feature_stats] does, a matrix returned for the first lead is
    10 wide and one returned for the second is 11 wide; with the method
    absent, as in the sources, no matrix is returned at all. *)
Theorem feature_width_follows_text {FE : FeatureEngineer.External}
    (return_importance : bool) (g : FeatureEngineer.Globals) :
  let fc := FeatureEngineer._feature_config Fixtures.auto_engineer in
  let transform lead :=
    fst (FeatureEngineer.transform_features (frame_of_lead lead) return_importance
           (Fixtures.auto_engineer, g)) in
  (exists num cat txt,
     FeatureEngineer.fc_list fc "numerical_features" = Ok num /\
     FeatureEngineer.fc_list fc "categorical_features" = Ok cat /\
     FeatureEngineer.fc_list fc "text_features" = Ok txt /\
     (length num + length cat + 100 * length txt = 208)%nat) /\
  FeatureEngineer._validate_input_data Fixtures.auto_engineer
    (frame_of_lead Fixtures.auto_lead) = Ok tt /\
  FeatureEngineer._validate_input_data Fixtures.auto_engineer
    (frame_of_lead Traces.auto_lead_two_words) = Ok tt /\
  FeatureEngineer.vocabulary_size ["engineer"] = 1%nat /\
  FeatureEngineer.vocabulary_size ["software engineer"] = 2%nat /\
  fst (FeatureEngineer.preprocess_text
         [("occupation", [VStr "engineer"]); ("location", [VStr "California"])]
         Fixtures.auto_engineer)
  = Ok [[FeatureEngineer.TfidfWeight ["engineer"] "engineer" "engineer"];
        [FeatureEngineer.TfidfWeight ["california"] "california" "california"]] /\
  fst (FeatureEngineer.preprocess_text
         [("occupation", [VStr "software engineer"]); ("location", [VStr "California"])]
         Fixtures.auto_engineer)
  = Ok [[FeatureEngineer.TfidfWeight ["engineer"; "software"] "engineer"
           "software engineer"];
        [FeatureEngineer.TfidfWeight ["engineer"; "software"] "software"
           "software engineer"];
        [FeatureEngineer.TfidfWeight ["california"] "california" "california"]] /\
  (forall features importance,
     transform Fixtures.auto_lead = Ok (features, importance) ->
     features = Fixtures.auto_lead_features /\ FeatureEngineer.width features = 10%nat) /\
  (forall features importance,
     transform Traces.auto_lead_two_words = Ok (features, importance) ->
     FeatureEngineer.width features = 11%nat) /\
  fst (FeatureEngineer.transform_features (FE:=Fixtures.stats_absent)
         (frame_of_lead Fixtures.auto_lead) return_importance (Fixtures.auto_engineer, g))
  = Raise (AttributeError
             "'FeatureEngineer' object has no attribute '_update_feature_stats'").
Proof.
  cbv zeta.
  split; [do 3 eexists; repeat (split; [vm_compute; reflexivity|]); reflexivity|].
  do 6 (split; [vm_compute; reflexivity|]).
  split; [|split].
  - intros features importance.
    unfold FeatureEngineer.transform_features. vm_compute.
    match goal with
    | |- context [match ?x with Ok _ => _ | Raise _ => _ end] => destruct x
    end; [|intros H; discriminate H].
    destruct return_importance; intros [= <- _]; split; reflexivity.
  - intros features importance.
    unfold FeatureEngineer.transform_features. vm_compute.
    match goal with
    | |- context [match ?x with Ok _ => _ | Raise _ => _ end] => destruct x
    end; [|intros H; discriminate H].
    destruct return_importance; intros [= <- _]; reflexivity.
  - destruct return_importance; vm_compute; reflexivity.
Qed.

(** ** Circuit breaker *)

Section Breaker.

Context {CE : ConfigExternal} {FE : FeatureEngineer.External}
        {LE : LeadScorer.External} {SE : ScoringService.External}.

Implicit Types (self : ScoringService.t) (w : ScoringService.World)
               (s : ScoringService.t * ScoringService.World).

Lemma record_error_count vertical self :
  ScoringService.error_count vertical (ScoringService._record_error vertical self)
  = S (ScoringService.error_count vertical self).
Proof.
  unfold ScoringService.error_count, ScoringService._record_error. simpl.
  now rewrite lookup_insert_eq.
Qed.

Lemma record_error_breaker vertical self :
  ScoringService.circuit_open vertical (ScoringService._record_error vertical self)
  = (5 <=? S (ScoringService.error_count vertical self))%nat
    || ScoringService.circuit_open vertical self.
Proof.
  unfold ScoringService.circuit_open, ScoringService.error_count,
    ScoringService._record_error. cbn [ScoringService._circuit_open].
  destruct (5 <=? S (default 0%nat (ScoringService._error_counts self !! vertical)))%nat;
    simpl; [now rewrite lookup_insert_eq | reflexivity].
Qed.

Lemma record_success_state vertical self :
  ScoringService.error_count vertical (ScoringService._record_success vertical self) = 0%nat
  /\ ScoringService.circuit_open vertical (ScoringService._record_success vertical self)
     = false.
Proof.
  unfold ScoringService.error_count, ScoringService.circuit_open,
    ScoringService._record_success. simpl.
  now rewrite !lookup_insert_eq.
Qed.

(** A request with an empty vertical or an empty record is rejected
    before anything else is looked at, and recorded as an error. *)
Lemma score_lead_invalid vertical record self w :
  vertical = "" \/ record = [] ->
  ScoringService.score_lead vertical record (self, w)
  = (Raise (ValueError "Lead scoring failed: Missing required parameters"),
     (ScoringService._record_error vertical self,
      ScoringService.mkWorld (ScoringService.env w) (ScoringService.scorer_globals w)
        (ScoringService.feature_globals w)
        (ScoringService.SCORING_ERRORS w ++ [(vertical, "ValueError")])
        (ScoringService.MODEL_VERSIONS w))).
Proof.
  intros Hbad. unfold ScoringService.score_lead, ScoringService.score_lead_body.
  destruct Hbad as [-> | ->].
  - reflexivity.
  - destruct (bool_decide (vertical = "")); reflexivity.
Qed.

(** With the breaker open a valid request is answered with the fallback
    and nothing changes: the registry, the scorers and every global are
    those of before, for whatever the model would have predicted. *)
Lemma score_lead_open vertical record self w :
  vertical <> "" -> record <> [] ->
  ScoringService.circuit_open vertical self = true ->
  ScoringService.score_lead vertical record (self, w)
  = (Ok (ScoringService._get_fallback_score vertical self), (self, w)).
Proof.
  intros Hv Hr Hopen. unfold ScoringService.score_lead, ScoringService.score_lead_body.
  rewrite !bool_decide_eq_false_2 by assumption. simpl.
  now rewrite Hopen.
Qed.

(** Every failing call ends in [_record_error], applied to the state in
    which the exception was raised. *)
Lemma score_lead_failure vertical record s s' e :
  ScoringService.score_lead vertical record s = (Raise e, s') ->
  exists e0 sb,
    ScoringService.score_lead_body vertical record s = (Raise e0, sb) /\
    fst s' = ScoringService._record_error vertical (fst sb) /\
    ScoringService.error_count vertical (fst s')
      = S (ScoringService.error_count vertical (fst sb)).
Proof.
  unfold ScoringService.score_lead.
  destruct (ScoringService.score_lead_body vertical record s) as [[r|e0] [sb wb]] eqn:Hb;
    [intros Hx; discriminate Hx|].
  intros [= _ <-]. exists e0, (sb, wb). simpl.
  split; [reflexivity|]. split; [reflexivity|]. apply record_error_count.
Qed.

(** A call that returns a real score ends with the counter at 0 and the
    breaker closed. *)
Lemma score_lead_success vertical record s s' r :
  ScoringService.score_lead vertical record s = (Ok r, s') ->
  ScoringService.fallback r = false ->
  ScoringService.error_count vertical (fst s') = 0%nat /\
  ScoringService.circuit_open vertical (fst s') = false.
Proof.
  unfold ScoringService.score_lead. destruct s as [self w].
  destruct (ScoringService.score_lead_body vertical record (self, w))
    as [[r0|e0] [sb wb]] eqn:Hb; [|intros Hx; discriminate Hx].
  intros [= <- <-]. revert Hb. unfold ScoringService.score_lead_body.
  destruct (bool_decide (vertical = "") || bool_decide (record = []));
    [intros Hx; discriminate Hx|].
  destruct (ScoringService.circuit_open vertical self).
  { intros [= <- _ _] Hf. discriminate Hf. }
  destruct (ScoringService._get_scorer vertical (self, w)) as [[scorer|e] [self1 w1]];
    [|intros Hx; discriminate Hx].
  destruct (LeadScorer.score_lead _ _ _) as [[sr|e] [[scorer' g'] fg']];
    [|intros Hx; discriminate Hx].
  destruct (ScoringService.get_model_version scorer'); [|intros Hx; discriminate Hx].
  intros [= _ <- _] _. simpl. apply record_success_state.
Qed.

(** Once open, the breaker of a vertical is not closed by any call for it. *)
Lemma open_breaker_stays_open vertical record s :
  ScoringService.circuit_open vertical (fst s) = true ->
  ScoringService.circuit_open vertical
    (fst (snd (ScoringService.score_lead vertical record s))) = true.
Proof.
  destruct s as [self w]. simpl. intros Hopen.
  destruct (decide (vertical = "" \/ record = [])) as [Hbad|Hok].
  - rewrite score_lead_invalid by exact Hbad. simpl.
    rewrite record_error_breaker, Hopen. apply orb_true_r.
  - assert (Hv : vertical <> "") by (intros ->; apply Hok; auto).
    assert (Hr : record <> []) by (intros ->; apply Hok; auto).
    rewrite (score_lead_open _ _ _ _ Hv Hr Hopen). exact Hopen.
Qed.

Lemma counted_failures_count vertical n s s' :
  counted_failures vertical n s s' ->
  ScoringService.error_count vertical (fst s')
  = (n + ScoringService.error_count vertical (fst s))%nat.
Proof. induction 1 as [|n s s1 s2 record e Hcall Hcount _ IH]; [reflexivity | lia]. Qed.

(** The breaker is open as soon as a failure has brought the counter to
    five or more. *)
Lemma counted_failures_breaker vertical n s s' :
  counted_failures vertical (S n) s s' ->
  (5 <= S n + ScoringService.error_count vertical (fst s))%nat ->
  ScoringService.circuit_open vertical (fst s') = true.
Proof.
  revert s. induction n as [|n IH]; intros s Hcf Hge.
  - inversion Hcf as [|? ? s1 ? record e Hcall Hcount Hrest]; subst.
    inversion Hrest; subst.
    apply score_lead_failure in Hcall as (e0 & sb & _ & Hs1 & Hc).
    rewrite Hs1, record_error_breaker.
    rewrite Hs1, record_error_count in Hcount.
    assert (Hle : (5 <=? S (ScoringService.error_count vertical (fst sb)))%nat = true)
      by (apply Nat.leb_le; lia).
    now rewrite Hle.
  - inversion Hcf as [|? ? s1 ? record e Hcall Hcount Hrest]; subst.
    apply (IH s1 Hrest). lia.
Qed.

(** Rejected requests are counted failures. *)
Lemma rejections_are_counted vertical n s :
  counted_failures vertical n s (snd (score_leads vertical (repeat [] n) s)).
Proof.
  revert s. induction n as [|n IH]; intros [self w]; cbn [repeat score_leads].
  - constructor.
  - rewrite score_lead_invalid by (now right).
    match goal with
    | |- context [score_leads vertical (repeat [] n) ?s1] =>
        specialize (IH s1); destruct (score_leads vertical (repeat [] n) s1) as [outs s2]
    end.
    cbn [snd] in *. eapply counted_next; [apply score_lead_invalid; now right| |exact IH].
    cbn [fst]. apply record_error_count.
Qed.

Lemma fallback_score_as_specified vertical self :
  ScoringService._get_fallback_score vertical self
  = spec_fallback_result
      (default (CNum 0.65) (ScoringService._thresholds self !! vertical)).
Proof. reflexivity. Qed.

(** One call for a vertical whose breaker is open. *)
Lemma open_breaker_call vertical record self w :
  ScoringService.circuit_open vertical self = true ->
  let out := ScoringService.score_lead vertical record (self, w) in
  ScoringService.circuit_open vertical (fst (snd out)) = true /\
  (ScoringService.error_count vertical self
   <= ScoringService.error_count vertical (fst (snd out)))%nat /\
  ScoringService._scorers (fst (snd out)) = ScoringService._scorers self /\
  ScoringService._thresholds (fst (snd out)) = ScoringService._thresholds self /\
  ScoringService.scorer_globals (snd (snd out)) = ScoringService.scorer_globals w /\
  ScoringService.feature_globals (snd (snd out)) = ScoringService.feature_globals w /\
  (vertical <> "" /\ record <> [] ->
   fst out = Ok (spec_fallback_result
                   (default (CNum 0.65) (ScoringService._thresholds self !! vertical)))) /\
  (vertical = "" \/ record = [] -> fst out = Raise missing_parameters).
Proof.
  intros Hopen. cbv zeta.
  destruct (decide (vertical = "" \/ record = [])) as [Hbad|Hok].
  - rewrite score_lead_invalid by exact Hbad. cbn [fst snd].
    split; [rewrite record_error_breaker, Hopen; apply orb_true_r|].
    split; [rewrite record_error_count; lia|].
    split; [reflexivity|]. split; [reflexivity|]. split; [reflexivity|].
    split; [reflexivity|]. split; [|reflexivity].
    intros [Hv Hr]. destruct Hbad; contradiction.
  - assert (Hv : vertical <> "") by (intros ->; apply Hok; auto).
    assert (Hr : record <> []) by (intros ->; apply Hok; auto).
    rewrite (score_lead_open _ _ _ _ Hv Hr Hopen). cbn [fst snd].
    split; [exact Hopen|]. split; [lia|].
    split; [reflexivity|]. split; [reflexivity|]. split; [reflexivity|].
    split; [reflexivity|]. split; [intros _; now rewrite fallback_score_as_specified|].
    intros Hbad. contradiction.
Qed.

(** C1.  An open breaker is never closed.  Whatever calls follow for a
    vertical whose breaker is open, and whatever its scorer would answer,
    the breaker is still open after them and the error counter has not
    gone down: every call with a non-empty vertical and record returns the
    fixed fallback result (score 0.5, confidence 0.3, price 75.00, model
    version 'fallback', fallback flag set), every other call is rejected,
    and neither the registry nor any global of the scorers is touched.  No
    call can therefore be the successful score that closes the breaker and
    resets the counter. *)
Theorem open_breaker_never_closes vertical (records : list LeadData) s :
  ScoringService.circuit_open vertical (fst s) = true ->
  let run := score_leads vertical records s in
  let fallback_result :=
    spec_fallback_result
      (default (CNum 0.65) (ScoringService._thresholds (fst s) !! vertical)) in
  ScoringService.circuit_open vertical (fst (snd run)) = true /\
  (ScoringService.error_count vertical (fst s)
   <= ScoringService.error_count vertical (fst (snd run)))%nat /\
  ScoringService._scorers (fst (snd run)) = ScoringService._scorers (fst s) /\
  ScoringService.scorer_globals (snd (snd run)) = ScoringService.scorer_globals (snd s) /\
  ScoringService.feature_globals (snd (snd run)) = ScoringService.feature_globals (snd s) /\
  Forall2 (fun record out =>
             (vertical <> "" /\ record <> [] -> out = Ok fallback_result) /\
             (vertical = "" \/ record = [] -> out = Raise missing_parameters))
          records (fst run).
Proof.
  cbv zeta. revert s. induction records as [|record records IH]; intros [self w] Hopen.
  - cbn [score_leads fst snd]. split; [exact Hopen|]. split; [lia|].
    repeat (split; [reflexivity|]). constructor.
  - cbn [score_leads fst snd] in *.
    pose proof (open_breaker_call vertical record self w Hopen) as Hcall.
    cbv zeta in Hcall.
    destruct (ScoringService.score_lead vertical record (self, w)) as [out [self1 w1]].
    cbn [fst snd] in Hcall.
    destruct Hcall as (Hopen1 & Hcount & Hreg & Hth & Hsg & Hfg & Hvalid & Hinvalid).
    specialize (IH (self1, w1) Hopen1). cbn [fst snd] in IH.
    destruct (score_leads vertical records (self1, w1)) as [outs s2].
    cbn [fst snd] in *. destruct IH as (I1 & I2 & I3 & I4 & I5 & I6).
    split; [exact I1|]. split; [lia|]. split; [congruence|]. split; [congruence|].
    split; [congruence|]. rewrite Hth in I6. constructor; [|exact I6].
    split; [exact Hvalid | exact Hinvalid].
Qed.






(** After five failures in a row that each raised the error counter by
    one, the breaker of the vertical is open and the next call with a
    non-empty record returns the fallback result and changes nothing. *)
Lemma five_counted_failures_give_fallback vertical record s0 s5 :
  vertical <> "" -> record <> [] ->
  counted_failures vertical 5 s0 s5 ->
  ScoringService.circuit_open vertical (fst s5) = true /\
  ScoringService.score_lead vertical record s5
  = (Ok (spec_fallback_result
           (default (CNum 0.65) (ScoringService._thresholds (fst s5) !! vertical))),
     s5).
Proof.
  intros Hv Hr Hcf.
  assert (Hopen : ScoringService.circuit_open vertical (fst s5) = true)
    by (apply (counted_failures_breaker vertical 4 s0 s5 Hcf); lia).
  split; [exact Hopen|]. destruct s5 as [self w]. cbn [fst] in *.
  now rewrite (score_lead_open _ _ _ _ Hv Hr Hopen).
Qed.

End Breaker.

(** The breaker of a fresh service as the sources leave it: five
    requests with the test suite's lead fail one after the other, the
    sixth is answered with the fallback. *)
Example six_valid_requests :
  let run := score_leads (CE:=Fixtures.config_absent) (FE:=Fixtures.stats_absent)
               (LE:=Fixtures.booster_085) (SE:=Fixtures.version_absent)
               "auto" (repeat Fixtures.auto_lead 6) Fixtures.fresh_service in
  fst run
  = (repeat (Raise (ValueError
       "Lead scoring failed: could not convert string to float: '1.0.0'")) 5
     ++ [Ok (spec_fallback_result (CNum 0.65))])%list /\
  ScoringService.error_count "auto" (fst (snd run)) = 5%nat /\
  ScoringService.circuit_open "auto" (fst (snd run)) = true /\
  snd run = Traces.service_after_five_failures.
Proof. cbv zeta. split_and_compute. Qed.

(** With the breaker closed, the registered auto scorer scores the test
    suite's lead. *)
Example closed_breaker_scores :
  exists r s',
    ScoringService.score_lead (CE:=Fixtures.config_present) (FE:=Fixtures.stats_present)
      (LE:=Fixtures.booster_085) (SE:=Fixtures.version_present)
      "auto" Fixtures.auto_lead Traces.service_auto_closed = (Ok r, s') /\
    ScoringService.fallback r = false /\
    ScoringService.original_score r = Some 0.85%Q.
Proof. do 2 eexists. split; [vm_compute; reflexivity|]. split_and_compute. Qed.

Lemma open_breaker_never_closes_witness :
  ScoringService.circuit_open "auto" (fst Traces.service_auto_open) = true /\
  ScoringService.circuit_open "auto"
    (fst (snd (score_leads (CE:=Fixtures.config_present) (FE:=Fixtures.stats_present)
                 (LE:=Fixtures.booster_085) (SE:=Fixtures.version_present)
                 "auto" [Fixtures.auto_lead; Fixtures.auto_lead; Fixtures.auto_lead]
                 Traces.service_auto_open))) = true /\
  fst (score_leads (CE:=Fixtures.config_present) (FE:=Fixtures.stats_present)
         (LE:=Fixtures.booster_085) (SE:=Fixtures.version_present)
         "auto" [Fixtures.auto_lead; Fixtures.auto_lead; Fixtures.auto_lead]
         Traces.service_auto_open)
  = [Ok (spec_fallback_result (CNum 0.65)); Ok (spec_fallback_result (CNum 0.65));
     Ok (spec_fallback_result (CNum 0.65))] /\
  ScoringService.circuit_open "auto" (fst Traces.service_after_five_failures) = true /\
  ScoringService.circuit_open "auto"
    (fst (snd (score_leads (CE:=Fixtures.config_absent) (FE:=Fixtures.stats_absent)
                 (LE:=Fixtures.booster_085) (SE:=Fixtures.version_absent)
                 "auto" [Fixtures.auto_lead; Fixtures.auto_lead]
                 Traces.service_after_five_failures))) = true.
Proof.
  assert (Hopen : ScoringService.circuit_open "auto" (fst Traces.service_auto_open) = true)
    by reflexivity.
  assert (Hopen' : ScoringService.circuit_open "auto"
                     (fst Traces.service_after_five_failures) = true)
    by (vm_compute; reflexivity).
  pose proof (open_breaker_never_closes (CE:=Fixtures.config_present)
                (FE:=Fixtures.stats_present) (LE:=Fixtures.booster_085)
                (SE:=Fixtures.version_present) "auto"
                [Fixtures.auto_lead; Fixtures.auto_lead; Fixtures.auto_lead]
                Traces.service_auto_open Hopen) as H.
  pose proof (open_breaker_never_closes (CE:=Fixtures.config_absent)
                (FE:=Fixtures.stats_absent) (LE:=Fixtures.booster_085)
                (SE:=Fixtures.version_absent) "auto"
                [Fixtures.auto_lead; Fixtures.auto_lead]
                Traces.service_after_five_failures Hopen') as H'.
  cbv zeta in H, H'. destruct H as (H1 & _). destruct H' as (H1' & _).
  split; [exact Hopen|]. split; [exact H1|]. split; [vm_compute; reflexivity|].
  split; [exact Hopen' | exact H1'].
Defined.



(** With a scorer registered and the absent methods supplied, the same
    lead is scored for real while the breaker is closed. *)
Example registered_service_scores :
  exists r s',
    ScoringService.score_lead (CE:=Fixtures.config_present) (FE:=Fixtures.stats_present)
      (LE:=Fixtures.booster_085) (SE:=Fixtures.version_present)
      "auto" Fixtures.auto_lead Fixtures.registered_service = (Ok r, s') /\
    ScoringService.fallback r = false /\
    ScoringService.original_score r = Some 0.85%Q /\
    ScoringService.confidence r = 0.9%Q /\
    (ScoringService.price r == 135)%Q.
Proof. do 2 eexists. split; [vm_compute; reflexivity|]. split_and_compute. Qed.

(** ** Reload *)

Lemma assoc_get_set_eq {A} (k : string) (v : A) (l : list (string * A)) :
  assoc_get k (assoc_set k v l) = Some v.
Proof.
  induction l as [|[k' v'] l IH]; simpl.
  - now rewrite bool_decide_eq_true_2.
  - case_bool_decide as Hk; simpl.
    + now rewrite bool_decide_eq_true_2.
    + now rewrite bool_decide_eq_false_2.
Qed.

Lemma assoc_get_set_ne {A} (k k' : string) (v : A) (l : list (string * A)) :
  k <> k' -> assoc_get k' (assoc_set k v l) = assoc_get k' l.
Proof.
  intros Hne. induction l as [|[k0 v0] l IH]; simpl.
  - rewrite bool_decide_eq_false_2 by congruence. reflexivity.
  - case_bool_decide as Hk; simpl.
    + subst k0. now rewrite !bool_decide_eq_false_2 by congruence.
    + case_bool_decide; [reflexivity | exact IH].
Qed.

Lemma assoc_set_Forall {A} (P : string * A -> Prop) (k : string) (v : A)
    (l : list (string * A)) :
  P (k, v) -> Forall P l -> Forall P (assoc_set k v l).
Proof.
  intros Hkv. induction 1 as [|[k' v'] l Hx Hl IH]; simpl.
  - repeat constructor. exact Hkv.
  - case_bool_decide; constructor; assumption.
Qed.

Section Reload.

Context {CE : ConfigExternal} {SE : ScoringService.External}.

(** The inner [try] never completes: it rebuilds the vertical's
    [ModelConfig], and no [ModelConfig] can be built. *)
Lemma reload_one_raises (vertical : string)
    (s : ScoringService.t * ScoringService.World) :
  exists e s', ScoringService.reload_one vertical s = (Raise e, s').
Proof.
  destruct s as [self w]. unfold ScoringService.reload_one.
  destruct (assoc_get vertical (ScoringService._scorers self)) as [scorer|];
    [|eexists _, _; reflexivity].
  destruct (LeadScorer.reload_model _ _) as [[ok|e] [scorer' g']];
    [|eexists _, _; reflexivity].
  destruct (ScoringService.get_model_version scorer' ≫= ScoringService.py_float_of)
    as [version|e]; [|eexists _, _; reflexivity].
  destruct (construct_never_succeeds vertical None true) as [msg ->].
  eexists _, _; reflexivity.
Qed.

Lemma reload_loop_statuses (verticals : list string)
    (acc : list (string * ScoringService.ReloadStatus))
    (s : ScoringService.t * ScoringService.World) :
  Forall not_reloaded acc ->
  Forall not_reloaded (fst (ScoringService.reload_loop verticals acc s)).
Proof.
  revert acc s. induction verticals as [|v verticals IH]; intros acc s Hacc; simpl.
  - exact Hacc.
  - destruct (reload_one_raises v s) as (e & s' & ->).
    apply IH, assoc_set_Forall; [eexists; reflexivity | exact Hacc].
Qed.

(** The loop visits every vertical it is given: a failure is recorded
    and the loop goes on. *)
Lemma reload_loop_covers (verticals : list string)
    (acc : list (string * ScoringService.ReloadStatus))
    (s : ScoringService.t * ScoringService.World) (v : string) :
  v ∈ verticals \/ is_Some (assoc_get v acc) ->
  is_Some (assoc_get v (fst (ScoringService.reload_loop verticals acc s))).
Proof.
  revert acc s. induction verticals as [|v0 verticals IH]; intros acc s Hv; simpl.
  - destruct Hv as [Hin|Hacc]; [now apply elem_of_nil in Hin | exact Hacc].
  - destruct (reload_one_raises v0 s) as (e & s' & ->).
    apply IH. destruct (decide (v0 = v)) as [->|Hne].
    + right. rewrite assoc_get_set_eq. eauto.
    + destruct Hv as [Hin|Hacc].
      * apply elem_of_cons in Hin as [->|Hin]; [congruence | now left].
      * right. now rewrite assoc_get_set_ne.
Qed.

(** [reload_models] itself never raises; its map has an entry for every
    registered vertical, and every entry reports a failure. *)
Lemma reload_models_reports_failures_only
    (s : ScoringService.t * ScoringService.World) :
  exists statuses s',
    ScoringService.reload_models s = (Ok statuses, s') /\
    Forall not_reloaded statuses /\
    (forall v, v ∈ map fst (ScoringService._scorers (fst s)) ->
               is_Some (assoc_get v statuses)).
Proof.
  unfold ScoringService.reload_models.
  pose proof (reload_loop_statuses (map fst (ScoringService._scorers (fst s))) [] s
                (List.Forall_nil _)) as Hst.
  pose proof (fun v => reload_loop_covers
                (map fst (ScoringService._scorers (fst s))) [] s v) as Hcov.
  destruct (ScoringService.reload_loop _ [] s) as [statuses s'].
  exists statuses, s'. split; [reflexivity|]. split; [exact Hst|].
  intros v Hv. apply Hcov. now left.
Qed.

End Reload.

(** C7.  Scorers for [auto], [home] and [health] are registered; the
    artifact of [home] is corrupted and the other two load.  One call of
    [reload_models] reports all three as failed: [home] for its artifact,
    [auto] because rebuilding its configuration raises on the version
    constant, [health] because it has no feature configuration.  The
    scorers of [auto] and [health] hold their new model nevertheless, and
    the one of [home] its old one. *)
Theorem reload_reports_healthy_verticals_as_failed :
  let out := ScoringService.reload_models (CE:=Fixtures.config_present)
               (SE:=Fixtures.version_present) Fixtures.three_verticals in
  fst out
    = Ok [ ("auto", ScoringService.NotReloaded
                      "could not convert string to float: '1.0.0'");
           ("home", ScoringService.NotReloaded
                      "Model reload failed: invalid load key");
           ("health", ScoringService.NotReloaded
                        "Unsupported insurance vertical: health") ] /\
  map (fun kv => (fst kv, LeadScorer._model (snd kv)))
      (ScoringService._scorers (fst Fixtures.three_verticals))
    = [ ("auto", Some (LeadScorer.mkBooster 1)); ("home", Some (LeadScorer.mkBooster 1));
        ("health", Some (LeadScorer.mkBooster 1)) ] /\
  map (fun kv => (fst kv, LeadScorer._model (snd kv)))
      (ScoringService._scorers (fst (snd out)))
    = [ ("auto", Some (LeadScorer.mkBooster 2)); ("home", Some (LeadScorer.mkBooster 1));
        ("health", Some (LeadScorer.mkBooster 2)) ].
Proof. cbv zeta. split_and_compute. Qed.

(** * Further properties *)

(** ** Configuration: paths, thresholds and updates *)

Lemma cache_get_put (k : string) (v : CfgVal) (self : ModelConfig.t) :
  ModelConfig._cache self <> None ->
  ModelConfig.cache_get k (ModelConfig.cache_put k v self) = Some v.
Proof.
  unfold ModelConfig.cache_get, ModelConfig.cache_put. simpl.
  destruct (ModelConfig._cache self) as [c|]; [|congruence].
  intros _. simpl. apply lookup_insert_eq.
Qed.

(** X1.  Once [get_model_path] has returned a path on an instance with
    caching enabled, every later call for the same version returns that
    path and changes nothing, whatever the store has become: the cached
    path is not checked for existence again. *)
Theorem model_path_replayed_from_cache (st st' : ModelConfig.Store)
    (model_version : option string) (self self' : ModelConfig.t) (p : string) :
  ModelConfig._cache self <> None ->
  ModelConfig.get_model_path st model_version self = (Ok p, self') ->
  ModelConfig.get_model_path st' model_version self' = (Ok p, self').
Proof.
  intros Hc. unfold ModelConfig.get_model_path.
  destruct (ModelConfig.cache_get _ self) as [[q|s|l|d]|] eqn:Hget;
    try (intros H; discriminate H).
  - intros [= <- <-]. now rewrite Hget.
  - destruct (negb (ModelConfig.st_exists st _)); [intros H; discriminate H|].
    intros [= <- <-]. now rewrite cache_get_put.
Qed.

Lemma model_path_replayed_from_cache_witness :
  ModelConfig._cache Fixtures.auto_model_config <> None /\
  ModelConfig.get_model_path Fixtures.store_ok None Fixtures.auto_model_config
    = (Ok "/opt/ml/models/auto",
       ModelConfig.cache_put "model_path_None" (CStr "/opt/ml/models/auto")
         Fixtures.auto_model_config) /\
  ModelConfig.get_model_path (ModelConfig.mkStore (fun _ => false) (fun _ => false) []) None
      (ModelConfig.cache_put "model_path_None" (CStr "/opt/ml/models/auto")
         Fixtures.auto_model_config)
    = (Ok "/opt/ml/models/auto",
       ModelConfig.cache_put "model_path_None" (CStr "/opt/ml/models/auto")
         Fixtures.auto_model_config).
Proof.
  assert (Hc : ModelConfig._cache Fixtures.auto_model_config <> None) by discriminate.
  assert (Hrun : ModelConfig.get_model_path Fixtures.store_ok None Fixtures.auto_model_config
    = (Ok "/opt/ml/models/auto",
       ModelConfig.cache_put "model_path_None" (CStr "/opt/ml/models/auto")
         Fixtures.auto_model_config)) by (vm_compute; reflexivity).
  split; [exact Hc|]. split; [exact Hrun|].
  exact (model_path_replayed_from_cache _ _ _ _ _ _ Hc Hrun).
Defined.

(** X2.  Without a cached entry, [get_model_path] succeeds exactly when
    the resolved directory exists; it then returns that directory, and
    otherwise raises [FileNotFoundError] and leaves the instance as it
    was.  Without caching the instance is never changed. *)
Theorem model_path_resolution (st : ModelConfig.Store) (model_version : option string)
    (self : ModelConfig.t) :
  ModelConfig.cache_get ("model_path_" ++ default "None" model_version) self = None ->
  let out := ModelConfig.get_model_path st model_version self in
  let p := resolved_model_path self model_version in
  (ModelConfig.st_exists st p = true -> fst out = Ok p) /\
  (ModelConfig.st_exists st p = false ->
     out = (Raise (FileNotFoundError ("Model path does not exist: " ++ p)), self)) /\
  (ModelConfig._cache self = None -> snd out = self).
Proof.
  intros Hget out p. subst out p.
  unfold ModelConfig.get_model_path, resolved_model_path. rewrite Hget.
  destruct model_version as [v|]; simpl.
  - destruct (bool_decide (v = "")); simpl;
      (split; [intros ->; reflexivity|]; split; [intros ->; reflexivity|]);
      intros Hnc; destruct (ModelConfig.st_exists st _); simpl;
      try reflexivity; unfold ModelConfig.cache_put; destruct self; simpl in *;
      now rewrite Hnc.
  - split; [intros ->; reflexivity|]. split; [intros ->; reflexivity|].
    intros Hnc. destruct (ModelConfig.st_exists st _); simpl; try reflexivity.
    unfold ModelConfig.cache_put. destruct self; simpl in *. now rewrite Hnc.
Qed.

Lemma model_path_resolution_witness :
  ModelConfig.cache_get "model_path_2" Fixtures.auto_model_config = None /\
  fst (ModelConfig.get_model_path Fixtures.store_ok (Some "2") Fixtures.auto_model_config)
    = Ok "/opt/ml/models/auto/v2".
Proof.
  assert (Hget : ModelConfig.cache_get ("model_path_" ++ default "None" (Some "2"))
                   Fixtures.auto_model_config = None) by reflexivity.
  split; [exact Hget|].
  exact (proj1 (model_path_resolution Fixtures.store_ok (Some "2")
                  Fixtures.auto_model_config Hget) eq_refl).
Defined.

Lemma filter_nonempty {A} (f : A -> bool) (l : list A) (x : A) :
  In x l -> f x = true -> List.filter f l <> [].
Proof.
  intros Hin Hf Hnil. assert (Hx : In x (List.filter f l)) by (apply filter_In; auto).
  rewrite Hnil in Hx. exact Hx.
Qed.

(** A key outside the vertical's default key set makes the override
    validation fail. *)
Lemma override_with_unknown_key (self : ModelConfig.t) (dflt new_config : gmap string CfgVal)
    (k : string) :
  ModelConfig.FEATURE_CONFIG !! ModelConfig._vertical self = Some dflt ->
  is_Some (new_config !! k) -> dflt !! k = None ->
  exists msg, ModelConfig._validate_config_override self new_config
              = Raise (ValueError msg).
Proof.
  intros Hd [v Hk] Hnone. unfold ModelConfig._validate_config_override. rewrite Hd.
  destruct (List.filter _ _) as [|k0 ks] eqn:Hf; [|eexists; reflexivity].
  exfalso. eapply (filter_nonempty _ _ k); [| |exact Hf].
  - apply in_map_iff. exists (k, v). split; [reflexivity|].
    apply list_elem_of_In, elem_of_map_to_list, Hk.
  - now apply bool_decide_eq_true_2.
Qed.

(** X3.  On an instance of a supported vertical, an update that carries
    the key [scoring_threshold] is refused with a [ValueError] and changes
    nothing: that key is not among the vertical's default keys, so the
    threshold cannot be configured through [update_config]. *)
Theorem threshold_not_configurable_by_update (st : ModelConfig.Store)
    (new_config : gmap string CfgVal) (persist : bool) (self : ModelConfig.t) :
  ModelConfig._vertical self = "auto" \/ ModelConfig._vertical self = "home" ->
  is_Some (new_config !! "scoring_threshold") ->
  exists msg,
    ModelConfig.update_config st new_config persist self = (Raise (ValueError msg), self, st).
Proof.
  intros Hv Hk.
  assert (Hbad : exists msg, ModelConfig._validate_config_override self new_config
                             = Raise (ValueError msg)).
  { destruct Hv as [Hv|Hv].
    - apply (override_with_unknown_key self ModelConfig.auto_config _ "scoring_threshold");
        [rewrite Hv; reflexivity | exact Hk | reflexivity].
    - apply (override_with_unknown_key self ModelConfig.home_config _ "scoring_threshold");
        [rewrite Hv; reflexivity | exact Hk | reflexivity]. }
  destruct Hbad as [msg Hmsg]. exists msg. now apply update_config_invalid_keys.
Qed.

Lemma threshold_not_configurable_by_update_witness :
  (ModelConfig._vertical Fixtures.auto_model_config = "auto"
   \/ ModelConfig._vertical Fixtures.auto_model_config = "home") /\
  is_Some (({[ "scoring_threshold" := CNum 0.8 ]} : gmap string CfgVal)
             !! "scoring_threshold") /\
  exists msg,
    ModelConfig.update_config Fixtures.store_ok {[ "scoring_threshold" := CNum 0.8 ]} false
      Fixtures.auto_model_config
    = (Raise (ValueError msg), Fixtures.auto_model_config, Fixtures.store_ok).
Proof.
  assert (Hv : ModelConfig._vertical Fixtures.auto_model_config = "auto"
               \/ ModelConfig._vertical Fixtures.auto_model_config = "home")
    by (left; reflexivity).
  assert (Hk : is_Some (({[ "scoring_threshold" := CNum 0.8 ]} : gmap string CfgVal)
                          !! "scoring_threshold")) by (eexists; reflexivity).
  split; [exact Hv|]. split; [exact Hk|].
  exact (threshold_not_configurable_by_update Fixtures.store_ok _ false _ Hv Hk).
Defined.

(** X4.  A successful update overrides exactly the supplied keys and keeps
    every other entry, so no key is ever removed; the version is raised by
    0.1 and nothing stays cached; with [persist], the last write is the
    new version and configuration at the vertical's [config.yaml]. *)
Theorem update_config_merges (st st' : ModelConfig.Store)
    (new_config : gmap string CfgVal) (persist ok : bool) (self self' : ModelConfig.t) :
  ModelConfig.update_config st new_config persist self = (Ok ok, self', st') ->
  (forall k, ModelConfig._config self' !! k
             = match new_config !! k with
               | Some v => Some v
               | None => ModelConfig._config self !! k
               end) /\
  (forall k, is_Some (ModelConfig._config self !! k) ->
             is_Some (ModelConfig._config self' !! k)) /\
  (ModelConfig._version self' == ModelConfig._version self + 0.1)%Q /\
  (forall k, ModelConfig.cache_get k self' = None) /\
  (persist = true ->
     last (ModelConfig.st_written st')
     = Some (config_path self,
             ModelConfig.mkBlob (ModelConfig._version self') (ModelConfig._config self'))) /\
  (persist = false -> st' = st).
Proof.
  unfold ModelConfig.update_config.
  destruct (ModelConfig._validate_config_override self new_config);
    [|intros H; discriminate H].
  assert (Hlook : forall k, (new_config ∪ ModelConfig._config self) !! k
             = match new_config !! k with
               | Some v => Some v
               | None => ModelConfig._config self !! k
               end).
  { intros k. rewrite lookup_union.
    now destruct (new_config !! k), (ModelConfig._config self !! k). }
  assert (Hcache : forall k c, ((fun _ : gmap string CfgVal => (∅ : gmap string CfgVal)) <$> c)
                               ≫= (fun m => m !! k) = None).
  { intros k [c|]; [apply lookup_empty | reflexivity]. }
  destruct persist.
  - unfold ModelConfig._persist_configuration. cbn [ModelConfig._vertical].
    destruct (ModelConfig.st_writable st _); [|intros H; discriminate H].
    intros [= <- <- <-]. cbn.
    split; [exact Hlook|]. split.
    { intros k [v Hv]. rewrite Hlook, Hv. destruct (new_config !! k); eauto. }
    split; [reflexivity|]. split.
    { intros k. unfold ModelConfig.cache_get. cbn.
      destruct (ModelConfig._cache self); [apply lookup_empty | reflexivity]. }
    split; [|intros H; discriminate H].
    intros _. now rewrite last_snoc.
  - intros [= <- <- <-]. cbn.
    split; [exact Hlook|]. split.
    { intros k [v Hv]. rewrite Hlook, Hv. destruct (new_config !! k); eauto. }
    split; [reflexivity|]. split.
    { intros k. unfold ModelConfig.cache_get. cbn.
      destruct (ModelConfig._cache self); [apply lookup_empty | reflexivity]. }
    split; [intros H; discriminate H | reflexivity].
Qed.

Lemma update_config_merges_witness :
  ModelConfig.update_config Fixtures.store_ok {[ "text_features" := CList ["occupation"] ]}
      true Fixtures.auto_model_config_cached
    = (Ok true, Samples.auto_config_updated, Samples.store_after_update) /\
  ModelConfig._config Samples.auto_config_updated !! "text_features"
    = Some (CList ["occupation"]) /\
  ModelConfig._config Samples.auto_config_updated !! "numerical_features"
    = ModelConfig._config Fixtures.auto_model_config_cached !! "numerical_features".
Proof.
  assert (Hrun : ModelConfig.update_config Fixtures.store_ok
      {[ "text_features" := CList ["occupation"] ]} true Fixtures.auto_model_config_cached
    = (Ok true, Samples.auto_config_updated, Samples.store_after_update))
    by (vm_compute; reflexivity).
  split; [exact Hrun|].
  pose proof (proj1 (update_config_merges _ _ _ _ _ _ _ Hrun)) as Hlook.
  split; [exact (Hlook "text_features") | exact (Hlook "numerical_features")].
Defined.

(** X5.  [get_scoring_threshold] is idempotent: a second call on the
    instance the first one left returns the same outcome (value or
    exception) and changes nothing more.  A threshold it returns without a
    cache entry lies in [0, 1]. *)
Theorem scoring_threshold_idempotent (self : ModelConfig.t) :
  let out := ModelConfig.get_scoring_threshold self in
  ModelConfig.get_scoring_threshold (snd out) = (fst out, snd out) /\
  (forall v, ModelConfig.cache_get "scoring_threshold" self = None -> fst out = Ok v ->
             exists q, v = CNum q /\ (0 <= q <= 1)%Q) /\
  (is_ok (fst out) = false -> snd out = self).
Proof.
  cbv zeta. split; [|split].
  - unfold ModelConfig.get_scoring_threshold.
    destruct (ModelConfig.cache_get "scoring_threshold" self) as [v|] eqn:Hget; simpl.
    + now rewrite Hget.
    + destruct (ModelConfig.check_unit_interval _) as [[|]|e] eqn:Hchk; simpl.
      * destruct (ModelConfig._cache self) as [c|] eqn:Hc.
        -- rewrite cache_get_put by congruence. reflexivity.
        -- assert (Hsame : ModelConfig.cache_put "scoring_threshold"
                     (default (CNum ModelConfig.DEFAULT_SCORING_THRESHOLD)
                        (ModelConfig._config self !! "scoring_threshold")) self = self).
           { unfold ModelConfig.cache_put.
             destruct self as [v0 c0 ca0 ver0]; simpl in *. now subst. }
           rewrite Hsame, Hget, Hchk. now rewrite Hsame.
      * now rewrite Hget, Hchk.
      * now rewrite Hget, Hchk.
  - intros v Hget Hv. eapply computed_threshold_in_unit_interval; eauto.
  - unfold ModelConfig.get_scoring_threshold.
    destruct (ModelConfig.cache_get "scoring_threshold" self); simpl; [reflexivity|].
    destruct (ModelConfig.check_unit_interval _) as [[|]|e]; simpl;
      [intros H; discriminate H | reflexivity | reflexivity].
Qed.

(** ** Feature engineering: validation, caching and encoders *)

(** A loop keeps every relation between states that each of its steps
    keeps, whether it completes or stops on an exception. *)
Lemma sm_for_preserves {S X A} (R : S -> S -> Prop) (l : list X) (body : X -> SM S A) :
  (forall s, R s s) -> (forall a b c, R a b -> R b c -> R a c) ->
  (forall x s r s', body x s = (r, s') -> R s s') ->
  forall s r s', sm_for l body s = (r, s') -> R s s'.
Proof.
  intros Hrefl Htrans Hbody. induction l as [|x l IH]; intros s r s'; cbn [sm_for].
  - unfold sm_ret. intros [= _ <-]. apply Hrefl.
  - unfold sm_bind at 1. destruct (body x s) as [[a|e] s1] eqn:Hb.
    + unfold sm_bind. destruct (sm_for l body s1) as [[rs|e] s2] eqn:Hl.
      * unfold sm_ret. intros [= _ <-]. eapply Htrans; [eapply Hbody, Hb | eapply IH, Hl].
      * intros [= _ <-]. eapply Htrans; [eapply Hbody, Hb | eapply IH, Hl].
    + intros [= _ <-]. eapply Hbody, Hb.
Qed.

Lemma assoc_get_set_same {K A} `{EqDecision K} (k : K) (v : A) (l : list (K * A)) :
  assoc_get k (assoc_set k v l) = Some v.
Proof.
  induction l as [|[k' v'] l IH]; simpl.
  - now rewrite bool_decide_eq_true_2.
  - case_bool_decide as Hk; simpl.
    + now rewrite bool_decide_eq_true_2.
    + now rewrite bool_decide_eq_false_2.
Qed.

Lemma filter_nil_iff {A} (f : A -> bool) (l : list A) :
  List.filter f l = [] <-> forall x, In x l -> f x = false.
Proof.
  induction l as [|a l IH]; simpl.
  - split; [intros _ x [] | reflexivity].
  - destruct (f a) eqn:Ha.
    + split; [intros H; discriminate H|]. intros H. specialize (H a (or_introl eq_refl)).
      congruence.
    + rewrite IH. split.
      * intros H x [<-|Hx]; auto.
      * intros H x Hx. apply H. now right.
Qed.

Lemma validate_input_data_ok (self : FeatureEngineer.t) (data : DataFrame)
    (required : list string) :
  FeatureEngineer.required_columns (FeatureEngineer._feature_config self) = Ok required ->
  (FeatureEngineer._validate_input_data self data = Ok tt
   <-> forall c, In c required -> is_Some (assoc_get c data)).
Proof.
  intros Hreq. unfold FeatureEngineer._validate_input_data. rewrite Hreq. simpl.
  destruct (List.filter _ required) as [|m ms] eqn:Hf.
  - split; [|reflexivity]. intros _ c Hc.
    pose proof (proj1 (filter_nil_iff _ _) Hf c Hc) as Hb.
    apply bool_decide_eq_false in Hb. destruct (assoc_get c data); [eauto | congruence].
  - split; [intros H; discriminate H|]. intros Hall. exfalso.
    assert (Hm : In m (List.filter (fun c => bool_decide (assoc_get c data = None)) required))
      by (rewrite Hf; now left).
    apply filter_In in Hm as [Hin Hb]. apply bool_decide_eq_true in Hb.
    destruct (Hall m Hin) as [cells Hcells]. congruence.
Qed.

(** X6.  [transform_features] accepts a frame exactly when it holds every
    column the configuration lists; a frame that lacks one is refused with
    a [ValueError] before the cache is consulted, and neither the engineer
    nor any global is changed. *)
Theorem missing_column_refused {FE : FeatureEngineer.External}
    (self : FeatureEngineer.t) (data : DataFrame) (required : list string) :
  FeatureEngineer.required_columns (FeatureEngineer._feature_config self) = Ok required ->
  (FeatureEngineer._validate_input_data self data = Ok tt
   <-> forall c, In c required -> is_Some (assoc_get c data)) /\
  (forall c return_importance g,
     In c required -> assoc_get c data = None ->
     exists msg,
       FeatureEngineer.transform_features data return_importance (self, g)
       = (Raise (ValueError msg), (self, g))).
Proof.
  intros Hreq. split; [now apply validate_input_data_ok|].
  intros c ri g Hin Hnone. unfold FeatureEngineer.transform_features.
  unfold FeatureEngineer._validate_input_data. rewrite Hreq. simpl.
  destruct (List.filter _ required) as [|m ms] eqn:Hf; [|eexists; reflexivity].
  exfalso. pose proof (proj1 (filter_nil_iff _ _) Hf c Hin) as Hb.
  apply bool_decide_eq_false in Hb. congruence.
Qed.

Lemma missing_column_refused_witness :
  FeatureEngineer.required_columns (FeatureEngineer._feature_config Fixtures.auto_engineer)
    = Ok ["age"; "driving_years"; "vehicle_age"; "annual_mileage"; "vehicle_make";
          "vehicle_model"; "usage_type"; "coverage_type"; "occupation"; "location"] /\
  exists msg,
    FeatureEngineer.transform_features (FE:=Fixtures.stats_present)
      (frame_of_lead [("age", VNum 30)]) true (Fixtures.auto_engineer, Fixtures.no_globals)
    = (Raise (ValueError msg), (Fixtures.auto_engineer, Fixtures.no_globals)).
Proof.
  assert (Hreq : FeatureEngineer.required_columns
                   (FeatureEngineer._feature_config Fixtures.auto_engineer)
    = Ok ["age"; "driving_years"; "vehicle_age"; "annual_mileage"; "vehicle_make";
          "vehicle_model"; "usage_type"; "coverage_type"; "occupation"; "location"])
    by reflexivity.
  split; [exact Hreq|].
  refine (proj2 (missing_column_refused (FE:=Fixtures.stats_present) _
                   (frame_of_lead [("age", VNum 30)]) _ Hreq)
            "location" true Fixtures.no_globals _ _).
  - simpl. tauto.
  - reflexivity.
Defined.

Lemma same_setup_refl a : same_setup a a.
Proof. now split. Qed.

Lemma same_setup_trans a b c : same_setup a b -> same_setup b c -> same_setup a c.
Proof. intros [H1 H2] [H3 H4]. split; congruence. Qed.

Lemma track_numerical_stats_setup cols self :
  same_setup self (FeatureEngineer._track_numerical_stats cols self).
Proof.
  unfold FeatureEngineer._track_numerical_stats. revert self.
  induction cols as [|c cols IH]; intros self; simpl; [apply same_setup_refl|].
  eapply same_setup_trans; [|apply IH]. now split.
Qed.

Lemma preprocess_numerical_setup data self r self' :
  FeatureEngineer.preprocess_numerical data self = (r, self') -> same_setup self self'.
Proof.
  unfold FeatureEngineer.preprocess_numerical.
  destruct (result_for data _); [|intros [= _ <-]; apply same_setup_refl].
  destruct (FeatureEngineer._validate_numerical_ranges _ _);
    [|intros [= _ <-]; apply same_setup_refl].
  destruct (FeatureEngineer.fc_scaling _); [|intros [= _ <-]; apply same_setup_refl].
  destruct (map _ a) as [|c cs] eqn:Hm; intros [= _ <-];
    [apply same_setup_refl | exact (track_numerical_stats_setup (c :: cs) self)].
Qed.

Lemma encode_column_setup column cells self r self' :
  FeatureEngineer.encode_column column cells self = (r, self') -> same_setup self self'.
Proof.
  unfold FeatureEngineer.encode_column.
  destruct (result_for cells _); [|intros [= _ <-]; apply same_setup_refl].
  destruct (FeatureEngineer.fc_num _ _ _); [|intros [= _ <-]; apply same_setup_refl].
  simpl. intros [= _ <-]. destruct (bool_decide _); now split.
Qed.

Lemma vectorize_column_setup column cells self r self' :
  FeatureEngineer.vectorize_column column cells self = (r, self') -> same_setup self self'.
Proof.
  unfold FeatureEngineer.vectorize_column.
  destruct (FeatureEngineer._clean_text cells); [|intros [= _ <-]; apply same_setup_refl].
  destruct (FeatureEngineer.vectorizer_fit_transform _ _) as [[fitted b]|e];
    intros [= _ <-]; now split.
Qed.

Lemma preprocess_categorical_setup data self r self' :
  FeatureEngineer.preprocess_categorical data self = (r, self') -> same_setup self self'.
Proof.
  unfold FeatureEngineer.preprocess_categorical, sm_bind.
  destruct (sm_for data _ self) as [[rs|e] s1] eqn:Hf.
  - apply (sm_for_preserves same_setup) in Hf;
      [|apply same_setup_refl|apply same_setup_trans
       |intros x s r0 s0; apply encode_column_setup].
    destruct rs; unfold sm_raise, sm_ret; intros [= _ <-]; exact Hf.
  - apply (sm_for_preserves same_setup) in Hf;
      [|apply same_setup_refl|apply same_setup_trans
       |intros x s r0 s0; apply encode_column_setup].
    intros [= _ <-]. exact Hf.
Qed.

Lemma preprocess_text_setup data self r self' :
  FeatureEngineer.preprocess_text data self = (r, self') -> same_setup self self'.
Proof.
  unfold FeatureEngineer.preprocess_text, sm_bind.
  destruct (sm_for data _ self) as [[rs|e] s1] eqn:Hf.
  - apply (sm_for_preserves same_setup) in Hf;
      [|apply same_setup_refl|apply same_setup_trans
       |intros x s r0 s0; apply vectorize_column_setup].
    destruct rs; unfold sm_raise, sm_ret; intros [= _ <-]; exact Hf.
  - apply (sm_for_preserves same_setup) in Hf;
      [|apply same_setup_refl|apply same_setup_trans
       |intros x s r0 s0; apply vectorize_column_setup].
    intros [= _ <-]. exact Hf.
Qed.

Lemma process_groups_setup nd cd xd self r self' :
  FeatureEngineer.process_groups nd cd xd self = (r, self') -> same_setup self self'.
Proof.
  unfold FeatureEngineer.process_groups, sm_bind, sm_ret.
  destruct (FeatureEngineer.preprocess_numerical nd self) as [[nb|e] s1] eqn:H1;
    [|intros [= _ <-]; eapply preprocess_numerical_setup, H1].
  destruct (FeatureEngineer.preprocess_categorical cd s1) as [[cb|e] s2] eqn:H2;
    [|intros [= _ <-]; eapply same_setup_trans;
      [eapply preprocess_numerical_setup, H1 | eapply preprocess_categorical_setup, H2]].
  destruct (FeatureEngineer.preprocess_text xd s2) as [[xb|e] s3] eqn:H3;
    intros [= _ <-];
    (eapply same_setup_trans; [eapply preprocess_numerical_setup, H1|];
     eapply same_setup_trans; [eapply preprocess_categorical_setup, H2|];
     eapply preprocess_text_setup, H3).
Qed.

(** X7.  With caching enabled, a frame that was transformed once is
    answered from the cache from then on: a second call with the same
    frame returns the same matrix and importance scores, whatever its
    [return_importance] flag, and changes neither the engineer nor any
    global. *)
Theorem transform_features_replayed {FE : FeatureEngineer.External} (data : DataFrame)
    (return_importance again : bool) (self self' : FeatureEngineer.t)
    (g g' : FeatureEngineer.Globals)
    (r : FeatureEngineer.Matrix * list (string * Q)) :
  FeatureEngineer._use_cache self = true ->
  FeatureEngineer.transform_features data return_importance (self, g) = (Ok r, (self', g')) ->
  FeatureEngineer.transform_features data again (self', g') = (Ok r, (self', g')).
Proof.
  intros Huse Hrun.
  assert (Hfacts : same_setup self self' /\
                   assoc_get data (FeatureEngineer.PREPROCESSOR_CACHE g') = Some r /\
                   FeatureEngineer._validate_input_data self data = Ok tt).
  { unfold FeatureEngineer.transform_features in Hrun.
    destruct (FeatureEngineer._validate_input_data self data) as [[]|e] eqn:Hval;
      [|discriminate Hrun].
    rewrite Huse in Hrun.
    destruct (assoc_get data (FeatureEngineer.PREPROCESSOR_CACHE g)) as [hit|] eqn:Hhit.
    { injection Hrun as <- <- <-. split; [apply same_setup_refl|]. now split. }
    unfold mbind, Result_bind in Hrun.
    destruct (FeatureEngineer.fc_list _ "numerical_features"); [|discriminate Hrun].
    destruct (FeatureEngineer.select_columns _ data) as [nd|]; [|discriminate Hrun].
    destruct (FeatureEngineer.fc_list _ "categorical_features"); [|discriminate Hrun].
    destruct (FeatureEngineer.select_columns _ data) as [cd|]; [|discriminate Hrun].
    destruct (FeatureEngineer.fc_list _ "text_features"); [|discriminate Hrun].
    destruct (FeatureEngineer.select_columns _ data) as [xd|]; [|discriminate Hrun].
    destruct (FeatureEngineer.process_groups nd cd xd self) as [[blocks|e] s1] eqn:Hp;
      [|discriminate Hrun].
    apply process_groups_setup in Hp. destruct Hp as [Hfc Hu].
    destruct (FeatureEngineer._update_feature_stats _ data); [|discriminate Hrun].
    cbn [FeatureEngineer.set_feature_stats FeatureEngineer._use_cache] in Hrun.
    rewrite <- Hu, Huse in Hrun. injection Hrun as <- <- <-.
    split; [split; [exact Hfc | exact Hu]|]. split; [|reflexivity].
    cbn. apply assoc_get_set_same. }
  destruct Hfacts as ([Hfc Hu] & Hcache & Hval).
  unfold FeatureEngineer.transform_features.
  assert (Hval' : FeatureEngineer._validate_input_data self' data = Ok tt).
  { unfold FeatureEngineer._validate_input_data in *. now rewrite <- Hfc. }
  rewrite Hval', <- Hu, Huse, Hcache. reflexivity.
Qed.

Lemma transform_features_replayed_witness :
  FeatureEngineer._use_cache Samples.caching_engineer = true /\
  FeatureEngineer.transform_features (FE:=Fixtures.stats_present)
      (frame_of_lead Fixtures.auto_lead) true (Samples.caching_engineer, Fixtures.no_globals)
    = (Ok (Fixtures.auto_lead_features, []), Samples.caching_engineer_after) /\
  FeatureEngineer.transform_features (FE:=Fixtures.stats_present)
      (frame_of_lead Fixtures.auto_lead) false Samples.caching_engineer_after
    = (Ok (Fixtures.auto_lead_features, []), Samples.caching_engineer_after).
Proof.
  assert (Hu : FeatureEngineer._use_cache Samples.caching_engineer = true) by reflexivity.
  assert (Hrun : FeatureEngineer.transform_features (FE:=Fixtures.stats_present)
      (frame_of_lead Fixtures.auto_lead) true (Samples.caching_engineer, Fixtures.no_globals)
    = (Ok (Fixtures.auto_lead_features, []),
       (fst Samples.caching_engineer_after, snd Samples.caching_engineer_after)))
    by (vm_compute; reflexivity).
  split; [exact Hu|]. split; [exact Hrun|].
  exact (transform_features_replayed (FE:=Fixtures.stats_present) _ true false _ _ _ _ _
           Hu Hrun).
Defined.

(** ** Categorical encoding *)

Lemma count_occ_str_le (v : string) (l : list string) : (count_occ_str v l <= length l)%nat.
Proof. unfold count_occ_str. apply List.filter_length_le. Qed.

Lemma remove_dups_repeat (x : string) (n : nat) : remove_dups (repeat x (S n)) = [x].
Proof.
  induction n as [|n IH]; [reflexivity|].
  change (repeat x (S (S n))) with (x :: repeat x (S n)).
  cbn [remove_dups].
  destruct (decide_rel elem_of x (repeat x (S n))) as [_|Hn]; [exact IH|].
  exfalso. apply Hn. simpl. left.
Qed.

Lemma index_of_lookup (v : string) (l : list string) (k : nat) :
  index_of v l = Some k -> l !! k = Some v.
Proof.
  revert k. induction l as [|y l IH]; intros k; simpl; [intros H; discriminate H|].
  case_bool_decide as Hv.
  - intros [= <-]. now subst.
  - destruct (index_of v l) as [j|]; simpl; [|intros H; discriminate H].
    intros [= <-]. simpl. now apply IH.
Qed.

Lemma index_of_elem (v : string) (l : list string) :
  v ∈ l -> is_Some (index_of v l).
Proof.
  induction l as [|y l IH]; [intros H; now apply elem_of_nil in H|].
  intros H. simpl. case_bool_decide as Hv; [eauto|].
  apply elem_of_cons in H as [H|H]; [contradiction|].
  destruct (IH H) as [j ->]. simpl. eauto.
Qed.

Lemma elem_of_sorted_unique (v : string) (l : list string) :
  v ∈ sorted_unique l <-> v ∈ l.
Proof.
  unfold sorted_unique. rewrite merge_sort_Permutation. apply elem_of_remove_dups.
Qed.

Lemma NoDup_sorted_unique (l : list string) : NoDup (sorted_unique l).
Proof.
  unfold sorted_unique. rewrite merge_sort_Permutation. apply NoDup_remove_dups.
Qed.

Lemma Forall2_map_self {A B} (P : A -> B -> Prop) (f : A -> B) (l : list A) :
  (forall x, x ∈ l -> P x (f x)) -> Forall2 P l (map f l).
Proof.
  induction l as [|x l IH]; intros H; simpl; constructor.
  - apply H. now left.
  - apply IH. intros v Hv. apply H. now right.
Qed.

(** X8.  A batch with fewer rows than the minimum category frequency
    (ten unless configured) loses every category: each value is replaced
    by 'Other', so every row is encoded as 0 and the stored encoder knows
    the single class 'Other'.  The one-row frame that [score_lead] builds
    is such a batch. *)
Theorem small_batch_encoded_as_other (column : string) (cells : list PyVal)
    (values : list string) (min_freq : Q) (self : FeatureEngineer.t) :
  result_for cells FeatureEngineer.category_cell = Ok values ->
  FeatureEngineer.fc_num (FeatureEngineer._feature_config self)
                         "min_category_frequency" 10 = Ok min_freq ->
  (inject_Z (Z.of_nat (length cells)) < min_freq)%Q ->
  let out := FeatureEngineer.encode_column column cells self in
  fst out = Ok (repeat (FeatureEngineer.Encoded 0) (length cells)) /\
  (cells <> [] ->
   FeatureEngineer._encoders (snd out) !! column
   = Some (FeatureEngineer.mkEncoder (Some ["Other"]))).
Proof.
  intros Hvals Hnum Hsmall. cbv zeta.
  pose proof (result_for_length _ _ _ Hvals) as Hlen.
  unfold FeatureEngineer.encode_column. rewrite Hvals, Hnum. cbv zeta.
  assert (Hother : map (fun v => if negb (Qle_bool min_freq
                                    (inject_Z (Z.of_nat (count_occ_str v values))))
                                 then "Other" else v) values
                   = repeat "Other" (length cells)).
  { rewrite <- Hlen. clear Hvals.
    assert (Hrare : forall v, negb (Qle_bool min_freq
                      (inject_Z (Z.of_nat (count_occ_str v values)))) = true).
    { intros v. apply negb_true_iff, Qle_bool_false.
      eapply Qle_lt_trans; [|exact Hsmall]. rewrite <- Zle_Qle.
      pose proof (count_occ_str_le v values). lia. }
    transitivity (map (fun _ : string => "Other") values).
    - apply map_ext. intros v. now rewrite Hrare.
    - clear. induction values; simpl; congruence. }
  rewrite Hother. unfold FeatureEngineer.label_fit_transform.
  destruct (length cells) as [|n] eqn:Hn.
  - split; [reflexivity|]. intros Hne. destruct cells; [contradiction | discriminate Hn].
  - unfold sorted_unique. rewrite remove_dups_repeat.
    change (merge_sort str_le ["Other"]) with ["Other"].
    cbn [fst snd]. split.
    + f_equal. rewrite List.map_repeat. reflexivity.
    + intros _. cbn. now rewrite lookup_insert_eq.
Qed.

Lemma small_batch_encoded_as_other_witness :
  (inject_Z (Z.of_nat (length [VStr "sedan"; VStr "suv"; VStr "sedan"])) < 10)%Q /\
  fst (FeatureEngineer.encode_column "vehicle_make"
         [VStr "sedan"; VStr "suv"; VStr "sedan"] Fixtures.auto_engineer)
  = Ok [FeatureEngineer.Encoded 0; FeatureEngineer.Encoded 0; FeatureEngineer.Encoded 0].
Proof.
  split; [reflexivity|].
  exact (proj1 (small_batch_encoded_as_other "vehicle_make"
                  [VStr "sedan"; VStr "suv"; VStr "sedan"] ["sedan"; "suv"; "sedan"] 10
                  Fixtures.auto_engineer eq_refl eq_refl eq_refl)).
Defined.

(** X9.  The label codes of a column can be decoded: when
    [encode_column] succeeds, the encoder it stores lists distinct classes,
    and the code of every row is the position, in that list, of the row's
    value after rare values were replaced by 'Other'. *)
Theorem label_codes_decode (column : string) (cells : list PyVal)
    (self self' : FeatureEngineer.t) (codes : list FeatureEngineer.Cell) :
  FeatureEngineer.encode_column column cells self = (Ok codes, self') ->
  exists values min_freq classes,
    result_for cells FeatureEngineer.category_cell = Ok values /\
    FeatureEngineer.fc_num (FeatureEngineer._feature_config self)
                           "min_category_frequency" 10 = Ok min_freq /\
    FeatureEngineer._encoders self' !! column
    = Some (FeatureEngineer.mkEncoder (Some classes)) /\
    NoDup classes /\
    Forall2 (fun v code => exists k, code = FeatureEngineer.Encoded k /\
                                     classes !! k = Some (bucketed min_freq values v))
            values codes.
Proof.
  unfold FeatureEngineer.encode_column.
  destruct (result_for cells _) as [values|e]; [|intros H; discriminate H].
  destruct (FeatureEngineer.fc_num _ _ _) as [min_freq|e]; [|intros H; discriminate H].
  cbv zeta. unfold FeatureEngineer.label_fit_transform.
  change (fun v => if negb (Qle_bool min_freq (inject_Z (Z.of_nat (count_occ_str v values))))
                   then "Other" else v) with (bucketed min_freq values).
  intros [= <- <-].
  exists values, min_freq, (sorted_unique (map (bucketed min_freq values) values)).
  split; [reflexivity|]. split; [reflexivity|]. split.
  { cbn. now rewrite lookup_insert_eq. }
  split; [apply NoDup_sorted_unique|].
  rewrite List.map_map.
  assert (Hall : forall v, v ∈ values ->
            exists k, FeatureEngineer.Encoded
                        (default 0%nat
                           (index_of (bucketed min_freq values v)
                              (sorted_unique (map (bucketed min_freq values) values))))
                      = FeatureEngineer.Encoded k /\
                      sorted_unique (map (bucketed min_freq values) values) !! k
                      = Some (bucketed min_freq values v)).
  { intros v Hv.
    assert (Hin : bucketed min_freq values v
                  ∈ sorted_unique (map (bucketed min_freq values) values)).
    { apply elem_of_sorted_unique. apply list_elem_of_In, in_map, list_elem_of_In, Hv. }
    destruct (index_of_elem _ _ Hin) as [k Hk]. exists k. rewrite Hk. split; [reflexivity|].
    now apply index_of_lookup. }
  apply Forall2_map_self. exact Hall.
Qed.

Lemma label_codes_decode_witness :
  exists values min_freq classes,
    result_for [VStr "sedan"; VStr "suv"; VStr "sedan"] FeatureEngineer.category_cell
      = Ok values /\
    FeatureEngineer.fc_num (FeatureEngineer._feature_config Samples.lenient_engineer)
                           "min_category_frequency" 10 = Ok min_freq /\
    FeatureEngineer._encoders
      (snd (FeatureEngineer.encode_column "vehicle_make"
              [VStr "sedan"; VStr "suv"; VStr "sedan"] Samples.lenient_engineer))
      !! "vehicle_make"
    = Some (FeatureEngineer.mkEncoder (Some classes)) /\
    NoDup classes /\
    Forall2 (fun v code => exists k, code = FeatureEngineer.Encoded k /\
                                     classes !! k = Some (bucketed min_freq values v))
            values [FeatureEngineer.Encoded 0; FeatureEngineer.Encoded 1;
                    FeatureEngineer.Encoded 0].
Proof.
  exact (label_codes_decode "vehicle_make" [VStr "sedan"; VStr "suv"; VStr "sedan"]
           Samples.lenient_engineer
           (snd (FeatureEngineer.encode_column "vehicle_make"
                   [VStr "sedan"; VStr "suv"; VStr "sedan"] Samples.lenient_engineer))
           [FeatureEngineer.Encoded 0; FeatureEngineer.Encoded 1; FeatureEngineer.Encoded 0]
           ltac:(vm_compute; reflexivity)).
Defined.

(** ** Numerical range check *)

(** X10.  Without [min_values] and [max_values] in the feature
    configuration every bound is infinite: the range check accepts any
    columns, negative or huge values included. *)
Theorem range_check_inert_without_bounds (fc : gmap string CfgVal)
    (cols : list (string * list (option Q))) :
  fc !! "min_values" = None -> fc !! "max_values" = None ->
  FeatureEngineer._validate_numerical_ranges fc cols = Ok tt.
Proof.
  intros Hmin Hmax. induction cols as [|[column col] cols IH]; [reflexivity|].
  cbn [FeatureEngineer._validate_numerical_ranges]. unfold FeatureEngineer.fc_bound.
  rewrite Hmin, Hmax. cbn [mbind Result_bind].
  replace (FeatureEngineer.below (FeatureEngineer.col_min col) None) with false
    by (unfold FeatureEngineer.below; now destruct (FeatureEngineer.col_min col)).
  replace (FeatureEngineer.above (FeatureEngineer.col_max col) None) with false
    by (unfold FeatureEngineer.above; now destruct (FeatureEngineer.col_max col)).
  exact IH.
Qed.

Lemma range_check_inert_without_bounds_witness :
  ModelConfig.auto_config !! "min_values" = None /\
  ModelConfig.auto_config !! "max_values" = None /\
  FeatureEngineer._validate_numerical_ranges ModelConfig.auto_config
    [("age", [Some (-40)%Q]); ("annual_mileage", [Some 1000000000%Q; None])] = Ok tt.
Proof.
  split; [reflexivity|]. split; [reflexivity|].
  exact (range_check_inert_without_bounds ModelConfig.auto_config _ eq_refl eq_refl).
Defined.

(** ** Text features *)

Lemma clean_blank_cells (cells : list PyVal) :
  Forall blank_cell cells ->
  FeatureEngineer._clean_text cells = Ok (repeat "" (length cells)).
Proof.
  unfold FeatureEngineer._clean_text.
  induction 1 as [|v cells Hv _ IH]; [reflexivity|].
  cbn [result_for length repeat]. rewrite IH. now destruct Hv as [-> | ->].
Qed.

Lemma split_only_spaces (s : string) : only_spaces s = true -> py_split s = [].
Proof.
  unfold py_split. induction s as [|c s IH]; [reflexivity|].
  cbn [only_spaces runs_aux]. intros H. apply andb_true_iff in H as [Hc Hs].
  rewrite Hc. cbn [negb app]. now apply IH.
Qed.

Lemma join_blank_docs (n : nat) : only_spaces (String.concat " " (repeat "" n)) = true.
Proof.
  induction n as [|n IH]; [reflexivity|].
  destruct n as [|n]; [reflexivity|].
  change (repeat "" (S (S n))) with ("" :: repeat "" (S n)).
  change (repeat "" (S n)) with ("" :: repeat "" n) in *.
  cbn [String.concat] in *. cbn [String.append only_spaces].
  change (is_space " ") with true. exact IH.
Qed.

Lemma tokens_of_blank_docs (n : nat) : concat (map sk_tokenize (repeat "" n)) = [].
Proof. induction n as [|n IH]; [reflexivity|]. cbn [repeat map concat]. now rewrite IH. Qed.

(** X11.  A text column whose cells are all missing or empty cannot be
    vectorised: a fresh TF-IDF vectorizer replaces the column's stored one
    and its fit then fails on the empty vocabulary. *)
Theorem blank_text_column_fails (column : string) (cells : list PyVal)
    (self : FeatureEngineer.t) :
  Forall blank_cell cells ->
  FeatureEngineer.vectorize_column column cells self
  = (Raise (ValueError "empty vocabulary; perhaps the documents only contain stop words"),
     FeatureEngineer.set_vectorizers
       (insert column (FeatureEngineer.TfidfVectorizer 100 None)) self).
Proof.
  intros Hblank. unfold FeatureEngineer.vectorize_column.
  rewrite (clean_blank_cells _ Hblank). unfold FeatureEngineer.vocabulary_size.
  rewrite (split_only_spaces _ (join_blank_docs _)).
  change (10000 <? Z.of_nat (length (sorted_unique [])))%Z with false. cbv zeta.
  cbn [FeatureEngineer.vectorizer_fit_transform]. rewrite tokens_of_blank_docs.
  reflexivity.
Qed.

Lemma blank_text_column_fails_witness :
  Forall blank_cell [VNone; VStr ""] /\
  fst (FeatureEngineer.vectorize_column "occupation" [VNone; VStr ""] Fixtures.auto_engineer)
  = Raise (ValueError "empty vocabulary; perhaps the documents only contain stop words").
Proof.
  assert (H : Forall blank_cell [VNone; VStr ""]).
  { constructor; [now left|]. constructor; [now right|]. constructor. }
  split; [exact H|].
  exact (f_equal fst (blank_text_column_fails "occupation" _ Fixtures.auto_engineer H)).
Defined.

(** ** Importance tracking *)

Lemma analyze_feature_keeps_tracker self fs g r g' :
  FeatureEngineer.analyze_feature self fs g = (r, g') -> keeps_tracker g g'.
Proof.
  unfold FeatureEngineer.analyze_feature.
  destruct (FeatureEngineer.FEATURE_IMPORTANCE g !! fs.1); [|intros [= _ <-]; now split].
  destruct (FeatureEngineer.fc_num _ _ _); [|intros [= _ <-]; now split].
  destruct (negb _); intros [= _ <-]; now split.
Qed.

Lemma analyze_trends_keeps_tracker self scores g r g' :
  FeatureEngineer._analyze_importance_trends self scores g = (r, g') -> keeps_tracker g g'.
Proof.
  unfold FeatureEngineer._analyze_importance_trends, sm_bind, sm_ret.
  destruct (sm_for scores _ g) as [[rs|e] g1] eqn:Hf; intros [= _ <-];
    (eapply (sm_for_preserves keeps_tracker); [| | |exact Hf];
     [intros s; now split
     |intros a b c [H1 H2] [H3 H4]; split; congruence
     |intros x s r0 s0; apply analyze_feature_keeps_tracker]).
Qed.

Lemma forallb_unit_interval (scores : list (string * Q)) :
  forallb (fun fs => FeatureEngineer.in_unit_interval (snd fs)) scores = true
  <-> forall k v, (k, v) ∈ scores -> (0 <= v <= 1)%Q.
Proof.
  rewrite forallb_forall. split.
  - intros H k v Hin. apply list_elem_of_In in Hin. specialize (H _ Hin).
    unfold FeatureEngineer.in_unit_interval in H. cbn [snd] in H.
    apply andb_true_iff in H as [H0 H1]. now rewrite !Qle_bool_iff in *.
  - intros H [k v] Hin. apply list_elem_of_In in Hin. destruct (H k v Hin) as [H0 H1].
    unfold FeatureEngineer.in_unit_interval. cbn [snd].
    apply andb_true_iff. now rewrite !Qle_bool_iff.
Qed.

(** X12.  [update_feature_importance] raises its [ValueError] exactly
    when some score lies outside [0, 1]; the check comes before any
    update, so a refused batch leaves the tracker, the cache and the alert
    log as they were - valid scores of the same batch included. *)
Theorem importance_scores_validated (self : FeatureEngineer.t)
    (scores : list (string * Q)) (g : FeatureEngineer.Globals) :
  let out := FeatureEngineer.update_feature_importance self scores g in
  ((forall k v, (k, v) ∈ scores -> (0 <= v <= 1)%Q)
   <-> forall msg, fst out <> Raise (ValueError msg)) /\
  (forall msg, fst out = Raise (ValueError msg) ->
     msg = "Importance scores must be between 0 and 1" /\ snd out = g).
Proof.
  cbv zeta. rewrite <- forallb_unit_interval.
  unfold FeatureEngineer.update_feature_importance.
  destruct (forallb _ scores) eqn:Hall; cbn [negb].
  - assert (Hno : forall g0 msg,
              fst (let (r, g1) := FeatureEngineer._analyze_importance_trends self scores g0 in
                   match r with
                   | Ok _ => (Ok true, g1)
                   | Raise e => (Raise e, g1)
                   end) <> Raise (ValueError msg)).
    { intros g0 msg. unfold FeatureEngineer._analyze_importance_trends, sm_bind, sm_ret.
      destruct (sm_for scores _ g0) as [[rs|e] g1] eqn:Hf; cbn [fst];
        [intros H; discriminate H|].
      intros [= ->]. revert g0 g1 Hf.
      induction scores as [|fs scores IH]; intros g0 g1; cbn [sm_for];
        [unfold sm_ret; intros H; discriminate H|].
      cbn [forallb] in Hall. apply andb_true_iff in Hall as [_ Hall].
      unfold sm_bind at 1.
      destruct (FeatureEngineer.analyze_feature self fs g0) as [[u|e] g2] eqn:Ha.
      - unfold sm_bind. destruct (sm_for scores _ g2) as [[rs|e] g3] eqn:Hf;
          [unfold sm_ret; intros H; discriminate H|].
        intros [= -> _]. eapply IH; eauto.
      - intros [= -> _]. unfold FeatureEngineer.analyze_feature in Ha.
        destruct (FeatureEngineer.FEATURE_IMPORTANCE g0 !! fs.1); [|discriminate Ha].
        unfold FeatureEngineer.fc_num in Ha.
        destruct (FeatureEngineer._feature_config self !! "importance_change_threshold")
          as [[]|]; try discriminate Ha; destruct (negb _); discriminate Ha. }
    split.
    + split; [intros _ msg; apply Hno | reflexivity].
    + intros msg Hmsg. exfalso. exact (Hno _ _ Hmsg).
  - split.
    + split; [intros H; discriminate H|]. intros H. exfalso. exact (H _ eq_refl).
    + intros msg [= <-]. now split.
Qed.

(** X13.  A successful [update_feature_importance] merges the batch into
    the tracker: every feature of the batch is tracked at its new score,
    every other feature keeps what it had, and the transform cache is not
    touched. *)
Theorem importance_scores_merged (self : FeatureEngineer.t)
    (scores : list (string * Q)) (g g' : FeatureEngineer.Globals) (ok : bool) :
  NoDup (map fst scores) ->
  FeatureEngineer.update_feature_importance self scores g = (Ok ok, g') ->
  ok = true /\
  (forall k v, (k, v) ∈ scores -> FeatureEngineer.FEATURE_IMPORTANCE g' !! k = Some v) /\
  (forall k, k ∉ map fst scores ->
     FeatureEngineer.FEATURE_IMPORTANCE g' !! k = FeatureEngineer.FEATURE_IMPORTANCE g !! k) /\
  FeatureEngineer.PREPROCESSOR_CACHE g' = FeatureEngineer.PREPROCESSOR_CACHE g.
Proof.
  intros Hnd. unfold FeatureEngineer.update_feature_importance.
  destruct (negb _); [intros H; discriminate H|].
  destruct (FeatureEngineer._analyze_importance_trends self scores _) as [[u|e] g1] eqn:Ha;
    [|intros H; discriminate H].
  intros [= <- <-]. apply analyze_trends_keeps_tracker in Ha as [Hc Ht]. cbn in Hc, Ht.
  split; [reflexivity|]. rewrite Ht, Hc. split; [|split; [|reflexivity]].
  - intros k v Hin. now apply merge_scores_lookup.
  - intros k Hk. now apply merge_scores_other.
Qed.

Lemma importance_scores_merged_witness :
  NoDup (map fst [("age", 0.5%Q); ("location", 0.25%Q)]) /\
  FeatureEngineer.FEATURE_IMPORTANCE
    (snd (FeatureEngineer.update_feature_importance Fixtures.auto_engineer
            [("age", 0.5%Q); ("location", 0.25%Q)] Fixtures.tracker_age_01))
    !! "age" = Some 0.5%Q.
Proof.
  assert (Hnd : NoDup (map fst [("age", 0.5%Q); ("location", 0.25%Q)])).
  { apply NoDup_cons. split; [|apply NoDup_singleton].
    intros H. apply list_elem_of_singleton in H. discriminate H. }
  split; [exact Hnd|].
  refine (proj1 (proj2 (importance_scores_merged Fixtures.auto_engineer
            [("age", 0.5%Q); ("location", 0.25%Q)] Fixtures.tracker_age_01
            (snd (FeatureEngineer.update_feature_importance Fixtures.auto_engineer
                    [("age", 0.5%Q); ("location", 0.25%Q)] Fixtures.tracker_age_01))
            true Hnd _)) "age" 0.5%Q _).
  - vm_compute. reflexivity.
  - apply list_elem_of_here.
Defined.

(** ** Lead scorer: thresholds, loading and prices *)

(** X14.  [update_threshold] accepts a threshold exactly when it lies in
    [0, 1] and, unless the update is forced, in [0.3, 0.9]; an accepted
    one replaces the scorer's threshold and nothing else, a refused one
    leaves the scorer as it was. *)
Theorem threshold_update_policy (new_threshold : Q) (force_update : bool)
    (self : LeadScorer.t) :
  let out := LeadScorer.update_threshold new_threshold force_update self in
  (fst out = Ok true
   <-> (0 <= new_threshold <= 1)%Q /\
       (force_update = true \/ (0.3 <= new_threshold <= 0.9)%Q)) /\
  (fst out = Ok true ->
   snd out = LeadScorer.mk (LeadScorer._config self) (LeadScorer._feature_engineer self)
                           (LeadScorer._model self) (Some (CNum new_threshold))
                           (LeadScorer._enable_monitoring self)) /\
  (fst out <> Ok true -> snd out = self /\ exists msg, fst out = Raise (ValueError msg)).
Proof.
  cbv zeta. unfold LeadScorer.update_threshold.
  destruct (Qle_bool 0 new_threshold) eqn:H0; cbn [andb negb].
  2:{ apply Qle_bool_false in H0. split; [|split].
      - split; [intros H; discriminate H|]. intros [[H _] _]. lra.
      - intros H; discriminate H.
      - intros _. split; [reflexivity | eexists; reflexivity]. }
  destruct (Qle_bool new_threshold 1) eqn:H1; cbn [andb negb].
  2:{ apply Qle_bool_false in H1. split; [|split].
      - split; [intros H; discriminate H|]. intros [[_ H] _]. lra.
      - intros H; discriminate H.
      - intros _. split; [reflexivity | eexists; reflexivity]. }
  apply Qle_bool_iff in H0, H1.
  destruct force_update; cbn [andb negb].
  { split; [|split].
    - split; [intros _; split; [split; assumption | now left] | reflexivity].
    - reflexivity.
    - intros H. now contradiction H. }
  destruct (Qle_bool new_threshold 0.9) eqn:H9; cbn [orb negb].
  2:{ apply Qle_bool_false in H9. split; [|split].
      - split; [intros H; discriminate H|]. intros [_ [H|[_ H]]]; [discriminate H | lra].
      - intros H; discriminate H.
      - intros _. split; [reflexivity | eexists; reflexivity]. }
  destruct (Qle_bool 0.3 new_threshold) eqn:H3; cbn [orb negb].
  2:{ apply Qle_bool_false in H3. split; [|split].
      - split; [intros H; discriminate H|]. intros [_ [H|[H _]]]; [discriminate H | lra].
      - intros H; discriminate H.
      - intros _. split; [reflexivity | eexists; reflexivity]. }
  apply Qle_bool_iff in H9, H3. split; [|split].
  - split; [intros _; split; [split; assumption | right; split; assumption] | reflexivity].
  - reflexivity.
  - intros H. now contradiction H.
Qed.

(** X15.  A threshold set with [update_threshold] lives on the scorer
    only: a later successful [reload_model] ends in the very state it
    would have reached without the update, the threshold being read from
    the configuration again. *)
Theorem reload_forgets_threshold_update (env : LeadScorer.Env) (new_threshold : Q)
    (force_update ok r : bool) (self self1 : LeadScorer.t) (g : LeadScorer.Globals)
    (s : LeadScorer.t * LeadScorer.Globals) :
  LeadScorer.update_threshold new_threshold force_update self = (Ok ok, self1) ->
  LeadScorer.reload_model env (self, g) = (Ok r, s) ->
  LeadScorer.reload_model env (self1, g) = (Ok r, s).
Proof.
  unfold LeadScorer.update_threshold.
  destruct (negb _); [intros H; discriminate H|].
  destruct (_ && _); [intros H; discriminate H|].
  intros [= _ <-]. unfold LeadScorer.reload_model.
  cbn [LeadScorer._config LeadScorer._feature_engineer LeadScorer._model
       LeadScorer._threshold LeadScorer._enable_monitoring].
  destruct (ModelConfig.get_model_path _ None _) as [[p|e] c]; [|intros H; discriminate H].
  destruct (LeadScorer.joblib_load env p) as [[b|]|e]; try (intros H; discriminate H).
  cbn [LeadScorer._config LeadScorer._feature_engineer LeadScorer._model
       LeadScorer._threshold LeadScorer._enable_monitoring].
  destruct (ModelConfig.get_scoring_threshold c) as [[th|e] c']; [|intros H; discriminate H].
  intros H. exact H.
Qed.

Lemma reload_forgets_threshold_update_witness :
  LeadScorer._threshold
    (snd (LeadScorer.update_threshold 0.5 false Fixtures.auto_scorer)) = Some (CNum 0.5) /\
  LeadScorer.reload_model Fixtures.env_april
    (snd (LeadScorer.update_threshold 0.5 false Fixtures.auto_scorer),
     LeadScorer.mkGlobals ∅ 0 0 0)
  = (Ok true,
     snd (LeadScorer.reload_model Fixtures.env_april
            (Fixtures.auto_scorer, LeadScorer.mkGlobals ∅ 0 0 0))).
Proof.
  split; [reflexivity|].
  exact (reload_forgets_threshold_update Fixtures.env_april 0.5 false true true
           Fixtures.auto_scorer
           (snd (LeadScorer.update_threshold 0.5 false Fixtures.auto_scorer))
           (LeadScorer.mkGlobals ∅ 0 0 0)
           (snd (LeadScorer.reload_model Fixtures.env_april
                   (Fixtures.auto_scorer, LeadScorer.mkGlobals ∅ 0 0 0)))
           ltac:(vm_compute; reflexivity) ltac:(vm_compute; reflexivity)).
Defined.

(** X16.  A cache entry younger than one hour is adopted as it is:
    [_initialize_model] installs the cached model, leaves every global
    untouched and reads neither the model store nor the loader, so it ends
    the same in any environment showing the same clock. *)
Theorem fresh_cache_entry_adopted (env : LeadScorer.Env) (self : LeadScorer.t)
    (g : LeadScorer.Globals) (model : LeadScorer.Booster) (cache_time : Q) :
  LeadScorer.MODEL_CACHE g !! ModelConfig._vertical (LeadScorer._config self)
    = Some (model, cache_time) ->
  (LeadScorer.clock_time (LeadScorer.clock env) - cache_time < 3600)%Q ->
  let out := LeadScorer._initialize_model env (self, g) in
  LeadScorer._model (fst (snd out)) = Some model /\
  snd (snd out) = g /\
  (forall env', LeadScorer.clock env' = LeadScorer.clock env ->
                LeadScorer._initialize_model env' (self, g) = out).
Proof.
  intros Hhit Hage. cbv zeta. unfold LeadScorer._initialize_model. rewrite Hhit.
  assert (Hb : Qle_bool 3600 (LeadScorer.clock_time (LeadScorer.clock env) - cache_time)
               = false) by now apply Qle_bool_false.
  rewrite Hb. cbn [negb]. split; [|split].
  - now destruct (ModelConfig.get_scoring_threshold _) as [[th|e] c].
  - now destruct (ModelConfig.get_scoring_threshold _) as [[th|e] c].
  - intros env' Hclock. rewrite Hclock, Hb. reflexivity.
Qed.

Lemma fresh_cache_entry_adopted_witness :
  LeadScorer.MODEL_CACHE Samples.cached_booster_7 !! "auto"
    = Some (LeadScorer.mkBooster 7, 0%Q) /\
  (1800 - 0 < 3600)%Q /\
  LeadScorer._model
    (fst (snd (LeadScorer._initialize_model Samples.env_no_store
                 (Samples.scorer_without_model, Samples.cached_booster_7))))
  = Some (LeadScorer.mkBooster 7).
Proof.
  split; [vm_compute; reflexivity|]. split; [reflexivity|].
  exact (proj1 (fresh_cache_entry_adopted Samples.env_no_store Samples.scorer_without_model
                  Samples.cached_booster_7 (LeadScorer.mkBooster 7) 0
                  ltac:(vm_compute; reflexivity) ltac:(vm_compute; reflexivity))).
Defined.

(** X17.  A failed [reload_model] always raises a [ValueError] whose
    message starts with 'Model reload failed: ', counts one more scoring
    error and keeps the scorer's threshold.  Unless the load itself
    succeeded, the model and the model cache are the old ones; when it did
    (the failure is then the threshold read), the new model stays
    installed and cached. *)
Theorem reload_failure_effects (env : LeadScorer.Env) (self self' : LeadScorer.t)
    (g g' : LeadScorer.Globals) (e : PyExc) :
  LeadScorer.reload_model env (self, g) = (Raise e, (self', g')) ->
  (exists msg, e = ValueError ("Model reload failed: " ++ msg)) /\
  LeadScorer.SCORING_ERRORS g' = S (LeadScorer.SCORING_ERRORS g) /\
  LeadScorer._threshold self' = LeadScorer._threshold self /\
  ((LeadScorer._model self' = LeadScorer._model self /\
    LeadScorer.MODEL_CACHE g' = LeadScorer.MODEL_CACHE g)
   \/ (exists path new_model,
         LeadScorer.joblib_load env path = Ok (LeadScorer.ObjBooster new_model) /\
         LeadScorer._model self' = Some new_model /\
         LeadScorer.MODEL_CACHE g' !! ModelConfig._vertical (LeadScorer._config self)
         = Some (new_model, LeadScorer.clock_time (LeadScorer.clock env)))).
Proof.
  unfold LeadScorer.reload_model.
  destruct (ModelConfig.get_model_path _ None _) as [[p|e0] c] eqn:Hp.
  2:{ intros [= <- <- <-]. split; [eexists; reflexivity|]. split; [reflexivity|].
      split; [reflexivity|]. left. now split. }
  assert (Hv : ModelConfig._vertical c = ModelConfig._vertical (LeadScorer._config self)).
  { unfold ModelConfig.get_model_path in Hp.
    destruct (ModelConfig.cache_get _ _) as [[]|]; try (injection Hp as _ <-; reflexivity);
      try discriminate Hp.
    destruct (negb _); [discriminate Hp|]. injection Hp as _ <-. reflexivity. }
  destruct (LeadScorer.joblib_load env p) as [[b|]|e0] eqn:Hl.
  - cbn [LeadScorer._config LeadScorer._feature_engineer LeadScorer._model
         LeadScorer._threshold LeadScorer._enable_monitoring].
    destruct (ModelConfig.get_scoring_threshold c) as [[th|e0] c'];
      [intros H; discriminate H|].
    intros [= <- <- <-]. split; [eexists; reflexivity|]. split; [reflexivity|].
    split; [reflexivity|]. right. exists p, b. split; [exact Hl|]. split; [reflexivity|].
    cbn. rewrite Hv. apply lookup_insert_eq.
  - intros [= <- <- <-]. split; [eexists; reflexivity|]. split; [reflexivity|].
    split; [reflexivity|]. left. now split.
  - intros [= <- <- <-]. split; [eexists; reflexivity|]. split; [reflexivity|].
    split; [reflexivity|]. left. now split.
Qed.

Lemma reload_failure_effects_witness :
  fst (LeadScorer.reload_model Fixtures.env_home_corrupted
         (Fixtures.scorer_of "home" ModelConfig.home_config, LeadScorer.mkGlobals ∅ 0 0 0))
  = Raise (ValueError "Model reload failed: invalid load key") /\
  LeadScorer.SCORING_ERRORS
    (snd (snd (LeadScorer.reload_model Fixtures.env_home_corrupted
                 (Fixtures.scorer_of "home" ModelConfig.home_config,
                  LeadScorer.mkGlobals ∅ 0 0 0)))) = 1%nat.
Proof.
  split; [vm_compute; reflexivity|].
  exact (proj1 (proj2 (reload_failure_effects Fixtures.env_home_corrupted
           (Fixtures.scorer_of "home" ModelConfig.home_config)
           (fst (snd (LeadScorer.reload_model Fixtures.env_home_corrupted
                        (Fixtures.scorer_of "home" ModelConfig.home_config,
                         LeadScorer.mkGlobals ∅ 0 0 0))))
           (LeadScorer.mkGlobals ∅ 0 0 0)
           (snd (snd (LeadScorer.reload_model Fixtures.env_home_corrupted
                        (Fixtures.scorer_of "home" ModelConfig.home_config,
                         LeadScorer.mkGlobals ∅ 0 0 0))))
           (ValueError "Model reload failed: invalid load key")
           ltac:(vm_compute; reflexivity)))).
Defined.

(** ** Prices *)

Lemma MARKET_ADJUSTMENTS_peak : LeadScorer.MARKET_ADJUSTMENTS !! "peak_hours" = Some 1.2%Q.
Proof. vm_compute. reflexivity. Qed.

Lemma MARKET_ADJUSTMENTS_off_peak : LeadScorer.MARKET_ADJUSTMENTS !! "off_peak" = Some 0.9%Q.
Proof. vm_compute. reflexivity. Qed.

Lemma MARKET_ADJUSTMENTS_weekend : LeadScorer.MARKET_ADJUSTMENTS !! "weekend" = Some 1.1%Q.
Proof. vm_compute. reflexivity. Qed.

(** X18.  The conditions [score_lead] prices with come from the clock
    alone and are one of three sets: peak hours (a weekday between 9 and
    17 o'clock), off-peak, or off-peak on a weekend.  The price before
    clamping is therefore the base price times 1.2, 0.9 or 0.9 * 1.1; the
    'holiday' adjustment is never applied. *)
Theorem market_conditions_from_clock (env : LeadScorer.Env) (vertical : string)
    (month : nat) (score : Q) :
  let hour := LeadScorer.clock_hour (LeadScorer.clock env) in
  let day := LeadScorer.clock_weekday (LeadScorer.clock env) in
  let conditions := LeadScorer._get_market_conditions env in
  let base := LeadScorer.unclamped_price vertical month score [] in
  let raw := LeadScorer.unclamped_price vertical month score conditions in
  assoc_get "holiday" conditions = None /\
  ((9 <= hour <= 17 /\ day < 5)%nat /\
     conditions = [("peak_hours", VBool true)] /\ (raw == base * 1.2)%Q
   \/ (~ (9 <= hour <= 17)%nat /\ (day < 5)%nat) /\
     conditions = [("off_peak", VBool true)] /\ (raw == base * 0.9)%Q
   \/ (5 <= day)%nat /\
     conditions = [("off_peak", VBool true); ("weekend", VBool true)] /\
     (raw == base * (0.9 * 1.1))%Q).
Proof.
  cbv zeta. unfold LeadScorer._get_market_conditions, LeadScorer.unclamped_price.
  destruct (5 <=? LeadScorer.clock_weekday (LeadScorer.clock env))%nat eqn:Hd.
  - apply Nat.leb_le in Hd.
    replace (LeadScorer.clock_weekday (LeadScorer.clock env) <? 5)%nat with false
      by (symmetry; apply Nat.ltb_ge; exact Hd).
    rewrite andb_false_r. split; [reflexivity|]. right. right.
    split; [exact Hd|]. split; [reflexivity|].
    replace (assoc_set "weekend" (VBool true) [("off_peak", VBool true)])
      with [("off_peak", VBool true); ("weekend", VBool true)] by reflexivity.
    cbn [fold_left fst]. rewrite MARKET_ADJUSTMENTS_off_peak, MARKET_ADJUSTMENTS_weekend.
    ring.
  - apply Nat.leb_gt in Hd.
    replace (LeadScorer.clock_weekday (LeadScorer.clock env) <? 5)%nat with true
      by (symmetry; apply Nat.ltb_lt; exact Hd).
    rewrite andb_true_r.
    destruct ((9 <=? _)%nat && (_ <=? 17)%nat) eqn:Hh.
    + apply andb_true_iff in Hh as [H9 H17]. apply Nat.leb_le in H9, H17.
      split; [reflexivity|]. left. split; [lia|]. split; [reflexivity|].
      cbn [fold_left fst]. rewrite MARKET_ADJUSTMENTS_peak. ring.
    + split; [reflexivity|]. right. left. split.
      * split; [|exact Hd]. intros [H9 H17].
        apply Nat.leb_le in H9, H17. rewrite H9, H17 in Hh. discriminate Hh.
      * split; [reflexivity|]. cbn [fold_left fst]. rewrite MARKET_ADJUSTMENTS_off_peak.
        ring.
Qed.

Lemma round_half_even_mono (x y : Q) :
  (x <= y)%Q -> (round_half_even x <= round_half_even y)%Z.
Proof.
  intros Hxy. pose proof (Qfloor_resp_le _ _ Hxy) as Hf.
  destruct (Z.eq_dec (Qfloor x) (Qfloor y)) as [Heq|Hne].
  - unfold round_half_even. rewrite <- Heq.
    destruct (x - inject_Z (Qfloor x) ?= 1 # 2)%Q eqn:Cx;
      destruct (y - inject_Z (Qfloor x) ?= 1 # 2)%Q eqn:Cy;
      try (destruct (Z.even (Qfloor x))); try lia;
      exfalso;
      repeat match goal with
             | H : (_ ?= _)%Q = Eq |- _ => apply Qeq_alt in H
             | H : (_ ?= _)%Q = Lt |- _ => apply Qlt_alt in H
             | H : (_ ?= _)%Q = Gt |- _ => apply Qgt_alt in H
             end;
      lra.
  - pose proof (round_half_even_floor x) as [_ Hx].
    pose proof (round_half_even_floor y) as [Hy _]. lia.
Qed.

Lemma py_round2_mono (x y : Q) : (x <= y)%Q -> (py_round x 2 <= py_round y 2)%Q.
Proof.
  intros Hxy. unfold py_round.
  assert (H : (round_half_even (x * inject_Z (Z.pos (Pos.of_nat (10 ^ 2))))
               <= round_half_even (y * inject_Z (Z.pos (Pos.of_nat (10 ^ 2)))))%Z).
  { apply round_half_even_mono. apply Qmult_le_compat_r; [exact Hxy | discriminate]. }
  unfold Qle. cbn [Qnum Qden]. nia.
Qed.

Lemma py_max_mono (a b c : Q) : (a <= b)%Q -> (py_max a c <= py_max b c)%Q.
Proof.
  intros Hab. unfold py_max.
  destruct (Qle_bool c a) eqn:Ha; destruct (Qle_bool c b) eqn:Hb; cbn [negb];
    try (apply Qle_bool_iff in Ha); try (apply Qle_bool_iff in Hb);
    try (apply Qle_bool_false in Ha); try (apply Qle_bool_false in Hb); lra.
Qed.

Lemma py_min_mono (a b c : Q) : (a <= b)%Q -> (py_min a c <= py_min b c)%Q.
Proof.
  intros Hab. unfold py_min.
  destruct (Qle_bool a c) eqn:Ha; destruct (Qle_bool b c) eqn:Hb; cbn [negb];
    try (apply Qle_bool_iff in Ha); try (apply Qle_bool_iff in Hb);
    try (apply Qle_bool_false in Ha); try (apply Qle_bool_false in Hb); lra.
Qed.

Lemma PRICE_MULTIPLIERS_nonneg (vertical : string) :
  (0 <= default 1.0 (LeadScorer.PRICE_MULTIPLIERS !! vertical))%Q.
Proof.
  destruct (LeadScorer.PRICE_MULTIPLIERS !! vertical) as [m|] eqn:E; [|discriminate].
  apply elem_of_list_to_map_2 in E. cbn [default].
  repeat (apply elem_of_cons in E as [E|E]; [injection E as _ ->; discriminate|]).
  now apply elem_of_nil in E.
Qed.

Lemma MARKET_ADJUSTMENTS_nonneg (condition : string) (a : Q) :
  LeadScorer.MARKET_ADJUSTMENTS !! condition = Some a -> (0 <= a)%Q.
Proof.
  intros E. apply elem_of_list_to_map_2 in E.
  repeat (apply elem_of_cons in E as [E|E]; [injection E as _ ->; discriminate|]).
  now apply elem_of_nil in E.
Qed.

Lemma adjustments_mono (conditions : list (string * PyVal)) (p q : Q) :
  (p <= q)%Q ->
  (fold_left (fun p cond => match LeadScorer.MARKET_ADJUSTMENTS !! fst cond with
                            | Some adjustment => (p * adjustment)%Q
                            | None => p
                            end) conditions p
   <= fold_left (fun p cond => match LeadScorer.MARKET_ADJUSTMENTS !! fst cond with
                               | Some adjustment => (p * adjustment)%Q
                               | None => p
                               end) conditions q)%Q.
Proof.
  revert p q. induction conditions as [|c conditions IH]; intros p q Hpq; [exact Hpq|].
  cbn [fold_left]. apply IH.
  destruct (LeadScorer.MARKET_ADJUSTMENTS !! c.1) as [a|] eqn:E; [|exact Hpq].
  apply Qmult_le_compat_r; [exact Hpq | eapply MARKET_ADJUSTMENTS_nonneg, E].
Qed.

(** X19.  The price never falls when the score rises: for the same
    vertical, month and market conditions, a higher score is priced at
    least as high. *)
Theorem price_monotone_in_score (env : LeadScorer.Env) (self : LeadScorer.t)
    (score score' : Q) (market_conditions : list (string * PyVal)) :
  (score <= score')%Q ->
  (LeadScorer.calculate_price env self score market_conditions
   <= LeadScorer.calculate_price env self score' market_conditions)%Q.
Proof.
  intros Hs. unfold LeadScorer.calculate_price.
  apply py_round2_mono, py_min_mono, py_max_mono.
  unfold LeadScorer.unclamped_price.
  apply Qmult_le_compat_r; [|destruct (LeadScorer.key_month _); discriminate].
  apply adjustments_mono.
  apply Qmult_le_compat_r; [|apply PRICE_MULTIPLIERS_nonneg].
  lra.
Qed.

Lemma price_monotone_in_score_witness :
  (0.2 <= 0.85)%Q /\
  (LeadScorer.calculate_price Fixtures.env_april Fixtures.auto_scorer 0.2
     [("peak_hours", VBool true)]
   <= LeadScorer.calculate_price Fixtures.env_april Fixtures.auto_scorer 0.85
        [("peak_hours", VBool true)])%Q.
Proof.
  assert (H : (0.2 <= 0.85)%Q) by discriminate.
  split; [exact H|].
  exact (price_monotone_in_score Fixtures.env_april Fixtures.auto_scorer 0.2 0.85 _ H).
Defined.

Lemma calculate_price_bounds (env : LeadScorer.Env) (self : LeadScorer.t) (score : Q)
    (conditions : list (string * PyVal)) :
  (25 <= LeadScorer.calculate_price env self score conditions <= 500)%Q.
Proof.
  unfold LeadScorer.calculate_price. apply (py_round2_range _ 25 500).
  destruct (clamp_range (LeadScorer.unclamped_price
                           (ModelConfig._vertical (LeadScorer._config self))
                           (LeadScorer.clock_month (LeadScorer.clock env)) score conditions)
                        25.0 500.0) as [Hlo Hhi]; [discriminate|].
  split; [eapply Qle_trans; [|exact Hlo] | eapply Qle_trans; [exact Hhi|]]; discriminate.
Qed.

Lemma confidence_values (score : Q) :
  LeadScorer._calculate_confidence score = 0.7%Q \/
  LeadScorer._calculate_confidence score = 0.8%Q \/
  LeadScorer._calculate_confidence score = 0.9%Q.
Proof.
  unfold LeadScorer._calculate_confidence.
  destruct (_ || _); [now right; right|]. destruct (_ && _); [now left | now right; left].
Qed.

(** X20.  What [LeadScorer.score_lead] hands back.  A result carries the
    model's score for the first row, a price within [25, 500], a
    confidence of 0.7, 0.8 or 0.9 and the scorer's current threshold, and
    leaves the model, the threshold and the error counter alone.  Any
    failure on the way is raised as a [ValueError] whose message starts
    with 'Lead scoring failed: ', and counted once. *)
Theorem scorer_result_shape {FE : FeatureEngineer.External} {LE : LeadScorer.External}
    (env : LeadScorer.Env) (lead_data : LeadData) (self : LeadScorer.t)
    (g : LeadScorer.Globals) (fg : FeatureEngineer.Globals) :
  let out := LeadScorer.score_lead env lead_data (self, g, fg) in
  let self' := fst (fst (snd out)) in
  let g' := snd (fst (snd out)) in
  LeadScorer._model self' = LeadScorer._model self /\
  LeadScorer._threshold self' = LeadScorer._threshold self /\
  LeadScorer.MODEL_CACHE g' = LeadScorer.MODEL_CACHE g /\
  match fst out with
  | Ok r =>
      (25 <= LeadScorer.price r <= 500)%Q /\
      LeadScorer.price r
        = LeadScorer.calculate_price env self (LeadScorer.score r)
            (LeadScorer._get_market_conditions env) /\
      LeadScorer.confidence r = LeadScorer._calculate_confidence (LeadScorer.score r) /\
      (LeadScorer.confidence r = 0.7%Q \/ LeadScorer.confidence r = 0.8%Q \/
       LeadScorer.confidence r = 0.9%Q) /\
      LeadScorer.threshold r = LeadScorer._threshold self /\
      (exists model features rest,
         LeadScorer._model self = Some model /\
         fst (FeatureEngineer.transform_features (frame_of_lead lead_data) true
                (LeadScorer._feature_engineer self, fg))
         = Ok (features, LeadScorer.feature_importance r) /\
         LeadScorer.predict model features = Ok (LeadScorer.score r :: rest)) /\
      LeadScorer.SCORING_ERRORS g' = LeadScorer.SCORING_ERRORS g
  | Raise e =>
      (exists msg, e = ValueError ("Lead scoring failed: " ++ msg)) /\
      LeadScorer.SCORING_ERRORS g' = S (LeadScorer.SCORING_ERRORS g)
  end.
Proof.
  cbv zeta. unfold LeadScorer.score_lead, LeadScorer.score_lead_body.
  destruct (FeatureEngineer.transform_features _ true _)
    as [[[features importance]|e] [fe fg']] eqn:Ht.
  2:{ cbn. repeat split; eauto. }
  cbn [LeadScorer._model LeadScorer._threshold LeadScorer._enable_monitoring
       LeadScorer._config].
  destruct (LeadScorer._model self) as [model|] eqn:Hm.
  2:{ cbn. repeat split; eauto. }
  destruct (LeadScorer.predict model features) as [[|y ys]|e] eqn:Hp; cbn [mbind Result_bind].
  1,3: cbn; repeat split; eauto.
  assert (Hres : forall g1 : LeadScorer.Globals,
            LeadScorer.SCORING_ERRORS g1 = LeadScorer.SCORING_ERRORS g ->
            let r := {| LeadScorer.score := y;
                        LeadScorer.price :=
                          LeadScorer.calculate_price env
                            (LeadScorer.mk (LeadScorer._config self) fe (Some model)
                               (LeadScorer._threshold self)
                               (LeadScorer._enable_monitoring self))
                            y (LeadScorer._get_market_conditions env);
                        LeadScorer.confidence := LeadScorer._calculate_confidence y;
                        LeadScorer.feature_importance := importance;
                        LeadScorer.threshold := LeadScorer._threshold self;
                        LeadScorer.latency_ms := 0 |} in
            (25 <= LeadScorer.price r <= 500)%Q /\
            LeadScorer.price r
              = LeadScorer.calculate_price env self (LeadScorer.score r)
                  (LeadScorer._get_market_conditions env) /\
            LeadScorer.confidence r = LeadScorer._calculate_confidence (LeadScorer.score r) /\
            (LeadScorer.confidence r = 0.7%Q \/ LeadScorer.confidence r = 0.8%Q \/
             LeadScorer.confidence r = 0.9%Q) /\
            LeadScorer.threshold r = LeadScorer._threshold self /\
            (exists model0 features0 rest,
               Some model = Some model0 /\
               Ok (features, importance) = Ok (features0, LeadScorer.feature_importance r) /\
               LeadScorer.predict model0 features0 = Ok (LeadScorer.score r :: rest)) /\
            LeadScorer.SCORING_ERRORS g1 = LeadScorer.SCORING_ERRORS g).
  { intros g1 Hg1. cbv zeta. cbn [LeadScorer.price LeadScorer.score LeadScorer.confidence
                                  LeadScorer.threshold].
    split; [apply calculate_price_bounds|]. split; [reflexivity|]. split; [reflexivity|].
    split; [apply confidence_values|]. split; [reflexivity|]. split; [|exact Hg1].
    exists model, features, ys. split; [reflexivity|]. split; [reflexivity | exact Hp]. }
  destruct (LeadScorer._enable_monitoring self).
  - destruct (LeadScorer.at_least y (LeadScorer._threshold self)) as [accepted|e].
    + cbn [fst snd LeadScorer._model LeadScorer._threshold LeadScorer.MODEL_CACHE].
      split; [reflexivity|]. split; [reflexivity|]. split; [reflexivity|].
      apply Hres. reflexivity.
    + cbn. repeat split; eauto.
  - cbn [fst snd LeadScorer._model LeadScorer._threshold LeadScorer.MODEL_CACHE].
    split; [reflexivity|]. split; [reflexivity|]. split; [reflexivity|].
    apply Hres. reflexivity.
Qed.

(** ** Importance scores of a transform *)

Lemma assoc_get_Forall {K A} `{EqDecision K} (P : K * A -> Prop) (k : K) (v : A)
    (l : list (K * A)) :
  Forall P l -> assoc_get k l = Some v -> P (k, v).
Proof.
  induction 1 as [|[k' v'] l Hx _ IH]; simpl; [intros H; discriminate H|].
  case_bool_decide as Hk; [intros [= <-]; now subst | exact IH].
Qed.

Lemma assoc_set_Forall_any {K A} `{EqDecision K} (P : K * A -> Prop) (k : K) (v : A)
    (l : list (K * A)) :
  P (k, v) -> Forall P l -> Forall P (assoc_set k v l).
Proof.
  intros Hkv. induction 1 as [|[k' v'] l Hx Hl IH]; simpl.
  - constructor; [exact Hkv | constructor].
  - case_bool_decide; constructor; auto.
Qed.

(** X21.  The importance scores returned with a feature matrix are
    always empty: a computed result carries the empty dict of
    [_calculate_feature_importance], and a cached one was stored by an
    earlier call.  The cache keeps that property. *)
Theorem importance_scores_always_empty {FE : FeatureEngineer.External} (data : DataFrame)
    (return_importance : bool) (self self' : FeatureEngineer.t)
    (g g' : FeatureEngineer.Globals) (features : FeatureEngineer.Matrix)
    (importance : list (string * Q)) :
  cache_without_importance g ->
  FeatureEngineer.transform_features data return_importance (self, g)
    = (Ok (features, importance), (self', g')) ->
  importance = [] /\ cache_without_importance g'.
Proof.
  intros Hinv. unfold FeatureEngineer.transform_features.
  destruct (FeatureEngineer._validate_input_data self data); [|intros H; discriminate H].
  destruct (if FeatureEngineer._use_cache self
            then assoc_get data (FeatureEngineer.PREPROCESSOR_CACHE g) else None)
    as [hit|] eqn:Hhit.
  { intros [= -> <- <-]. split; [|exact Hinv].
    destruct (FeatureEngineer._use_cache self); [|discriminate Hhit].
    exact (assoc_get_Forall _ _ _ _ Hinv Hhit). }
  unfold mbind, Result_bind.
  destruct (FeatureEngineer.fc_list _ "numerical_features"); [|intros H; discriminate H].
  destruct (FeatureEngineer.select_columns _ data); [|intros H; discriminate H].
  destruct (FeatureEngineer.fc_list _ "categorical_features"); [|intros H; discriminate H].
  destruct (FeatureEngineer.select_columns _ data); [|intros H; discriminate H].
  destruct (FeatureEngineer.fc_list _ "text_features"); [|intros H; discriminate H].
  destruct (FeatureEngineer.select_columns _ data); [|intros H; discriminate H].
  destruct (FeatureEngineer.process_groups _ _ _ self) as [[blocks|e] s1];
    [|intros H; discriminate H].
  destruct (FeatureEngineer._update_feature_stats _ data); [|intros H; discriminate H].
  unfold FeatureEngineer._calculate_feature_importance.
  replace (if return_importance then [] else []) with (@nil (string * Q))
    by now destruct return_importance.
  intros [= <- <- <- <-]. split; [reflexivity|].
  match goal with
  | |- cache_without_importance (if ?b then _ else _) => destruct b; [|exact Hinv]
  end.
  unfold cache_without_importance. cbn [FeatureEngineer.PREPROCESSOR_CACHE].
  apply assoc_set_Forall_any; [reflexivity | exact Hinv].
Qed.

Lemma importance_scores_always_empty_witness :
  cache_without_importance Fixtures.no_globals /\
  fst (FeatureEngineer.transform_features (FE:=Fixtures.stats_present)
         (frame_of_lead Fixtures.auto_lead) true
         (Samples.caching_engineer, Fixtures.no_globals))
  = Ok (Fixtures.auto_lead_features, []) /\
  cache_without_importance (snd Samples.caching_engineer_after).
Proof.
  assert (H0 : cache_without_importance Fixtures.no_globals) by constructor.
  pose proof (importance_scores_always_empty (FE:=Fixtures.stats_present)
                (frame_of_lead Fixtures.auto_lead) true Samples.caching_engineer
                (fst Samples.caching_engineer_after) Fixtures.no_globals
                (snd Samples.caching_engineer_after) Fixtures.auto_lead_features []
                H0 ltac:(vm_compute; reflexivity)) as [_ H].
  split; [exact H0|]. split; [vm_compute; reflexivity | exact H].
Defined.

(** ** Scoring service *)

Lemma clip01_range (x : Q) : (0 <= ScoringService.clip01 x <= 1)%Q.
Proof.
  unfold ScoringService.clip01.
  destruct (Qle_bool 0 x) eqn:H0; cbn [negb]; [|split; discriminate].
  destruct (Qle_bool x 1) eqn:H1; cbn [negb]; [|split; discriminate].
  apply Qle_bool_iff in H0, H1. now split.
Qed.

Lemma clip01_id (x : Q) : (0 <= x <= 1)%Q -> ScoringService.clip01 x = x.
Proof.
  intros [H0 H1]. unfold ScoringService.clip01.
  apply Qle_bool_iff in H0, H1. now rewrite H0, H1.
Qed.

Lemma service_price_bounds (vertical : string) (score : Q)
    (feature_importance : list (string * Q)) :
  (25 <= ScoringService._calculate_price vertical score feature_importance <= 500)%Q.
Proof.
  unfold ScoringService._calculate_price. apply (py_round2_range _ 25 500).
  match goal with
  | |- (_ <= py_min (py_max ?raw _) _ <= _)%Q =>
      destruct (clamp_range raw 25.0 500.0) as [Hlo Hhi]; [discriminate|]
  end.
  split; [eapply Qle_trans; [|exact Hlo] | eapply Qle_trans; [exact Hhi|]]; discriminate.
Qed.

Lemma fold_adjustments_skipped (adjustments : list (string * Q)) (score : Q) :
  fold_left (fun adjusted (fv : string * Q) => adjusted) adjustments score = score.
Proof. induction adjustments as [|fv l IH]; [reflexivity | exact IH]. Qed.

(** X22.  Market adjustments are applied to every score but the middle
    ones: a score between 0.4 and 0.6 has confidence 0.7, below the 0.8
    the adjustments ask for, and is passed on as it is; any other score is
    multiplied by every adjustment factor of the vertical.  The outcome
    is clipped to [0, 1] in both cases. *)
Theorem adjustments_skip_middle_scores (vertical : string) (score : Q)
    (self : ScoringService.t) :
  let adjustments := default [] (ScoringService._market_adjustments self !! vertical) in
  let adjusted :=
    ScoringService._apply_market_adjustments vertical score
      (LeadScorer._calculate_confidence score) self in
  (0 <= adjusted <= 1)%Q /\
  ((0.4 <= score <= 0.6)%Q -> adjusted = score) /\
  (~ (0.4 <= score <= 0.6)%Q ->
   adjusted = ScoringService.clip01
                (fold_left (fun a (fv : string * Q) => (a * snd fv)%Q) adjustments score)).
Proof.
  cbv zeta. split; [apply clip01_range|].
  unfold ScoringService._apply_market_adjustments, LeadScorer._calculate_confidence.
  destruct (Qle_bool score 0.8) eqn:H8; cbn [negb orb].
  2:{ apply Qle_bool_false in H8. change (Qle_bool 0.8 0.9) with true. cbv beta iota.
      split; [intros [_ H]; lra | reflexivity]. }
  destruct (Qle_bool 0.2 score) eqn:H2; cbn [negb orb].
  2:{ apply Qle_bool_false in H2. change (Qle_bool 0.8 0.9) with true. cbv beta iota.
      split; [intros [H _]; lra | reflexivity]. }
  apply Qle_bool_iff in H8, H2.
  destruct (Qle_bool 0.4 score) eqn:H4; cbn [andb].
  2:{ apply Qle_bool_false in H4. change (Qle_bool 0.8 0.8) with true. cbv beta iota.
      split; [intros [H _]; lra | reflexivity]. }
  destruct (Qle_bool score 0.6) eqn:H6.
  2:{ apply Qle_bool_false in H6. change (Qle_bool 0.8 0.8) with true. cbv beta iota.
      split; [intros [_ H]; lra | reflexivity]. }
  apply Qle_bool_iff in H4, H6. change (Qle_bool 0.8 0.7) with false. cbv beta iota.
  rewrite fold_adjustments_skipped. split.
  - intros _. apply clip01_id. split; lra.
  - intros H. exfalso. apply H. now split.
Qed.

Section Service.

Context {CE : ConfigExternal} {FE : FeatureEngineer.External}
        {LE : LeadScorer.External} {SE : ScoringService.External}.

Lemma scorer_ok_confidence env lead st r st' :
  LeadScorer.score_lead env lead st = (Ok r, st') ->
  LeadScorer.confidence r = LeadScorer._calculate_confidence (LeadScorer.score r).
Proof.
  destruct st as [[self g] fg]. unfold LeadScorer.score_lead, LeadScorer.score_lead_body.
  destruct (FeatureEngineer.transform_features _ true _)
    as [[[features importance]|e] [fe fg']]; [|intros H; discriminate H].
  cbn [LeadScorer._model LeadScorer._threshold LeadScorer._enable_monitoring].
  destruct (LeadScorer._model self) as [model|]; [|intros H; discriminate H].
  destruct (LeadScorer.predict model features) as [[|y ys]|e]; cbn [mbind Result_bind];
    try (intros H; discriminate H).
  destruct (LeadScorer._enable_monitoring self).
  - destruct (LeadScorer.at_least _ _); [|intros H; discriminate H].
    intros [= <- _]. reflexivity.
  - intros [= <- _]. reflexivity.
Qed.

Lemma service_response_bounds vertical lead_data s s' r :
  ScoringService.score_lead vertical lead_data s = (Ok r, s') ->
  (0 <= ScoringService.score r <= 1)%Q /\ (25 <= ScoringService.price r <= 500)%Q.
Proof.
  destruct s as [self w]. unfold ScoringService.score_lead, ScoringService.score_lead_body.
  destruct (bool_decide (vertical = "") || bool_decide (lead_data = []));
    [intros H; discriminate H|].
  destruct (ScoringService.circuit_open vertical self).
  { intros [= <- _]. split; split; discriminate. }
  destruct (ScoringService._get_scorer vertical (self, w)) as [[scorer|e] [self1 w1]];
    [|intros H; discriminate H].
  destruct (LeadScorer.score_lead _ lead_data _) as [[sr|e] [[scorer' g'] fg']];
    [|intros H; discriminate H].
  destruct (ScoringService.get_model_version scorer') as [version|e];
    [|intros H; discriminate H].
  intros [= <- _]. split; [apply clip01_range | apply service_price_bounds].
Qed.

(** X23.  Whatever [ScoringService.score_lead] returns is a score within
    [0, 1] and a price within [25, 500].  The fallback is returned
    exactly when the breaker of the vertical was open, and then nothing
    is changed; any other response carries the scorer's confidence for
    the unadjusted score and leaves the vertical with no counted error
    and a closed breaker. *)
Theorem service_response_ranges (vertical : string) (lead_data : LeadData)
    (s s' : ScoringService.t * ScoringService.World) (r : ScoringService.Response) :
  ScoringService.score_lead vertical lead_data s = (Ok r, s') ->
  (0 <= ScoringService.score r <= 1)%Q /\
  (25 <= ScoringService.price r <= 500)%Q /\
  (ScoringService.fallback r = ScoringService.circuit_open vertical (fst s)) /\
  (ScoringService.fallback r = true ->
   r = ScoringService._get_fallback_score vertical (fst s) /\ s' = s) /\
  (ScoringService.fallback r = false ->
   (exists y, ScoringService.original_score r = Some y /\
              ScoringService.confidence r = LeadScorer._calculate_confidence y /\
              ScoringService.score r
              = ScoringService._apply_market_adjustments vertical y
                  (ScoringService.confidence r) (fst s')) /\
   ScoringService.error_count vertical (fst s') = 0%nat /\
   ScoringService.circuit_open vertical (fst s') = false).
Proof.
  destruct s as [self w]. unfold ScoringService.score_lead, ScoringService.score_lead_body.
  destruct (bool_decide (vertical = "") || bool_decide (lead_data = []));
    [intros H; discriminate H|].
  cbn [fst]. destruct (ScoringService.circuit_open vertical self) eqn:Hopen.
  { intros [= <- <-]. cbn [ScoringService._get_fallback_score ScoringService.score
                           ScoringService.price ScoringService.fallback].
    split; [split; discriminate|]. split; [split; discriminate|]. split; [reflexivity|].
    split; [intros _; now split | intros H; discriminate H]. }
  destruct (ScoringService._get_scorer vertical (self, w)) as [[scorer|e] [self1 w1]];
    [|intros H; discriminate H].
  destruct (LeadScorer.score_lead _ lead_data _) as [[sr|e] [[scorer' g'] fg']] eqn:Hsc;
    [|intros H; discriminate H].
  destruct (ScoringService.get_model_version scorer') as [version|e];
    [|intros H; discriminate H].
  intros [= <- <-].
  cbn [ScoringService.score ScoringService.price ScoringService.fallback
       ScoringService.original_score ScoringService.confidence fst].
  split; [apply clip01_range|]. split; [apply service_price_bounds|].
  split; [reflexivity|]. split; [intros H; discriminate H|]. intros _.
  split; [|apply record_success_state].
  exists (LeadScorer.score sr). split; [reflexivity|].
  split; [eapply scorer_ok_confidence, Hsc | reflexivity].
Qed.

(** *** One vertical does not disturb another *)

Ltac same_for_done :=
  unfold same_for, ScoringService.error_count, ScoringService.circuit_open,
    ScoringService.set_scorer;
  cbn [ScoringService._scorers ScoringService._configs ScoringService._thresholds
       ScoringService._market_adjustments ScoringService._error_counts
       ScoringService._circuit_open];
  rewrite ?lookup_insert_ne, ?assoc_get_set_ne by congruence;
  repeat match goal with |- _ /\ _ => split end; reflexivity.

Lemma same_for_refl v a : same_for v a a.
Proof. same_for_done. Qed.

Lemma same_for_trans v a b c : same_for v a b -> same_for v b c -> same_for v a c.
Proof.
  unfold same_for. intros (H1 & H2 & H3 & H4 & H5 & H6) (K1 & K2 & K3 & K4 & K5 & K6).
  repeat match goal with |- _ /\ _ => split end; congruence.
Qed.

Lemma set_scorer_same_for v v' scorer a : v' <> v ->
  same_for v' a (ScoringService.set_scorer v scorer a).
Proof. intros Hne. same_for_done. Qed.

Lemma record_success_same_for v v' a : v' <> v ->
  same_for v' a (ScoringService._record_success v a).
Proof. intros Hne. unfold ScoringService._record_success. same_for_done. Qed.

Lemma record_error_same_for v v' a : v' <> v ->
  same_for v' a (ScoringService._record_error v a).
Proof.
  intros Hne. unfold ScoringService._record_error.
  destruct (5 <=? _)%nat; same_for_done.
Qed.

Lemma get_scorer_same_for v v' s r s' : v' <> v ->
  ScoringService._get_scorer v s = (r, s') -> same_for v' (fst s) (fst s').
Proof.
  intros Hne. destruct s as [self w], s' as [self' w'].
  unfold ScoringService._get_scorer. cbn [fst].
  destruct (assoc_get v (ScoringService._scorers self));
    [intros [= _ <- _]; apply same_for_refl|].
  destruct (LeadScorer.__init__ _ v true _) as [[scorer|e] g];
    [|intros [= _ <- _]; apply same_for_refl].
  destruct (ModelConfig.__init__ v None true) as [config|e];
    [|intros [= _ <- _]; now apply set_scorer_same_for].
  destruct (ModelConfig.get_scoring_threshold config) as [[th|e] config'];
    [|intros [= _ <- _]; same_for_done].
  destruct (get_market_adjustments config'); intros [= _ <- _]; same_for_done.
Qed.

(** X24.  Verticals are kept apart: a call of [score_lead] for one
    vertical, whatever its outcome, leaves the scorer, the configuration,
    the threshold, the market adjustments, the error counter and the
    breaker of every other vertical as they were. *)
Theorem verticals_are_isolated (vertical other : string) (lead_data : LeadData)
    (s : ScoringService.t * ScoringService.World) :
  other <> vertical ->
  same_for other (fst s) (fst (snd (ScoringService.score_lead vertical lead_data s))).
Proof.
  intros Hne. destruct s as [self w].
  unfold ScoringService.score_lead, ScoringService.score_lead_body.
  destruct (bool_decide (vertical = "") || bool_decide (lead_data = []));
    [now apply record_error_same_for|].
  cbn [fst]. destruct (ScoringService.circuit_open vertical self); [apply same_for_refl|].
  destruct (ScoringService._get_scorer vertical (self, w)) as [[scorer|e] [self1 w1]] eqn:Hg;
    apply (get_scorer_same_for _ _ _ _ _ Hne) in Hg; cbn [fst] in Hg.
  2:{ eapply same_for_trans; [exact Hg | now apply record_error_same_for]. }
  destruct (LeadScorer.score_lead _ lead_data _) as [[sr|e] [[scorer' g'] fg']].
  2:{ cbn [fst snd]. eapply same_for_trans; [|apply record_error_same_for; exact Hne].
      eapply same_for_trans; [exact Hg | apply set_scorer_same_for; exact Hne]. }
  destruct (ScoringService.get_model_version scorer') as [version|e]; cbn [fst snd].
  - eapply same_for_trans; [|apply record_success_same_for; exact Hne].
    eapply same_for_trans; [exact Hg | apply set_scorer_same_for; exact Hne].
  - eapply same_for_trans; [|apply record_error_same_for; exact Hne].
    eapply same_for_trans; [|apply record_success_same_for; exact Hne].
    eapply same_for_trans; [exact Hg | apply set_scorer_same_for; exact Hne].
Qed.

(** *** A service without scorers *)

Lemma scorer_never_constructed env vertical enable_monitoring g :
  exists msg, LeadScorer.__init__ env vertical enable_monitoring g = (Raise (ValueError msg), g).
Proof.
  unfold LeadScorer.__init__.
  destruct (construct_never_succeeds vertical None true) as [msg ->]. eauto.
Qed.

Lemma record_error_scorers v a :
  ScoringService._scorers (ScoringService._record_error v a) = ScoringService._scorers a.
Proof. reflexivity. Qed.

Lemma unregistered_not_scored vertical lead_data self w :
  assoc_get vertical (ScoringService._scorers self) = None ->
  let out := ScoringService.score_lead vertical lead_data (self, w) in
  not_scored (fst out) /\
  ScoringService._scorers (fst (snd out)) = ScoringService._scorers self.
Proof.
  intros Hnone. cbv zeta.
  unfold ScoringService.score_lead, ScoringService.score_lead_body.
  destruct (bool_decide (vertical = "") || bool_decide (lead_data = []));
    [split; [eexists; reflexivity | reflexivity]|].
  destruct (ScoringService.circuit_open vertical self);
    [split; [split; reflexivity | reflexivity]|].
  unfold ScoringService._get_scorer. rewrite Hnone.
  destruct (scorer_never_constructed (ScoringService.env w) vertical true
              (ScoringService.scorer_globals w)) as [msg ->].
  split; [eexists; reflexivity | reflexivity].
Qed.

(** X25.  A service that holds no scorer never gets one: building a
    scorer needs a [ModelConfig], and none can be built.  Every request
    to such a service, for any vertical and any record, therefore fails
    or is answered with the fallback, and the registry stays empty. *)
Theorem empty_service_never_scores (requests : list (string * LeadData))
    (self : ScoringService.t) (w : ScoringService.World) :
  ScoringService._scorers self = [] ->
  let out := score_requests requests (self, w) in
  Forall not_scored (fst out) /\
  length (fst out) = length requests /\
  ScoringService._scorers (fst (snd out)) = [].
Proof.
  cbv zeta. revert self w.
  induction requests as [|[vertical record] requests IH]; intros self w Hempty.
  - split; [constructor | split; [reflexivity | exact Hempty]].
  - cbn [score_requests].
    assert (Hnone : assoc_get vertical (ScoringService._scorers self) = None)
      by now rewrite Hempty.
    pose proof (unregistered_not_scored vertical record self w Hnone) as [Hout Hreg].
    cbv zeta in Hout, Hreg.
    destruct (ScoringService.score_lead vertical record (self, w)) as [out [self1 w1]].
    cbn [fst snd] in Hout, Hreg. rewrite Hempty in Hreg.
    specialize (IH self1 w1 Hreg).
    destruct (score_requests requests (self1, w1)) as [outs s2].
    cbn [fst snd length] in *. destruct IH as (IH1 & IH2 & IH3).
    split; [constructor; assumption|]. split; [now rewrite IH2 | exact IH3].
Qed.

(** *** Reloading and the breaker *)

Lemma assoc_set_keys {A} (k : string) (v v0 : A) (l : list (string * A)) :
  assoc_get k l = Some v0 -> map fst (assoc_set k v l) = map fst l.
Proof.
  induction l as [|[k' v'] l IH]; simpl; [intros H; discriminate H|].
  case_bool_decide as Hk; simpl; [now subst|]. intros H. now rewrite IH.
Qed.

Lemma reload_one_same_breaker vertical s r s' :
  ScoringService.reload_one vertical s = (r, s') -> same_breaker (fst s) (fst s').
Proof.
  destruct s as [self w], s' as [self' w']. unfold ScoringService.reload_one. cbn [fst].
  destruct (assoc_get vertical (ScoringService._scorers self)) as [scorer|] eqn:Hs;
    [|intros [= _ <- _]; now repeat split].
  assert (Hkeys : forall sc, map fst (assoc_set vertical sc (ScoringService._scorers self))
                             = map fst (ScoringService._scorers self))
    by (intros sc; eapply assoc_set_keys, Hs).
  destruct (LeadScorer.reload_model _ _) as [[ok|e] [scorer' g']];
    [|intros [= _ <- _]; split; [reflexivity|]; split; [reflexivity | apply Hkeys]].
  destruct (ScoringService.get_model_version scorer' ≫= ScoringService.py_float_of)
    as [version|e];
    [|intros [= _ <- _]; split; [reflexivity|]; split; [reflexivity | apply Hkeys]].
  destruct (ModelConfig.__init__ vertical None true) as [config|e];
    [|intros [= _ <- _]; split; [reflexivity|]; split; [reflexivity | apply Hkeys]].
  destruct (ModelConfig.get_scoring_threshold config) as [[th|e] config'];
    [|intros [= _ <- _]; split; [reflexivity|]; split; [reflexivity | apply Hkeys]].
  destruct (get_market_adjustments config');
    [|intros [= _ <- _]; split; [reflexivity|]; split; [reflexivity | apply Hkeys]].
  destruct (ScoringService.get_model_version scorer');
    intros [= _ <- _]; (split; [reflexivity|]; split; [reflexivity | apply Hkeys]).
Qed.

Lemma reload_loop_same_breaker verticals acc s :
  same_breaker (fst s) (fst (snd (ScoringService.reload_loop verticals acc s))).
Proof.
  revert acc s. induction verticals as [|v verticals IH]; intros acc s;
    cbn [ScoringService.reload_loop]; [now repeat split|].
  destruct (ScoringService.reload_one v s) as [[status|e] s1] eqn:Hone;
    apply reload_one_same_breaker in Hone; cbn [fst] in Hone;
    (destruct Hone as (H1 & H2 & H3);
     match goal with
     | |- same_breaker _ (fst (snd (ScoringService.reload_loop _ ?acc' _))) =>
         destruct (IH acc' s1) as (K1 & K2 & K3)
     end;
     split; [congruence|]; split; congruence).
Qed.

(** X26.  [reload_models] always returns a status map and never
    raises, and it does not touch the breaker: error counters, open
    breakers and the set of registered verticals are the same after a
    reload, so a vertical whose breaker is open stays on the fallback. *)
Theorem reload_keeps_breaker (s : ScoringService.t * ScoringService.World) :
  let out := ScoringService.reload_models s in
  is_ok (fst out) = true /\
  ScoringService._error_counts (fst (snd out)) = ScoringService._error_counts (fst s) /\
  ScoringService._circuit_open (fst (snd out)) = ScoringService._circuit_open (fst s) /\
  map fst (ScoringService._scorers (fst (snd out)))
    = map fst (ScoringService._scorers (fst s)) /\
  (forall vertical record,
     vertical <> "" -> record <> [] ->
     ScoringService.circuit_open vertical (fst s) = true ->
     fst (ScoringService.score_lead vertical record (snd out))
     = Ok (ScoringService._get_fallback_score vertical (fst (snd out)))).
Proof.
  cbv zeta. unfold ScoringService.reload_models.
  pose proof (reload_loop_same_breaker (map fst (ScoringService._scorers (fst s))) [] s)
    as (H1 & H2 & H3).
  destruct (ScoringService.reload_loop _ [] s) as [statuses [self' w']].
  cbn [fst snd] in *. split; [reflexivity|]. split; [exact H1|]. split; [exact H2|].
  split; [exact H3|]. intros vertical record Hv Hr Hopen.
  rewrite score_lead_open; [reflexivity | exact Hv | exact Hr |].
  unfold ScoringService.circuit_open in *. now rewrite H2.
Qed.

End Service.

Lemma verticals_are_isolated_witness :
  "home" <> "auto" /\
  ScoringService.error_count "auto"
    (fst (snd (ScoringService.score_lead (CE:=Fixtures.config_present)
                 (FE:=Fixtures.stats_present) (LE:=Fixtures.booster_085)
                 (SE:=Fixtures.version_present) "auto" []
                 Fixtures.service_after_five_rejections))) = 6%nat /\
  same_for "home" (fst Fixtures.service_after_five_rejections)
    (fst (snd (ScoringService.score_lead (CE:=Fixtures.config_present)
                 (FE:=Fixtures.stats_present) (LE:=Fixtures.booster_085)
                 (SE:=Fixtures.version_present) "auto" []
                 Fixtures.service_after_five_rejections))).
Proof.
  assert (Hne : "home" <> "auto") by discriminate.
  split; [exact Hne|]. split; [vm_compute; reflexivity|].
  exact (verticals_are_isolated (CE:=Fixtures.config_present) (FE:=Fixtures.stats_present)
           (LE:=Fixtures.booster_085) (SE:=Fixtures.version_present)
           "auto" "home" [] Fixtures.service_after_five_rejections Hne).
Defined.

Lemma service_response_ranges_witness :
  ScoringService.score_lead (CE:=Fixtures.config_present) (FE:=Fixtures.stats_present)
    (LE:=Fixtures.booster_085) (SE:=Fixtures.version_present)
    "auto" Fixtures.auto_lead Fixtures.registered_service
  = (Ok Samples.auto_response, Samples.registered_service_after) /\
  (0 <= ScoringService.score Samples.auto_response <= 1)%Q /\
  (25 <= ScoringService.price Samples.auto_response <= 500)%Q.
Proof.
  assert (H : ScoringService.score_lead (CE:=Fixtures.config_present)
                (FE:=Fixtures.stats_present) (LE:=Fixtures.booster_085)
                (SE:=Fixtures.version_present)
                "auto" Fixtures.auto_lead Fixtures.registered_service
              = (Ok Samples.auto_response, Samples.registered_service_after))
    by (vm_compute; reflexivity).
  split; [exact H|].
  pose proof (service_response_ranges (CE:=Fixtures.config_present)
                (FE:=Fixtures.stats_present) (LE:=Fixtures.booster_085)
                (SE:=Fixtures.version_present) _ _ _ _ _ H) as (Hs & Hp & _).
  split; [exact Hs | exact Hp].
Defined.

Lemma empty_service_never_scores_witness :
  ScoringService._scorers ScoringService.__init__ = [] /\
  Forall not_scored
    (fst (score_requests (CE:=Fixtures.config_present) (FE:=Fixtures.stats_present)
            (LE:=Fixtures.booster_085) (SE:=Fixtures.version_present)
            [("auto", Fixtures.auto_lead); ("home", [("age", VNum 40)])]
            Fixtures.fresh_service)).
Proof.
  split; [reflexivity|].
  exact (proj1 (empty_service_never_scores (CE:=Fixtures.config_present)
                  (FE:=Fixtures.stats_present) (LE:=Fixtures.booster_085)
                  (SE:=Fixtures.version_present)
                  [("auto", Fixtures.auto_lead); ("home", [("age", VNum 40)])]
                  ScoringService.__init__ Fixtures.world_april eq_refl)).
Defined.

(** ** HTTP routes *)

(** X27.  The handler of [POST /score] never answers 500.  Every
    failure of the service reaches it as a [ValueError], so it is
    answered 400 with the service's message and counted as a validation
    error - a missing model or a failing predictor included.  A returned
    body carries the request's session id, a score within [0, 1] and a
    price within [25, 500], and schedules one analytics task.  The
    request counter and the latency histogram are fed once in every
    case. *)
Theorem score_route_never_answers_500 {CE : ConfigExternal}
    {FE : FeatureEngineer.External} {LE : LeadScorer.External}
    {SE : ScoringService.External} (request : ScoringRoutes.LeadRequest)
    (service : ScoringService.t) (w : ScoringService.World) (m : ScoringRoutes.Metrics) :
  let out := ScoringRoutes.score_lead request (service, w, m) in
  let v := ScoringRoutes.vertical request in
  let m' := snd (snd out) in
  ScoringRoutes.REQUEST_COUNTER m' = (ScoringRoutes.REQUEST_COUNTER m ++ [v])%list /\
  ScoringRoutes.LATENCY_HISTOGRAM m' = (ScoringRoutes.LATENCY_HISTOGRAM m ++ [v])%list /\
  fst (snd out)
    = snd (ScoringService.score_lead v (ScoringRoutes.lead_data request) (service, w)) /\
  match fst out with
  | ScoringRoutes.Returned result request_id processing_time tasks =>
      request_id = ScoringRoutes.session_id request /\
      (0 <= ScoringService.score result <= 1)%Q /\
      (25 <= ScoringService.price result <= 500)%Q /\
      tasks = [(v, ScoringService.score result, ScoringService.confidence result)] /\
      ScoringRoutes.ERROR_COUNTER m' = ScoringRoutes.ERROR_COUNTER m
  | ScoringRoutes.HTTPException status_code detail =>
      status_code = 400%nat /\
      (exists msg, detail = "Lead scoring failed: " ++ msg) /\
      ScoringRoutes.ERROR_COUNTER m'
      = (ScoringRoutes.ERROR_COUNTER m ++ [(v, "validation_error")])%list
  end.
Proof.
  cbv zeta. unfold ScoringRoutes.score_lead.
  destruct (ScoringService.score_lead _ _ (service, w)) as [[r|e] [service' w']] eqn:Hs.
  - cbn [fst snd ScoringRoutes.REQUEST_COUNTER ScoringRoutes.LATENCY_HISTOGRAM
         ScoringRoutes.ERROR_COUNTER].
    split; [reflexivity|]. split; [reflexivity|]. split; [reflexivity|].
    destruct (service_response_bounds _ _ _ _ _ Hs) as [Hscore Hprice].
    split; [reflexivity|]. split; [exact Hscore|]. split; [exact Hprice|].
    split; reflexivity.
  - assert (He : exists msg, e = ValueError ("Lead scoring failed: " ++ msg)).
    { unfold ScoringService.score_lead in Hs.
      destruct (ScoringService.score_lead_body _ _ _) as [[r|e0] [self1 w1]];
        [discriminate Hs|]. injection Hs as <- _ _. eauto. }
    destruct He as [msg ->].
    cbn [fst snd ScoringRoutes.REQUEST_COUNTER ScoringRoutes.LATENCY_HISTOGRAM
         ScoringRoutes.ERROR_COUNTER].
    split; [reflexivity|]. split; [reflexivity|]. split; [reflexivity|].
    split; [reflexivity|]. split; [eauto | reflexivity].
Qed.

Lemma list_to_map_is_Some (l : list (string * Q)) (k : string) :
  is_Some ((list_to_map l : gmap string Q) !! k) <-> k ∈ map fst l.
Proof.
  rewrite <- not_eq_None_Some. rewrite <- (not_elem_of_list_to_map (M:=gmap string)).
  split; [|tauto]. intros H. destruct (decide (k ∈ l.*1)) as [Hin|Hn]; [exact Hin|tauto].
Qed.

(** X28.  The verticals a request may name are exactly those both
    price tables know: [validate_vertical] accepts a vertical if and only
    if the scorer's [PRICE_MULTIPLIERS] and the service's multiplier table
    have an entry for it.  Only 'auto' and 'home' among them have a
    feature configuration. *)
Theorem accepted_verticals_are_priced (v : string) :
  (ScoringRoutes.validate_vertical v = Ok v
   <-> is_Some (LeadScorer.PRICE_MULTIPLIERS !! v)) /\
  (ScoringRoutes.validate_vertical v = Ok v
   <-> is_Some (ScoringService.multipliers !! v)) /\
  (is_Some (ModelConfig.FEATURE_CONFIG !! v) <-> v = "auto" \/ v = "home") /\
  (is_Some (ModelConfig.FEATURE_CONFIG !! v) -> ScoringRoutes.validate_vertical v = Ok v).
Proof.
  assert (Hv : ScoringRoutes.validate_vertical v = Ok v
               <-> v ∈ ScoringRoutes.valid_verticals).
  { unfold ScoringRoutes.validate_vertical. case_bool_decide as H; [tauto|].
    split; [intros E; discriminate E | tauto]. }
  assert (Hf : is_Some (ModelConfig.FEATURE_CONFIG !! v) <-> v = "auto" \/ v = "home").
  { rewrite FEATURE_CONFIG_lookup. repeat case_bool_decide; subst.
    - split; [now left | eauto].
    - split; [now right | eauto].
    - split; [intros [x Hx]; discriminate Hx | tauto]. }
  split; [|split; [|split]].
  - rewrite Hv. unfold LeadScorer.PRICE_MULTIPLIERS. now rewrite list_to_map_is_Some.
  - rewrite Hv. unfold ScoringService.multipliers. now rewrite list_to_map_is_Some.
  - exact Hf.
  - intros H. apply Hf in H. destruct H as [-> | ->]; reflexivity.
Qed.

(** ** Text cleaning and the TF-IDF vocabulary *)

Lemma more_frequent_total tokens : Total (FeatureEngineer.more_frequent tokens).
Proof. intros a b. unfold FeatureEngineer.more_frequent. lia. Qed.

Lemma more_frequent_trans tokens : Transitive (FeatureEngineer.more_frequent tokens).
Proof. intros a b c. unfold FeatureEngineer.more_frequent. lia. Qed.

(** X29.  When a text column has more distinct tokens than the
    vectorizer may keep, the vocabulary is made of the most frequent
    ones: no token left out occurs more often in the column than a token
    kept.  The vocabulary holds tokens of the column only, each once. *)
Theorem vocabulary_keeps_most_frequent (k : nat) (tokens : list string)
    (kept dropped : string) :
  kept ∈ FeatureEngineer.limit_features k tokens ->
  dropped ∈ tokens ->
  dropped ∉ FeatureEngineer.limit_features k tokens ->
  (count_occ_str dropped tokens <= count_occ_str kept tokens)%nat /\
  kept ∈ tokens /\
  NoDup (FeatureEngineer.limit_features k tokens).
Proof.
  unfold FeatureEngineer.limit_features.
  destruct (length (sorted_unique tokens) <=? k)%nat.
  { intros _ Hd Hn. exfalso. apply Hn. now apply elem_of_sorted_unique. }
  set (by_count := merge_sort (FeatureEngineer.more_frequent tokens) (sorted_unique tokens)).
  rewrite !merge_sort_Permutation. intros Hk Hd Hn.
  assert (Hsorted : StronglySorted (FeatureEngineer.more_frequent tokens) by_count)
    by (apply StronglySorted_merge_sort;
        [apply more_frequent_trans | apply more_frequent_total]).
  assert (Hperm : by_count ≡ₚ sorted_unique tokens) by apply merge_sort_Permutation.
  assert (Hdrop : dropped ∈ drop k by_count).
  { assert (Hin : dropped ∈ by_count)
      by (rewrite Hperm; now apply elem_of_sorted_unique).
    rewrite <- (take_drop k by_count) in Hin. apply elem_of_app in Hin as [Hin|Hin];
      [contradiction | exact Hin]. }
  rewrite <- (take_drop k by_count) in Hsorted.
  split; [exact (StronglySorted_app_1_elem_of _ _ _ _ _ Hsorted Hk Hdrop)|].
  split.
  - apply elem_of_sorted_unique. rewrite <- Hperm.
    rewrite <- (take_drop k by_count). apply elem_of_app. now left.
  - apply (NoDup_app (take k by_count) (drop k by_count)).
    rewrite take_drop, Hperm. apply NoDup_sorted_unique.
Qed.

Lemma vocabulary_keeps_most_frequent_witness :
  ("b" ∈ FeatureEngineer.limit_features 1 ["a"; "b"; "b"]) /\
  ("a" ∉ FeatureEngineer.limit_features 1 ["a"; "b"; "b"]) /\
  (count_occ_str "a" ["a"; "b"; "b"] <= count_occ_str "b" ["a"; "b"; "b"])%nat.
Proof.
  assert (Hk : "b" ∈ FeatureEngineer.limit_features 1 ["a"; "b"; "b"])
    by (vm_compute; left).
  assert (Hd : "a" ∈ ["a"; "b"; "b"]) by left.
  assert (Hn : "a" ∉ FeatureEngineer.limit_features 1 ["a"; "b"; "b"]).
  { change (FeatureEngineer.limit_features 1 ["a"; "b"; "b"]) with ["b"].
    intros H. apply list_elem_of_singleton in H. discriminate H. }
  split; [exact Hk|]. split; [exact Hn|].
  exact (proj1 (vocabulary_keeps_most_frequent 1 ["a"; "b"; "b"] "b" "a" Hk Hd Hn)).
Defined.

Lemma lower_char_bracket (c : ascii) :
  Ascii.eqb (lower_char c) "["%char = Ascii.eqb c "["%char.
Proof.
  destruct c as [[] [] [] [] [] [] [] []]; reflexivity.
Qed.

Lemma py_lower_bracket (s : string) : has_bracket (py_lower s) = has_bracket s.
Proof.
  induction s as [|c s IH]; [reflexivity|].
  cbn [py_lower has_bracket]. now rewrite lower_char_bracket, IH.
Qed.

Lemma remove_all_no_bracket (s : string) :
  has_bracket s = false -> remove_all "[^\w\s]" s = s.
Proof.
  unfold remove_all. induction s as [|c s IH]; [reflexivity|].
  cbn [has_bracket]. intros H. apply orb_false_iff in H as [Hc Hs].
  cbn [remove_all_aux].
  replace (String.prefix "[^\w\s]" (String c s)) with false.
  - cbn [andb]. now rewrite IH.
  - cbn [String.prefix]. destruct (ascii_dec "[" c) as [<-|Hne]; [discriminate Hc|].
    reflexivity.
Qed.

(** X30.  Cleaning lower-cases text and removes nothing else: the
    pattern handed to [str.replace] is taken literally, and text without
    an opening square bracket cannot contain it.  Punctuation therefore
    reaches the tokenizer. *)
Theorem cleaning_keeps_punctuation (cells : list PyVal) (texts : list string) :
  Forall2 (fun cell text => cell = VStr text /\ has_bracket text = false) cells texts ->
  FeatureEngineer._clean_text cells = Ok (map py_lower texts).
Proof.
  unfold FeatureEngineer._clean_text.
  induction 1 as [|cell text cells texts [-> Hb] _ IH]; [reflexivity|].
  cbn [result_for map FeatureEngineer.text_cell mbind Result_bind]. rewrite IH.
  rewrite remove_all_no_bracket by now rewrite py_lower_bracket.
  reflexivity.
Qed.

Lemma cleaning_keeps_punctuation_witness :
  FeatureEngineer._clean_text [VStr "R&D Manager, Inc."; VStr "Self-Employed!"]
  = Ok ["r&d manager, inc."; "self-employed!"].
Proof.
  exact (cleaning_keeps_punctuation
           [VStr "R&D Manager, Inc."; VStr "Self-Employed!"]
           ["R&D Manager, Inc."; "Self-Employed!"]
           ltac:(repeat constructor)).
Defined.
